(** * Multi-sport stats app: event derivation, totals and the MaxPreps export

    A shallow embedding of [app.py] (the sport plugins [FootballSpec],
    [SoccerSpec], [LacrosseSpec] and the [SportSpec] base class) and of
    [pages/6_Export_to_MaxPreps.py] ([build_maxpreps_txt] and its helpers).

    - A log is a pandas [DataFrame]: a list of column labels and a list of
      rows.  A row is an [Event] record with one field per key the forms
      write; a sparse attribute is [Absent] when the row's dict has no such
      key (pandas fills NaN there).
    - Code that can raise returns a [result]; the exceptions are those the
      source can meet: [KeyError] ([df["col"]] on a missing label),
      [AttributeError] ([.fillna] called on the scalar that
      [df.get(col, default)] hands back for a missing label), [IndexError]
      ([.iloc[0]] on an empty selection) and [ValueError].
    - The identity fields of a row ([player_key], names, positions, sport,
      stat type) are strings, as the forms and [read_roster_df] write
      them; numeric attributes hold a number, nothing, or a text that does
      not read as a number.
    - Integers are read exactly up to [2^53] in absolute value
      ([exact_int]); [int64] sums wrap around; floats are IEEE binary64
      ([PrimFloat]) and a float column is summed as numpy does, pairwise.
    - Python builtins whose exact text-level behaviour no property below
      depends on ([str.strip], [str.lower], [round], [str] of a float)
      are fields of the class [Builtins]. *)

From Stdlib Require Import ZArith List String Ascii Bool Lia Permutation.
From Stdlib Require Import Sorted RelationClasses OrdersEx DecimalString.
From Stdlib Require Import Floats.
Import ListNotations.

Set Implicit Arguments.
Set Warnings "-inexact-float".

Local Open Scope string_scope.
Local Open Scope Z_scope.

(** ** Exceptions and results *)

Inductive exn : Type :=
| KeyError (label : string)
| AttributeError (msg : string)
| IndexError
| ValueError (msg : string).

Inductive result (A : Type) : Type :=
| Ok (a : A)
| Raise (e : exn).

Arguments Ok {A} a.
Arguments Raise {A} e.

Definition bind {A B : Type} (r : result A) (k : A -> result B) : result B :=
  match r with
  | Ok a => k a
  | Raise e => Raise e
  end.

Notation "x <- r ;; k" := (bind r (fun x => k))
  (at level 61, r at next level, right associativity).
Notation "r ;;; k" := (bind r (fun _ => k))
  (at level 61, right associativity).

Definition raises {A : Type} (r : result A) : Prop :=
  exists e, r = Raise e.

(** ** Python builtins taken as parameters *)

Class Builtins : Type := {
  (** [s.strip()] *)
  str_strip : string -> string;
  (** [s.lower()] *)
  str_lower : string -> string;
  (** [round(x, ndigits)] on a float *)
  py_round : float -> Z -> float;
  (** [str(x)] of a float *)
  float_repr : float -> string
}.

(** ** Numbers *)

(** Two's complement wrap-around of numpy's [int64]. *)
Definition wrap64 (z : Z) : Z := (z + 2 ^ 63) mod 2 ^ 64 - 2 ^ 63.

(** [Series.sum()] of an [int64] column. *)
Definition int64_sum (l : list Z) : Z :=
  fold_left (fun acc x => wrap64 (acc + x)) l 0.

(** [mask.sum()]: the number of rows a boolean mask selects. *)
Definition count {A : Type} (p : A -> bool) (l : list A) : Z :=
  Z.of_nat (List.length (filter p l)).

(** The integer that [float(n)] holds for a natural number [n]: the
    nearest number with 53 significant bits, ties to the even one. *)
Definition round53 (n : Z) : Z :=
  let e := Z.log2 n - 52 in
  if e <=? 0 then n
  else
    let q := Z.shiftr n e in
    let r := Z.land n (Z.ones e) in
    let half := Z.shiftl 1 (e - 1) in
    let q' := if (half <? r) || ((r =? half) && Z.odd q) then q + 1 else q in
    Z.shiftl q' e.

(** [int(float(n))] of a Python int of any size; [None] when [float(n)]
    raises [OverflowError], from [2^1024 - 2^970] on. *)
Definition int_of_float_of_int (z : Z) : option Z :=
  let r := round53 (Z.abs z) in
  if r <? 2 ^ 1024 then Some (Z.sgn z * r) else None.

(** [float(n)] of a Python int of any size: the rounded integer is
    scaled down to 63 bits, converted exactly and scaled up again.  The
    result is an infinity where Python raises [OverflowError]. *)
Definition float_of_int (z : Z) : float :=
  let r := round53 (Z.abs z) in
  let e := Z.max 0 (Z.log2 r - 62) in
  let f := FloatOps.Z.ldexp (PrimFloat.of_uint63 (Uint63.of_Z (Z.shiftr r e))) e in
  if z <? 0 then PrimFloat.opp f else f.

(** One turn of numpy's unrolled loop: the next eight values are added
    to the eight accumulators. *)
Definition add8 (r chunk : list float) : list float :=
  map (fun p => PrimFloat.add (fst p) (snd p)) (combine r chunk).

(** The eight accumulators after the blocks of eight in [l]; [fuel]
    bounds the number of blocks. *)
Fixpoint lanes (fuel : nat) (r l : list float) : list float :=
  match fuel with
  | O => r
  | S k =>
      match l with
      | [] => r
      | _ => lanes k (add8 r (firstn 8 l)) (skipn 8 l)
      end
  end.

(** numpy's [pairwise_sum] on at most 128 values.  Fewer than eight are
    added from left to right, starting from [-0.0].  Otherwise eight
    accumulators take the values in turn, [r[j] += a[i + j]], over the
    full blocks of eight; they are combined as
    [((r0 + r1) + (r2 + r3)) + ((r4 + r5) + (r6 + r7))] and the values
    that are left are added one by one. *)
Definition unrolled_sum (l : list float) : float :=
  let n := List.length l in
  let full := (n - n mod 8)%nat in
  let body := firstn full l in
  match lanes full (firstn 8 body) (skipn 8 body) with
  | [r0; r1; r2; r3; r4; r5; r6; r7] =>
      fold_left PrimFloat.add (skipn full l)
        (PrimFloat.add
           (PrimFloat.add (PrimFloat.add r0 r1) (PrimFloat.add r2 r3))
           (PrimFloat.add (PrimFloat.add r4 r5) (PrimFloat.add r6 r7)))
  | _ => fold_left PrimFloat.add l PrimFloat.neg_zero
  end.

(** numpy's [pairwise_sum]: more than 128 values are split at
    [n2 = n / 2 - (n / 2) % 8] and the sums of the two parts are added.
    A part is shorter than the whole, so [fuel = n] is enough. *)
Fixpoint pairwise_sum (fuel : nat) (l : list float) : float :=
  match fuel with
  | O => unrolled_sum l
  | S k =>
      let n := List.length l in
      if (128 <? n)%nat then
        let n2 := (n / 2 - (n / 2) mod 8)%nat in
        PrimFloat.add (pairwise_sum k (firstn n2 l)) (pairwise_sum k (skipn n2 l))
      else unrolled_sum l
  end.

(** [Series.sum()] of a [float64] column without missing values:
    [np.add.reduce], which adds numpy's pairwise sum of the values to
    the identity [0.0]. *)
Definition float_sum (l : list float) : float :=
  PrimFloat.add 0%float (pairwise_sum (List.length l) l).

(** [str(n)] of a Python int. *)
Definition str_of_int (z : Z) : string :=
  NilZero.string_of_int (Z.to_int z).

(** ** Cells of a log *)

(** A sparse attribute of a row. *)
Inductive attr (A : Type) : Type :=
| Absent            (* the dict has no such key: NaN once in a frame *)
| PyNone            (* the key is there and holds None *)
| Val (a : A).

Arguments Absent {A}.
Arguments PyNone {A}.
Arguments Val {A} a.

(** What a numeric attribute can hold: a number, or a [str] that
    [pd.to_numeric] cannot read as one. *)
Inductive scalar (N : Type) : Type :=
| Num (n : N)
| Text (s : string).

Arguments Num {N} n.
Arguments Text {N} s.

Definition is_absent {A : Type} (a : attr A) : bool :=
  match a with Absent => true | _ => false end.

(** A numeric cell that pandas reads exactly whatever dtype its column
    has: a missing value, a text that is not a number, or a Python int of
    absolute value at most [2^53], which [int64] and [float64] both hold
    exactly. *)
Definition exact_int (c : attr (scalar Z)) : Prop :=
  match c with
  | Val (Num n) => Z.abs n <= 2 ^ 53
  | _ => True
  end.

(** [pd.to_numeric(col, errors="coerce").fillna(0).astype(int)], cell by
    cell, on [exact_int] cells: a missing value and a non-numeric text
    both give [0].  (Beyond [2^53] the value that is left depends on the
    dtype of the column: a column with a missing value goes through
    [float64].) *)
Definition to_int (c : attr (scalar Z)) : Z :=
  match c with
  | Val (Num n) => n
  | _ => 0
  end.

(** [pd.to_numeric(col, errors="coerce").fillna(0).astype(float)]; a NaN
    stored as a float is missing too. *)
Definition to_float (c : attr (scalar float)) : float :=
  match c with
  | Val (Num f) => if PrimFloat.is_nan f then 0%float else f
  | _ => 0%float
  end.

(** [col == s] on a column of optional strings. *)
Definition attr_is (s : string) (c : attr string) : bool :=
  match c with
  | Val v => String.eqb v s
  | _ => false
  end.

(** ** Roster *)

Module Roster.

(** One roster row as [read_roster_df] returns it; [number] is the
    nullable [Int64] column. *)
Record Player : Type := {
  first_name : string;
  last_name : string;
  number : option Z;
  positions : string
}.

(** [f"#{r['number']} {r['first_name']} {r['last_name']}"] *)
Definition player_key (p : Player) : string :=
  "#" ++ match number p with
         | Some n => str_of_int n
         | None => "<NA>"
         end ++ " " ++ first_name p ++ " " ++ last_name p.

Definition t : Type := list Player.

(** [roster["player_key"].tolist()] *)
Definition keys (roster : t) : list string := map player_key roster.

(** [roster.loc[roster["player_key"] == k].iloc[0]] *)
Definition loc_first (roster : t) (k : string) : result Player :=
  match find (fun p => String.eqb (player_key p) k) roster with
  | Some p => Ok p
  | None => Raise IndexError
  end.

(** [[pk for pk in roster["player_key"].tolist() if pk != player]] *)
Definition others (roster : t) (player : string) : list string :=
  filter (fun pk => negb (String.eqb pk player)) (keys roster).

End Roster.

(** ** Events and logs *)

Record Event : Type := {
  timestamp : string;
  sport : string;
  player_key : string;
  first_name : string;
  last_name : string;
  number : option Z;
  positions : string;
  side : string;
  notes : string;
  stat_type : string;
  outcome : attr string;
  yards : attr (scalar Z);
  touchdown : attr (scalar Z);
  on_target : attr (scalar Z);
  goal : attr (scalar Z);
  card : attr string;
  penalty_minutes : attr (scalar float);
  minutes : attr (scalar float)
}.

(** The keys every row dict carries ([base_row] and ["stat_type"]). *)
Definition base_keys : list string :=
  ["timestamp"; "sport"; "player_key"; "first_name"; "last_name"; "number";
   "positions"; "side"; "notes"; "stat_type"].

(** The keys of one row dict. *)
Definition keys_of (e : Event) : list string :=
  base_keys
  ++ (if is_absent (outcome e) then [] else ["outcome"])
  ++ (if is_absent (yards e) then [] else ["yards"])
  ++ (if is_absent (touchdown e) then [] else ["touchdown"])
  ++ (if is_absent (on_target e) then [] else ["on_target"])
  ++ (if is_absent (goal e) then [] else ["goal"])
  ++ (if is_absent (card e) then [] else ["card"])
  ++ (if is_absent (penalty_minutes e) then [] else ["penalty_minutes"])
  ++ (if is_absent (minutes e) then [] else ["minutes"]).

Record DataFrame : Type := {
  columns : list string;
  rows : list Event
}.

Definition has_column (label : string) (df : DataFrame) : bool :=
  existsb (String.eqb label) (columns df).

(** Labels of [extra] that [cols] does not have yet, in order. *)
Fixpoint add_labels (cols extra : list string) : list string :=
  match extra with
  | [] => cols
  | c :: rest =>
      if existsb (String.eqb c) cols then add_labels cols rest
      else add_labels (cols ++ [c]) rest
  end.

(** [pd.DataFrame()] *)
Definition empty_frame : DataFrame := {| columns := []; rows := [] |}.

(** [pd.DataFrame(new_rows)]: the columns are the union of the dicts'
    keys. *)
Definition frame_of_rows (new_rows : list Event) : DataFrame :=
  {| columns := fold_left (fun cols e => add_labels cols (keys_of e)) new_rows [];
     rows := new_rows |}.

(** [pd.concat([a, b], ignore_index=True)] *)
Definition concat (a b : DataFrame) : DataFrame :=
  {| columns := add_labels (columns a) (columns b);
     rows := rows a ++ rows b |}.

(** The log that "Create Game" installs. *)
Definition new_game_logs : DataFrame :=
  {| columns := ["timestamp"; "sport"; "player_key"; "first_name"; "last_name";
                 "number"; "positions"; "side"; "stat_type"; "outcome"; "yards";
                 "touchdown"; "notes"];
     rows := [] |}.

(** [df[label]]: a [KeyError] when the frame has no such column. *)
Definition getitem (df : DataFrame) (label : string) : result unit :=
  if has_column label df then Ok tt else Raise (KeyError label).

(** [df.get(label, default)....fillna(...)]: without the column, [get]
    returns the scalar default, [pd.to_numeric] passes a scalar number
    through, and the scalar has no [fillna]. *)
Definition get_then_fillna (df : DataFrame) (label : string) : result unit :=
  if has_column label df then Ok tt
  else Raise (AttributeError "object has no attribute 'fillna'").

(** [df.empty] *)
Definition empty (df : DataFrame) : bool :=
  match columns df, rows df with
  | [], _ => true
  | _, [] => true
  | _, _ => false
  end.

(** [df[df["sport"] == name]] *)
Definition filter_sport (name : string) (df : DataFrame) : result DataFrame :=
  getitem df "sport" ;;;
  Ok {| columns := columns df;
        rows := filter (fun e => String.eqb (sport e) name) (rows df) |}.

(** ** Grouping and sorting *)

(** Python compares [str] values by code point. *)
Definition str_ltb (a b : string) : bool :=
  match String.compare a b with Lt => true | _ => false end.

(** The strict order behind it. *)
Definition str_lt (a b : string) : Prop := String.compare a b = Lt.

(** Insert a key in an ascending list without duplicates. *)
Fixpoint insert_key (k : string) (l : list string) : list string :=
  match l with
  | [] => [k]
  | x :: rest =>
      match String.compare k x with
      | Lt => k :: l
      | Eq => l
      | Gt => x :: insert_key k rest
      end
  end.

(** The distinct keys of a column in ascending order. *)
Definition sorted_keys (l : list string) : list string :=
  fold_right insert_key [] l.

(** [df.groupby("player_key")]: one group per distinct key, groups in
    ascending key order ([sort=True]), each keeping its rows in the
    frame's order. *)
Definition groupby_player_key (evs : list Event) : list (string * list Event) :=
  map (fun k => (k, filter (fun e => String.eqb (player_key e) k) evs))
      (sorted_keys (map player_key evs)).

(** One row of a totals table: the identity columns, then the sport's
    own columns. *)
Record TotalsRow (S : Type) : Type := {
  t_player_key : string;
  t_first_name : string;
  t_last_name : string;
  t_number : option Z;
  t_positions : string;
  stats : S
}.

(** [grp[col].iloc[0]] for the four identity columns of a group; a group
    of [groupby] is never empty. *)
Definition identity_row {S : Type} (pk : string) (grp : list Event) (s : S)
  : TotalsRow S :=
  match grp with
  | e :: _ =>
      {| t_player_key := pk; t_first_name := first_name e;
         t_last_name := last_name e; t_number := number e;
         t_positions := positions e; stats := s |}
  | [] =>
      {| t_player_key := pk; t_first_name := ""; t_last_name := "";
         t_number := None; t_positions := ""; stats := s |}
  end.

(** Order of [sort_values(by=["last_name", "first_name"])]. *)
Definition name_leb {S : Type} (a b : TotalsRow S) : bool :=
  match String.compare (t_last_name a) (t_last_name b) with
  | Lt => true
  | Gt => false
  | Eq => negb (str_ltb (t_first_name b) (t_first_name a))
  end.

Fixpoint insert_row {S : Type} (r : TotalsRow S) (l : list (TotalsRow S))
  : list (TotalsRow S) :=
  match l with
  | [] => [r]
  | x :: rest => if name_leb r x then r :: l else x :: insert_row r rest
  end.

(** [sort_values(by=["last_name", "first_name"]).reset_index(drop=True)]:
    a stable sort, rows with equal names keep their order. *)
Definition sort_values {S : Type} (l : list (TotalsRow S)) : list (TotalsRow S) :=
  fold_right insert_row [] l.

(** The loop [for player_key, grp in df.groupby("player_key")] that
    appends one row per group, followed by the sort. *)
Definition totals_of {S : Type} (per_group : list Event -> S) (evs : list Event)
  : list (TotalsRow S) :=
  sort_values
    (map (fun g => identity_row (fst g) (snd g) (per_group (snd g)))
         (groupby_player_key evs)).

(** Columns every [aggregate_totals] reads with [grp[...]]. *)
Definition require (df : DataFrame) (labels : list string) : result unit :=
  fold_left (fun r l => r ;;; getitem df l) labels (Ok tt).

(** ** The base class *)

Module SportSpec.

(** [SportSpec.aggregate_totals]: [return pd.DataFrame()].  Baseball and
    Basketball inherit it. *)
Definition aggregate_totals (logs : DataFrame) : result (list (TotalsRow unit)) :=
  Ok [].

(** [SportSpec.build_form]: [{"submitted": False, "new_rows": []}] *)
Definition build_form (roster : Roster.t) : result (bool * list Event) :=
  Ok (false, []).

End SportSpec.

(** ** Football *)

Module Football.

Definition name : string := "Football".
Definition sides : list string := ["Offense"; "Defense"].

Definition offensive_stats : list string :=
  ["Reception"; "Run"; "Fumble"; "Pass"; "Field Goal"; "Punt"].
Definition defensive_stats : list string :=
  ["Forced Fumble"; "Sack"; "Interception"; "Tackle"; "Return"].

(** The widget values of one run of the form, by widget key. *)
Record Form : Type := {
  fb_player_select : string;
  fb_side_select : string;
  fb_stat_off : string;
  fb_stat_def : string;
  fb_pass_outcome : string;
  fb_fg_outcome : string;
  fb_yards : Z;
  fb_receiver : string;
  fb_pair_reception : bool;
  fb_td : bool;
  fb_notes : string;
  submitted : bool;
  now : string                 (* datetime.now().isoformat(...) *)
}.

Definition stat_type_of (f : Form) : string :=
  if String.eqb (fb_side_select f) "Offense" then fb_stat_off f
  else fb_stat_def f.

Definition mem (s : string) (l : list string) : bool :=
  existsb (String.eqb s) l.

(** [outcome] as the form leaves it. *)
Definition outcome_of (f : Form) : option string :=
  if String.eqb (fb_side_select f) "Offense" then
    if String.eqb (fb_stat_off f) "Pass" then Some (fb_pass_outcome f)
    else if String.eqb (fb_stat_off f) "Field Goal" then Some (fb_fg_outcome f)
    else None
  else None.

(** [yards] as the form leaves it: [None] unless a yards input was
    shown. *)
Definition yards_of (f : Form) : option Z :=
  if String.eqb (fb_side_select f) "Offense" then
    if mem (fb_stat_off f) ["Reception"; "Run"; "Punt"] then Some (fb_yards f)
    else if String.eqb (fb_stat_off f) "Pass" then
      if String.eqb (fb_pass_outcome f) "Complete" then Some (fb_yards f)
      else None
    else if String.eqb (fb_stat_off f) "Field Goal" then Some (fb_yards f)
    else None
  else
    if String.eqb (fb_stat_def f) "Return" then Some (fb_yards f) else None.

(** [touchdown_val] as the form leaves it. *)
Definition touchdown_of (f : Form) : Z :=
  let flag := if fb_td f then 1 else 0 in
  if String.eqb (fb_side_select f) "Offense" then
    if mem (fb_stat_off f) ["Reception"; "Run"] then flag
    else if String.eqb (fb_stat_off f) "Pass" then
      if String.eqb (fb_pass_outcome f) "Complete" then flag else 0
    else 0
  else
    if mem (fb_stat_def f) ["Return"; "Interception"] then flag else 0.

(** The options of the receiver select box. *)
Definition receiver_options (roster : Roster.t) (f : Form) : list string :=
  match Roster.others roster (fb_player_select f) with
  | [] => ["No eligible receivers"]
  | opts => opts
  end.

(** The widget values are among the options the form offers. *)
Definition well_formed (roster : Roster.t) (f : Form) : Prop :=
  In (fb_player_select f) (Roster.keys roster)
  /\ In (fb_side_select f) sides
  /\ In (fb_stat_off f) offensive_stats
  /\ In (fb_stat_def f) defensive_stats
  /\ In (fb_pass_outcome f) ["Complete"; "Incomplete"]
  /\ In (fb_fg_outcome f) ["Made"; "Miss"]
  /\ In (fb_receiver f) (receiver_options roster f).

Definition opt_attr {A B : Type} (g : A -> B) (o : option A) : attr B :=
  match o with
  | Some a => Val (g a)
  | None => PyNone
  end.

Section Form.
Context `{Builtins}.

(** [base_row | {"stat_type": ..., "outcome": ..., "yards": ...,
    "touchdown": ...}] for the roster row [p]. *)
Definition make_row (f : Form) (p : Roster.Player) (side_ stat : string)
           (out : option string) : Event :=
  {| timestamp := now f; sport := name;
     player_key := Roster.player_key p;
     first_name := Roster.first_name p;
     last_name := Roster.last_name p;
     number := Roster.number p;
     positions := Roster.positions p;
     side := side_; notes := str_strip (fb_notes f);
     stat_type := stat;
     outcome := opt_attr (fun s => s) out;
     yards := opt_attr Num (yards_of f);
     touchdown := Val (Num (touchdown_of f));
     on_target := Absent; goal := Absent; card := Absent;
     penalty_minutes := Absent; minutes := Absent |}.

(** The paired Reception: the [try] block; an unresolved receiver
    adds nothing. *)
Definition paired_reception (roster : Roster.t) (f : Form) : list Event :=
  match Roster.loc_first roster (fb_receiver f) with
  | Ok rcv => [make_row f rcv "Offense" "Reception" None]
  | Raise _ => []
  end.

(** [FootballSpec.build_form]: the pair [(submitted, new_rows)]. *)
Definition build_form (roster : Roster.t) (f : Form)
  : result (bool * list Event) :=
  if submitted f then
    pr <- Roster.loc_first roster (fb_player_select f) ;;
    let row := make_row f pr (fb_side_select f) (stat_type_of f) (outcome_of f) in
    let paired :=
      if String.eqb (fb_side_select f) "Offense"
         && String.eqb (stat_type_of f) "Pass"
         && match outcome_of f with
            | Some o => String.eqb o "Complete"
            | None => false
            end
         && fb_pair_reception f
      then paired_reception roster f else [] in
    Ok (true, row :: paired)
  else Ok (false, []).

End Form.

(** The sport's columns of a totals row, in the order the source fills
    them. *)
Record Stats : Type := {
  Receptions : Z; Receiving_Yards : Z; Receiving_TDs : Z;
  Rush_Attempts : Z; Rushing_Yards : Z; Rushing_TDs : Z;
  Punts : Z; Punt_Yards : Z; Fumbles : Z;
  Pass_Attempts : Z; Pass_Completions : Z; Pass_Yards : Z; Passing_TDs : Z;
  FG_Attempts : Z; FG_Made : Z; FG_Attempt_Yards_Total : Z;
  Forced_Fumbles : Z; Sacks : Z; Interceptions : Z; Tackles : Z;
  Return_Yards : Z; Defensive_TDs : Z;
  Touchdowns_Total : Z
}.

Definition is_stat (s : string) (e : Event) : bool := String.eqb (stat_type e) s.
Definition td (e : Event) : bool := to_int (touchdown e) =? 1.
Definition yd (e : Event) : Z := to_int (yards e).

(** The body of the [groupby] loop. *)
Definition group_stats (grp : list Event) : Stats :=
  let pass_df := filter (is_stat "Pass") grp in
  let fg_df := filter (is_stat "Field Goal") grp in
  let receiving_tds := count (fun e => is_stat "Reception" e && td e) grp in
  let rushing_tds := count (fun e => is_stat "Run" e && td e) grp in
  let passing_tds := count (fun e => attr_is "Complete" (outcome e) && td e) pass_df in
  let defensive_tds :=
    count (fun e => mem (stat_type e) ["Interception"; "Return"] && td e) grp in
  {| Receptions := count (is_stat "Reception") grp;
     Receiving_Yards := int64_sum (map yd (filter (is_stat "Reception") grp));
     Receiving_TDs := receiving_tds;
     Rush_Attempts := count (is_stat "Run") grp;
     Rushing_Yards := int64_sum (map yd (filter (is_stat "Run") grp));
     Rushing_TDs := rushing_tds;
     Punts := count (is_stat "Punt") grp;
     Punt_Yards := int64_sum (map yd (filter (is_stat "Punt") grp));
     Fumbles := count (is_stat "Fumble") grp;
     Pass_Attempts := Z.of_nat (List.length pass_df);
     Pass_Completions := count (fun e => attr_is "Complete" (outcome e)) pass_df;
     Pass_Yards :=
       int64_sum (map yd (filter (fun e => attr_is "Complete" (outcome e)) pass_df));
     Passing_TDs := passing_tds;
     FG_Attempts := Z.of_nat (List.length fg_df);
     FG_Made := count (fun e => attr_is "Made" (outcome e)) fg_df;
     FG_Attempt_Yards_Total := int64_sum (map yd fg_df);
     Forced_Fumbles := count (is_stat "Forced Fumble") grp;
     Sacks := count (is_stat "Sack") grp;
     Interceptions := count (is_stat "Interception") grp;
     Tackles := count (is_stat "Tackle") grp;
     Return_Yards := int64_sum (map yd (filter (is_stat "Return") grp));
     Defensive_TDs := defensive_tds;
     Touchdowns_Total := receiving_tds + rushing_tds + passing_tds + defensive_tds |}.

(** [df["yards"] = ...astype(int)] and [df["touchdown"] = ...astype(int)] *)
Definition coerce (e : Event) : Event :=
  {| timestamp := timestamp e; sport := sport e; player_key := player_key e;
     first_name := first_name e; last_name := last_name e; number := number e;
     positions := positions e; side := side e; notes := notes e;
     stat_type := stat_type e; outcome := outcome e;
     yards := Val (Num (to_int (yards e)));
     touchdown := Val (Num (to_int (touchdown e)));
     on_target := on_target e; goal := goal e; card := card e;
     penalty_minutes := penalty_minutes e; minutes := minutes e |}.

(** [FootballSpec.aggregate_totals] *)
Definition aggregate_totals (logs : DataFrame) : result (list (TotalsRow Stats)) :=
  df <- filter_sport name logs ;;
  if empty df then Ok []
  else
    getitem df "yards" ;;;
    get_then_fillna df "touchdown" ;;;
    require df ["player_key"; "first_name"; "last_name"; "number"; "positions";
                "stat_type"; "outcome"] ;;;
    Ok (totals_of group_stats (map coerce (rows df))).

End Football.

(** ** Soccer *)

Module Soccer.

Definition name : string := "Soccer".
Definition sides : list string := ["All"].

Definition stat_options : list string :=
  ["Shot"; "Pass"; "Tackle"; "Interception"; "Save"; "Foul"].

(** The widget values of one run of the form, by widget key. *)
Record Form : Type := {
  sc_player_select : string;
  sc_stat_type : string;
  sc_shot_on_target : string;      (* "Yes" or "No" *)
  sc_shot_goal : bool;
  sc_pass_outcome : string;
  sc_receiver : string;
  sc_pass_goal : bool;
  sc_foul_card : string;
  sc_notes : string;
  submitted : bool;
  now : string
}.

(** The options of the recipient select box. *)
Definition receiver_options (roster : Roster.t) (f : Form) : list string :=
  match Roster.others roster (sc_player_select f) with
  | [] => ["None"]
  | opts => opts
  end.

(** The widget values are among the options the form offers. *)
Definition well_formed (roster : Roster.t) (f : Form) : Prop :=
  In (sc_player_select f) (Roster.keys roster)
  /\ In (sc_stat_type f) stat_options
  /\ In (sc_shot_on_target f) ["Yes"; "No"]
  /\ In (sc_pass_outcome f) ["Complete"; "Incomplete"]
  /\ In (sc_receiver f) (receiver_options roster f)
  /\ In (sc_foul_card f) ["None"; "Yellow"; "Red"].

(** [receiver_key] as the form leaves it: [None] unless the pass is
    complete. *)
Definition receiver_key_of (f : Form) : option string :=
  if String.eqb (sc_pass_outcome f) "Complete" then Some (sc_receiver f)
  else None.

(** [resulted_goal] as the form leaves it. *)
Definition resulted_goal_of (f : Form) : bool :=
  if String.eqb (sc_pass_outcome f) "Complete" then sc_pass_goal f else false.

(** Truth value of [receiver_key and receiver_key != player_key]. *)
Definition other_receiver (f : Form) : bool :=
  match receiver_key_of f with
  | Some r => negb (String.eqb r "") && negb (String.eqb r (sc_player_select f))
  | None => false
  end.

Section Form.
Context `{Builtins}.

(** [base_row] for the roster row [p], with ["stat_type"] set. *)
Definition base_row (f : Form) (p : Roster.Player) (stat : string) : Event :=
  {| timestamp := now f; sport := name;
     player_key := Roster.player_key p;
     first_name := Roster.first_name p;
     last_name := Roster.last_name p;
     number := Roster.number p;
     positions := Roster.positions p;
     side := "All"; notes := str_strip (sc_notes f);
     stat_type := stat;
     outcome := Absent; yards := Absent; touchdown := Absent;
     on_target := Absent; goal := Absent; card := Absent;
     penalty_minutes := Absent; minutes := Absent |}.

Definition with_shot (e : Event) (ot g : Z) : Event :=
  {| timestamp := timestamp e; sport := sport e; player_key := player_key e;
     first_name := first_name e; last_name := last_name e; number := number e;
     positions := positions e; side := side e; notes := notes e;
     stat_type := stat_type e; outcome := outcome e; yards := yards e;
     touchdown := touchdown e;
     on_target := Val (Num ot); goal := Val (Num g); card := card e;
     penalty_minutes := penalty_minutes e; minutes := minutes e |}.

Definition with_outcome (e : Event) (o : string) : Event :=
  {| timestamp := timestamp e; sport := sport e; player_key := player_key e;
     first_name := first_name e; last_name := last_name e; number := number e;
     positions := positions e; side := side e; notes := notes e;
     stat_type := stat_type e; outcome := Val o; yards := yards e;
     touchdown := touchdown e; on_target := on_target e; goal := goal e;
     card := card e;
     penalty_minutes := penalty_minutes e; minutes := minutes e |}.

Definition with_card (e : Event) (c : string) : Event :=
  {| timestamp := timestamp e; sport := sport e; player_key := player_key e;
     first_name := first_name e; last_name := last_name e; number := number e;
     positions := positions e; side := side e; notes := notes e;
     stat_type := stat_type e; outcome := outcome e; yards := yards e;
     touchdown := touchdown e; on_target := on_target e; goal := goal e;
     card := Val c;
     penalty_minutes := penalty_minutes e; minutes := minutes e |}.

(** The recipient's Shot: the [try] block; an unresolved recipient
    adds nothing. *)
Definition paired_shot (roster : Roster.t) (f : Form) (receiver_key : string)
  : list Event :=
  match Roster.loc_first roster receiver_key with
  | Ok rcv => [with_shot (base_row f rcv "Shot") 1 1]
  | Raise _ => []
  end.

(** [SoccerSpec.build_form]: the pair [(submitted, new_rows)]. *)
Definition build_form (roster : Roster.t) (f : Form)
  : result (bool * list Event) :=
  if submitted f then
    pr <- Roster.loc_first roster (sc_player_select f) ;;
    let stat := sc_stat_type f in
    if String.eqb stat "Shot" then
      let ot := if String.eqb (sc_shot_on_target f) "Yes" then 1 else 0 in
      let g := if sc_shot_goal f then 1 else 0 in
      Ok (true, [with_shot (base_row f pr "Shot") ot g])
    else if String.eqb stat "Pass" then
      let row := with_outcome (base_row f pr "Pass") (sc_pass_outcome f) in
      let paired :=
        if String.eqb (sc_pass_outcome f) "Complete" && other_receiver f then
          if resulted_goal_of f then
            base_row f pr "Assist" :: paired_shot roster f (sc_receiver f)
          else []
        else [] in
      Ok (true, row :: paired)
    else if Football.mem stat ["Tackle"; "Interception"; "Save"] then
      Ok (true, [base_row f pr stat])
    else if String.eqb stat "Foul" then
      Ok (true, [with_card (base_row f pr "Foul") (sc_foul_card f)])
    else Ok (true, [])
  else Ok (false, []).

End Form.

Record Stats : Type := {
  Shots : Z; Shots_on_Target : Z; Goals : Z;
  Passes_Attempted : Z; Passes_Completed : Z;
  Assists : Z; Tackles : Z; Interceptions : Z; Saves : Z;
  Fouls : Z; Yellow_Cards : Z; Red_Cards : Z;
  Pass_Completion_pct : float
}.

Definition is_stat (s : string) (e : Event) : bool := String.eqb (stat_type e) s.

(** The three normalisations before the loop. *)
Definition coerce (e : Event) : Event :=
  {| timestamp := timestamp e; sport := sport e; player_key := player_key e;
     first_name := first_name e; last_name := last_name e; number := number e;
     positions := positions e; side := side e; notes := notes e;
     stat_type := stat_type e; outcome := outcome e; yards := yards e;
     touchdown := touchdown e;
     on_target := Val (Num (to_int (on_target e)));
     goal := Val (Num (to_int (goal e)));
     card := Val (match card e with Val c => c | _ => "None" end);
     penalty_minutes := penalty_minutes e; minutes := minutes e |}.

Section Totals.
Context `{Builtins}.

(** [round(100.0 * completed / attempted, 1) if attempted else 0.0] *)
Definition pass_completion_pct (completed attempted : Z) : float :=
  if attempted =? 0 then 0%float
  else py_round (PrimFloat.div
                   (PrimFloat.mul 100%float (float_of_int completed))
                   (float_of_int attempted)) 1.

(** The body of the [groupby] loop. *)
Definition group_stats (grp : list Event) : Stats :=
  let shot_df := filter (is_stat "Shot") grp in
  let pass_df := filter (is_stat "Pass") grp in
  let foul_df := filter (is_stat "Foul") grp in
  let attempted := Z.of_nat (List.length pass_df) in
  let completed := count (fun e => attr_is "Complete" (outcome e)) pass_df in
  {| Shots := count (is_stat "Shot") grp;
     Shots_on_Target := int64_sum (map (fun e => to_int (on_target e)) shot_df);
     Goals := int64_sum (map (fun e => to_int (goal e)) shot_df);
     Passes_Attempted := attempted;
     Passes_Completed := completed;
     Assists := count (is_stat "Assist") grp;
     Tackles := count (is_stat "Tackle") grp;
     Interceptions := count (is_stat "Interception") grp;
     Saves := count (is_stat "Save") grp;
     Fouls := Z.of_nat (List.length foul_df);
     Yellow_Cards := count (fun e => attr_is "Yellow" (card e)) foul_df;
     Red_Cards := count (fun e => attr_is "Red" (card e)) foul_df;
     Pass_Completion_pct := pass_completion_pct completed attempted |}.

(** [SoccerSpec.aggregate_totals] *)
Definition aggregate_totals (logs : DataFrame) : result (list (TotalsRow Stats)) :=
  df <- filter_sport name logs ;;
  if empty df then Ok []
  else
    get_then_fillna df "on_target" ;;;
    get_then_fillna df "goal" ;;;
    get_then_fillna df "card" ;;;
    require df ["player_key"; "first_name"; "last_name"; "number"; "positions";
                "stat_type"; "outcome"] ;;;
    Ok (totals_of group_stats (map coerce (rows df))).

End Totals.

End Soccer.

(** ** Lacrosse *)

Module Lacrosse.

Definition name : string := "Lacrosse".
Definition sides : list string := ["All"].

Definition stat_options : list string :=
  ["Goal"; "Assist"; "Shot"; "Ground Ball"; "Faceoff"; "Takeaway";
   "Interception"; "Turnover"; "Penalty"; "Save"; "Goal Allowed";
   "Goalie Minutes"].

(** The widget values of one run of the form, by widget key. *)
Record Form : Type := {
  lc_player_select : string;
  lc_stat_type : string;
  lc_assist : string;
  lc_sog : string;                 (* "Yes" or "No" *)
  lc_faceoff : string;
  lc_penmin : float;
  lc_minutes : float;
  lc_notes : string;
  submitted : bool;
  now : string
}.

(** The options of the "Assisted by" select box. *)
Definition assist_options (roster : Roster.t) (f : Form) : list string :=
  "None" :: Roster.others roster (lc_player_select f).

(** The widget values are among the options the form offers. *)
Definition well_formed (roster : Roster.t) (f : Form) : Prop :=
  In (lc_player_select f) (Roster.keys roster)
  /\ In (lc_stat_type f) stat_options
  /\ In (lc_assist f) (assist_options roster f)
  /\ In (lc_sog f) ["Yes"; "No"]
  /\ In (lc_faceoff f) ["Win"; "Loss"].

Section Form.
Context `{Builtins}.

(** [base] for the roster row [p], with ["stat_type"] set. *)
Definition base (f : Form) (p : Roster.Player) (stat : string) : Event :=
  {| timestamp := now f; sport := name;
     player_key := Roster.player_key p;
     first_name := Roster.first_name p;
     last_name := Roster.last_name p;
     number := Roster.number p;
     positions := Roster.positions p;
     side := "All"; notes := str_strip (lc_notes f);
     stat_type := stat;
     outcome := Absent; yards := Absent; touchdown := Absent;
     on_target := Absent; goal := Absent; card := Absent;
     penalty_minutes := Absent; minutes := Absent |}.

Definition with_goal (e : Event) (g : Z) : Event :=
  {| timestamp := timestamp e; sport := sport e; player_key := player_key e;
     first_name := first_name e; last_name := last_name e; number := number e;
     positions := positions e; side := side e; notes := notes e;
     stat_type := stat_type e; outcome := outcome e; yards := yards e;
     touchdown := touchdown e; on_target := on_target e;
     goal := Val (Num g); card := card e;
     penalty_minutes := penalty_minutes e; minutes := minutes e |}.

Definition with_on_target (e : Event) (ot : Z) : Event :=
  {| timestamp := timestamp e; sport := sport e; player_key := player_key e;
     first_name := first_name e; last_name := last_name e; number := number e;
     positions := positions e; side := side e; notes := notes e;
     stat_type := stat_type e; outcome := outcome e; yards := yards e;
     touchdown := touchdown e; on_target := Val (Num ot);
     goal := goal e; card := card e;
     penalty_minutes := penalty_minutes e; minutes := minutes e |}.

Definition with_outcome (e : Event) (o : string) : Event :=
  {| timestamp := timestamp e; sport := sport e; player_key := player_key e;
     first_name := first_name e; last_name := last_name e; number := number e;
     positions := positions e; side := side e; notes := notes e;
     stat_type := stat_type e; outcome := Val o; yards := yards e;
     touchdown := touchdown e; on_target := on_target e;
     goal := goal e; card := card e;
     penalty_minutes := penalty_minutes e; minutes := minutes e |}.

Definition with_penalty_minutes (e : Event) (m : float) : Event :=
  {| timestamp := timestamp e; sport := sport e; player_key := player_key e;
     first_name := first_name e; last_name := last_name e; number := number e;
     positions := positions e; side := side e; notes := notes e;
     stat_type := stat_type e; outcome := outcome e; yards := yards e;
     touchdown := touchdown e; on_target := on_target e;
     goal := goal e; card := card e;
     penalty_minutes := Val (Num m); minutes := minutes e |}.

Definition with_minutes (e : Event) (m : float) : Event :=
  {| timestamp := timestamp e; sport := sport e; player_key := player_key e;
     first_name := first_name e; last_name := last_name e; number := number e;
     positions := positions e; side := side e; notes := notes e;
     stat_type := stat_type e; outcome := outcome e; yards := yards e;
     touchdown := touchdown e; on_target := on_target e;
     goal := goal e; card := card e;
     penalty_minutes := penalty_minutes e; minutes := Val (Num m) |}.

(** The Assist of a Goal: the [try] block; an unresolved assister adds
    nothing. *)
Definition paired_assist (roster : Roster.t) (f : Form) : list Event :=
  match Roster.loc_first roster (lc_assist f) with
  | Ok a => [base f a "Assist"]
  | Raise _ => []
  end.

(** [LacrosseSpec.build_form]: the pair [(submitted, new_rows)]. *)
Definition build_form (roster : Roster.t) (f : Form)
  : result (bool * list Event) :=
  if submitted f then
    pr <- Roster.loc_first roster (lc_player_select f) ;;
    let stat := lc_stat_type f in
    if String.eqb stat "Goal" then
      let assist :=
        if negb (String.eqb (lc_assist f) "")
           && negb (String.eqb (lc_assist f) "None")
        then paired_assist roster f else [] in
      Ok (true, with_goal (base f pr "Goal") 1
                :: with_on_target (base f pr "Shot") 1 :: assist)
    else if String.eqb stat "Assist" then Ok (true, [base f pr "Assist"])
    else if String.eqb stat "Shot" then
      Ok (true, [with_on_target (base f pr "Shot")
                   (if String.eqb (lc_sog f) "Yes" then 1 else 0)])
    else if String.eqb stat "Ground Ball" then
      Ok (true, [base f pr "Ground Ball"])
    else if String.eqb stat "Faceoff" then
      Ok (true, [with_outcome (base f pr "Faceoff") (lc_faceoff f)])
    else if Football.mem stat
              ["Takeaway"; "Interception"; "Turnover"; "Save"; "Goal Allowed"]
    then Ok (true, [base f pr stat])
    else if String.eqb stat "Penalty" then
      Ok (true, [with_penalty_minutes (base f pr "Penalty") (lc_penmin f)])
    else if String.eqb stat "Goalie Minutes" then
      Ok (true, [with_minutes (base f pr "Goalie Minutes") (lc_minutes f)])
    else Ok (true, [])
  else Ok (false, []).

End Form.

Record Stats : Type := {
  Goals : Z; Shots : Z; Shots_on_Goal : Z; Assists : Z; Points : Z;
  Ground_Balls : Z;
  Faceoffs_Attempted : Z; Faceoffs_Won : Z; Faceoff_pct : float;
  Takeaways : Z; Interceptions : Z; Caused_Turnovers : Z; Turnovers : Z;
  Penalties : Z; Penalty_Minutes : float;
  Saves : Z; Goals_Allowed : Z; Minutes : float;
  Shots_on_Goal_Faced : Z; Save_pct : float; GAA : float;
  Shooting_pct : float; SOG_Rate_pct : float
}.

Definition is_stat (s : string) (e : Event) : bool := String.eqb (stat_type e) s.

(** The three normalisations before the loop. *)
Definition coerce (e : Event) : Event :=
  {| timestamp := timestamp e; sport := sport e; player_key := player_key e;
     first_name := first_name e; last_name := last_name e; number := number e;
     positions := positions e; side := side e; notes := notes e;
     stat_type := stat_type e; outcome := outcome e; yards := yards e;
     touchdown := touchdown e;
     on_target := Val (Num (to_int (on_target e)));
     goal := goal e; card := card e;
     penalty_minutes := Val (Num (to_float (penalty_minutes e)));
     minutes := Val (Num (to_float (minutes e))) |}.

Section Totals.
Context `{Builtins}.

(** [round(100*a/b, 1) if b else 0.0]; [a] and [b] are ints, and
    CPython divides two ints below [2^53] as doubles. *)
Definition pct (a b : Z) : float :=
  if b =? 0 then 0%float
  else py_round (PrimFloat.div (float_of_int (100 * a)) (float_of_int b)) 1.

(** [round((allowed*48)/minutes, 2) if minutes > 0 else 0.0] *)
Definition gaa (allowed : Z) (mins : float) : float :=
  if PrimFloat.ltb 0%float mins
  then py_round (PrimFloat.div (float_of_int (allowed * 48)) mins) 2
  else 0%float.

(** The body of the [groupby] loop. *)
Definition group_stats (grp : list Event) : Stats :=
  let goals := count (is_stat "Goal") grp in
  let shots := filter (is_stat "Shot") grp in
  let n_shots := Z.of_nat (List.length shots) in
  let sog := int64_sum (map (fun e => to_int (on_target e)) shots) in
  let assists := count (is_stat "Assist") grp in
  let fo := filter (is_stat "Faceoff") grp in
  let fo_att := Z.of_nat (List.length fo) in
  let fo_won := count (fun e => attr_is "Win" (outcome e)) fo in
  let takeaways := count (is_stat "Takeaway") grp in
  let interceptions := count (is_stat "Interception") grp in
  let pen := filter (is_stat "Penalty") grp in
  let saves := count (is_stat "Save") grp in
  let allowed := count (is_stat "Goal Allowed") grp in
  let mins :=
    float_sum (map (fun e => to_float (minutes e))
                   (filter (is_stat "Goalie Minutes") grp)) in
  let sog_faced := saves + allowed in
  {| Goals := goals; Shots := n_shots; Shots_on_Goal := sog;
     Assists := assists; Points := goals + assists;
     Ground_Balls := count (is_stat "Ground Ball") grp;
     Faceoffs_Attempted := fo_att; Faceoffs_Won := fo_won;
     Faceoff_pct := pct fo_won fo_att;
     Takeaways := takeaways; Interceptions := interceptions;
     Caused_Turnovers := takeaways + interceptions;
     Turnovers := count (is_stat "Turnover") grp;
     Penalties := Z.of_nat (List.length pen);
     Penalty_Minutes :=
       match pen with
       | [] => 0%float
       | _ => float_sum (map (fun e => to_float (penalty_minutes e)) pen)
       end;
     Saves := saves; Goals_Allowed := allowed; Minutes := mins;
     Shots_on_Goal_Faced := sog_faced;
     Save_pct := pct saves sog_faced;
     GAA := gaa allowed mins;
     Shooting_pct := pct goals sog;
     SOG_Rate_pct := pct sog n_shots |}.

(** [LacrosseSpec.aggregate_totals] *)
Definition aggregate_totals (logs : DataFrame) : result (list (TotalsRow Stats)) :=
  df <- filter_sport name logs ;;
  if empty df then Ok []
  else
    get_then_fillna df "on_target" ;;;
    get_then_fillna df "penalty_minutes" ;;;
    get_then_fillna df "minutes" ;;;
    require df ["player_key"; "first_name"; "last_name"; "number"; "positions";
                "stat_type"; "outcome"] ;;;
    Ok (totals_of group_stats (map coerce (rows df))).

End Totals.

End Lacrosse.

(** ** The MaxPreps exporter *)

Module MaxPreps.

(** A cell of the totals sheet. *)
Inductive cell : Type :=
| NA                      (* None or NaN *)
| Str (s : string)
| Int (z : Z)
| Flt (f : float).

(** A row gives a cell for each column label. *)
Record Table : Type := {
  columns : list string;
  rows : list (string -> cell)
}.

Definition MAXPREPS_FIELDS : list string :=
  ["Jersey"; "RushingNum"; "RushingYards"; "RushingLong"; "ReceivingNum";
   "ReceivingYards"; "ReceivingLong"; "PassingComp"; "PassingAtt"; "PassingInt";
   "PassingYards"; "PassingTD"; "PassingLong"; "OffensiveFumbles";
   "OffensiveFumblesLost"; "PancakeBlocks"; "Tackles"; "Assists"; "TotalTackles";
   "TacklesForLoss"; "Sacks"; "SacksYardsLost"; "QBHurries"; "INTs"; "INTYards";
   "PassesDefensed"; "BlockedPunts"; "BlockedFG"; "FumbleRecoveries";
   "FumbleRecoveryYards"; "CausedFumbles"; "PuntReturnNum"; "PuntReturnYards";
   "PuntReturnLong"; "PuntReturnFairCatches"; "KickoffReturnNum";
   "KickoffReturnYards"; "KickoffReturnLong"; "TotalReturnYards"; "PuntNum";
   "PuntYards"; "PuntLong"; "PuntInside20"; "KickoffNum"; "KickoffYards";
   "KickoffLong"; "KickoffTouchbacks"; "Touchdowns"; "RushingTDNum";
   "ReceivingTDNum"; "FumbleReturnedTDNum"; "IntReturnedTDNum";
   "PuntReturnedTDNum"; "KickoffReturnedTDNum"; "TotalTDNum"; "PATKickingMade";
   "PATKickingAtt"; "PATKickingPoints"; "PATRushingNum"; "PATReceivingNum";
   "TotalConversionPoints"; "FGMade"; "FGAttempted"; "FGLong"; "Safeties";
   "TotalPoints"].

Definition supplier_id : string := "669ae75f-4563-494a-8c17-370aaa8539d4".

Definition newline : string := String (ascii_of_nat 10) EmptyString.

Definition mem (s : string) (l : list string) : bool :=
  existsb (String.eqb s) l.

(** [pd.isna(x)] *)
Definition isna (x : cell) : bool :=
  match x with
  | NA => true
  | Flt f => PrimFloat.is_nan f
  | _ => false
  end.

(** The integer a float equals, when [f.is_integer()]: [int(f)]. *)
Definition int_of_whole (f : float) : option Z :=
  match Prim2SF f with
  | S754_zero _ => Some 0
  | S754_finite neg m e =>
      let sign := if neg then -1 else 1 in
      if 0 <=? e then Some (sign * (Z.pos m * 2 ^ e))
      else if Z.pos m mod 2 ^ (- e) =? 0 then Some (sign * (Z.pos m / 2 ^ (- e)))
      else None
  | _ => None
  end.

Section Exporter.
Context `{Builtins}.

(** [str(x)] of a cell that is not missing. *)
Definition py_str (x : cell) : string :=
  match x with
  | NA => "nan"
  | Str s => s
  | Int z => str_of_int z
  | Flt f => float_repr f
  end.

(** [coerce_str_no_nan] *)
Definition coerce_str_no_nan (x : cell) : string :=
  if isna x then ""
  else match x with
       | Str s => str_strip s
       | Int z =>
           match int_of_float_of_int z with
           | Some n => str_of_int n
           | None => py_str x
           end
       | Flt f =>
           match int_of_whole f with
           | Some n => str_of_int n
           | None => py_str x
           end
       | NA => ""
       end.

(** [resolve_column_name_case_insensitive] *)
Definition resolve_column_name_case_insensitive (df : Table) (name : string)
  : string :=
  let target := str_lower (str_strip name) in
  match find (fun c => String.eqb (str_lower (str_strip c)) target) (columns df) with
  | Some c => c
  | None => name
  end.

(** [df[sheet_col].apply(lambda v: not pd.isna(v) and
    str(v).strip() != "").any()] *)
Definition has_any (df : Table) (sheet_col : string) : bool :=
  existsb (fun row =>
             let v := row sheet_col in
             negb (isna v) && negb (String.eqb (str_strip (py_str v)) ""))
          (rows df).

(** [choose_fields_to_include]; [field_map] lists the dict's items in
    insertion order. *)
Definition choose_fields_to_include (df : Table)
           (field_map : list (string * string)) : list string :=
  let included :=
    flat_map (fun item =>
                let '(sheet_col, mp_field) := item in
                if String.eqb mp_field "Jersey" then []
                else if mem sheet_col (columns df) && has_any df sheet_col
                     then [mp_field] else [])
             field_map in
  let order := filter (fun f => negb (String.eqb f "Jersey")) MAXPREPS_FIELDS in
  let included_sorted := filter (fun f => mem f included) order in
  let extras := filter (fun f => negb (mem f included_sorted)) included in
  included_sorted ++ extras.

(** The dict [reverse_map], latest assignment first. *)
Definition reverse_map_of (df : Table) (field_map : list (string * string))
  : list (string * string) :=
  fold_left
    (fun acc item =>
       let '(sheet_col, mp_field) := item in
       if mem sheet_col (columns df) then (mp_field, sheet_col) :: acc
       else
         let resolved := resolve_column_name_case_insensitive df sheet_col in
         if mem resolved (columns df) then (mp_field, resolved) :: acc
         else acc)
    field_map [].

(** [reverse_map.get(mp_field)] *)
Definition reverse_get (reverse_map : list (string * string)) (mp_field : string)
  : option string :=
  match find (fun kv => String.eqb (fst kv) mp_field) reverse_map with
  | Some kv => Some (snd kv)
  | None => None
  end.

(** The values after the jersey in one line: [values[1:]]. *)
Definition field_values (reverse_map : list (string * string))
           (included_fields : list string) (row : string -> cell) : list string :=
  map (fun mp_field =>
         match reverse_get reverse_map mp_field with
         | Some sheet_col =>
             if String.eqb sheet_col "" then ""
             else coerce_str_no_nan (row sheet_col)
         | None => ""
         end)
      included_fields.

(** One turn of the loop over [df.iterrows()]: the lines it appends. *)
Definition row_lines (jersey_column : string)
           (reverse_map : list (string * string))
           (included_fields : list string) (row : string -> cell) : list string :=
  let jersey_val := coerce_str_no_nan (row jersey_column) in
  if String.eqb jersey_val "" then []
  else
    let values := field_values reverse_map included_fields row in
    if existsb (fun v => negb (String.eqb v "")) values
    then [String.concat "|" (jersey_val :: values)]
    else [].

(** The list [lines] when the loop ends. *)
Definition export_lines (df : Table) (field_map : list (string * string))
           (jersey_column : string) : list string :=
  let reverse_map := reverse_map_of df field_map in
  let included_fields := choose_fields_to_include df field_map in
  [supplier_id; String.concat "|" ("Jersey" :: included_fields)]
  ++ flat_map (row_lines jersey_column reverse_map included_fields) (rows df).

(** [build_maxpreps_txt] *)
Definition build_maxpreps_txt (df : Table) (field_map : list (string * string))
           (jersey_column_name : string) : result string :=
  let jersey_column_resolved :=
    resolve_column_name_case_insensitive df jersey_column_name in
  if negb (mem jersey_column_resolved (columns df)) then
    Raise (ValueError "Missing required jersey column")
  else
    Ok (String.concat newline (export_lines df field_map jersey_column_resolved)
        ++ newline).

End Exporter.

End MaxPreps.

(** ** An instance of the builtins for running examples

    ASCII only: [strip] removes blanks, [lower] maps [A-Z] to [a-z];
    rounding and the text of a fractional float are left as they come. *)

Definition is_blank (c : ascii) : bool :=
  let n := nat_of_ascii c in
  ((9 <=? n) && (n <=? 13))%nat || (n =? 32)%nat.

Fixpoint lstrip (s : string) : string :=
  match s with
  | String c rest => if is_blank c then lstrip rest else s
  | EmptyString => EmptyString
  end.

Fixpoint rstrip (s : string) : string :=
  match s with
  | String c rest =>
      match rstrip rest with
      | EmptyString => if is_blank c then EmptyString else String c EmptyString
      | r => String c r
      end
  | EmptyString => EmptyString
  end.

Definition lower_ascii (c : ascii) : ascii :=
  let n := nat_of_ascii c in
  if ((65 <=? n) && (n <=? 90))%nat then ascii_of_nat (n + 32) else c.

Fixpoint lower (s : string) : string :=
  match s with
  | String c rest => String (lower_ascii c) (lower rest)
  | EmptyString => EmptyString
  end.

Definition ascii_builtins : Builtins :=
  {| str_strip := fun s => rstrip (lstrip s);
     str_lower := lower;
     py_round := fun x _ => x;
     float_repr := fun _ => "<float>" |}.

(** ** The session's log and its totals *)

(** "Log a Stat": the rows a submitted form returns are appended to the
    session's log. *)
Definition log_stat (logs : DataFrame) (res : result (bool * list Event))
  : DataFrame :=
  match res with
  | Ok (true, (_ :: _) as new_rows) => concat logs (frame_of_rows new_rows)
  | _ => logs
  end.

(** Two events carry the same identity columns. *)
Definition same_identity (a b : Event) : Prop :=
  first_name a = first_name b /\ last_name a = last_name b
  /\ number a = number b /\ positions a = positions b.

(** The events of one player in one sport agree on the identity columns. *)
Definition identity_consistent (evs : list Event) : Prop :=
  forall a b, In a evs -> In b evs ->
    sport a = sport b -> player_key a = player_key b -> same_identity a b.

(** The events of player [k] in sport [name], in the log's order. *)
Definition player_events (name k : string) (logs : DataFrame) : list Event :=
  filter (fun e => String.eqb (sport e) name && String.eqb (player_key e) k)
         (rows logs).

Definition map_stats {S T : Type} (g : S -> T) (r : TotalsRow S) : TotalsRow T :=
  {| t_player_key := t_player_key r; t_first_name := t_first_name r;
     t_last_name := t_last_name r; t_number := t_number r;
     t_positions := t_positions r; stats := g (stats r) |}.

Definition result_map {A B : Type} (g : A -> B) (r : result A) : result B :=
  match r with
  | Ok a => Ok (g a)
  | Raise e => Raise e
  end.

(** A Lacrosse row without its float sums: Penalty Minutes, Minutes, and
    GAA, which is computed from Minutes. *)
Definition without_float_sums (s : Lacrosse.Stats) : Lacrosse.Stats :=
  {| Lacrosse.Goals := Lacrosse.Goals s; Lacrosse.Shots := Lacrosse.Shots s;
     Lacrosse.Shots_on_Goal := Lacrosse.Shots_on_Goal s;
     Lacrosse.Assists := Lacrosse.Assists s; Lacrosse.Points := Lacrosse.Points s;
     Lacrosse.Ground_Balls := Lacrosse.Ground_Balls s;
     Lacrosse.Faceoffs_Attempted := Lacrosse.Faceoffs_Attempted s;
     Lacrosse.Faceoffs_Won := Lacrosse.Faceoffs_Won s;
     Lacrosse.Faceoff_pct := Lacrosse.Faceoff_pct s;
     Lacrosse.Takeaways := Lacrosse.Takeaways s;
     Lacrosse.Interceptions := Lacrosse.Interceptions s;
     Lacrosse.Caused_Turnovers := Lacrosse.Caused_Turnovers s;
     Lacrosse.Turnovers := Lacrosse.Turnovers s;
     Lacrosse.Penalties := Lacrosse.Penalties s;
     Lacrosse.Penalty_Minutes := 0%float;
     Lacrosse.Saves := Lacrosse.Saves s;
     Lacrosse.Goals_Allowed := Lacrosse.Goals_Allowed s;
     Lacrosse.Minutes := 0%float;
     Lacrosse.Shots_on_Goal_Faced := Lacrosse.Shots_on_Goal_Faced s;
     Lacrosse.Save_pct := Lacrosse.Save_pct s;
     Lacrosse.GAA := 0%float;
     Lacrosse.Shooting_pct := Lacrosse.Shooting_pct s;
     Lacrosse.SOG_Rate_pct := Lacrosse.SOG_Rate_pct s |}.

(** Sum of a list of integers, without wrap-around. *)
Definition list_sum (l : list Z) : Z := fold_right Z.add 0 l.

(** The frame has every one of the labels. *)
Definition has_columns (labels : list string) (df : DataFrame) : bool :=
  forallb (fun l => has_column l df) labels.

(** The columns each [aggregate_totals] reads. *)
Definition identity_columns : list string :=
  ["player_key"; "first_name"; "last_name"; "number"; "positions"; "stat_type";
   "outcome"].
Definition football_columns : list string :=
  ["sport"; "yards"; "touchdown"] ++ identity_columns.
Definition soccer_columns : list string :=
  ["sport"; "on_target"; "goal"; "card"] ++ identity_columns.
Definition lacrosse_columns : list string :=
  ["sport"; "on_target"; "penalty_minutes"; "minutes"] ++ identity_columns.

(** The rows of the log that belong to sport [name]. *)
Definition sport_events (name : string) (logs : DataFrame) : list Event :=
  filter (fun e => String.eqb (sport e) name) (rows logs).

(** ** Sheet ids, file names and the jersey guess *)

(** [[a-zA-Z0-9\-_]] *)
Definition is_id_char (c : ascii) : bool :=
  let n := nat_of_ascii c in
  (((97 <=? n) && (n <=? 122)) || ((65 <=? n) && (n <=? 90))
   || ((48 <=? n) && (n <=? 57)) || (n =? 45) || (n =? 95))%nat.

(** [s] without the prefix [p], when it starts with it. *)
Fixpoint strip_prefix (p s : string) : option string :=
  match p with
  | EmptyString => Some s
  | String a p' =>
      match s with
      | String b s' => if Ascii.eqb a b then strip_prefix p' s' else None
      | EmptyString => None
      end
  end.

(** The longest prefix of [s] whose characters pass [f]. *)
Fixpoint take_while (f : ascii -> bool) (s : string) : string :=
  match s with
  | String c rest => if f c then String c (take_while f rest) else EmptyString
  | EmptyString => EmptyString
  end.

(** A match of [/spreadsheets/d/([a-zA-Z0-9\-_]+)] that starts at the
    head of [s]: its group 1. *)
Definition match_sheet_id_here (s : string) : option string :=
  match strip_prefix "/spreadsheets/d/" s with
  | Some rest =>
      match take_while is_id_char rest with
      | EmptyString => None
      | id => Some id
      end
  | None => None
  end.

(** [re.search(r"/spreadsheets/d/([a-zA-Z0-9\-_]+)", s)]: group 1 of the
    leftmost match. *)
Fixpoint search_sheet_id (s : string) : option string :=
  match match_sheet_id_here s with
  | Some id => Some id
  | None =>
      match s with
      | String _ rest => search_sheet_id rest
      | EmptyString => None
      end
  end.

(** [needle in hay] *)
Fixpoint contains (needle hay : string) : bool :=
  match strip_prefix needle hay with
  | Some _ => true
  | None =>
      match hay with
      | String _ rest => contains needle rest
      | EmptyString => false
      end
  end.

(** [s.endswith(suffix)] *)
Definition ends_with (suffix s : string) : bool :=
  let n := String.length s in
  let m := String.length suffix in
  (m <=? n)%nat && String.eqb (substring (n - m) m s) suffix.

(** The characters that [sanitize_filename] deletes with [re.sub]: the
    double quote, the single quote and the two parentheses. *)
Definition is_quote_or_paren (c : ascii) : bool :=
  let n := nat_of_ascii c in
  ((n =? 34) || (n =? 39) || (n =? 40) || (n =? 41))%nat.

Fixpoint remove_chars (f : ascii -> bool) (s : string) : string :=
  match s with
  | String c rest =>
      if f c then remove_chars f rest else String c (remove_chars f rest)
  | EmptyString => EmptyString
  end.

Section Helpers.
Context `{Builtins}.

(** [parse_sheet_id_from_url] *)
Definition parse_sheet_id_from_url (url_or_id : string) : string :=
  match search_sheet_id url_or_id with
  | Some id => id
  | None => str_strip url_or_id
  end.

(** [sanitize_filename] *)
Definition sanitize_filename (name : string) : string :=
  let name := remove_chars is_quote_or_paren name in
  if negb (ends_with ".txt" (str_lower name)) then name ++ ".txt" else name.

(** The candidate headers of [guess_jersey_column]. *)
Definition jersey_candidates : list string :=
  ["jersey"; "number"; "player number"; "no"; "num"; "player #"; "player_num";
   "player_number"].

(** [lowered[key]] for [lowered = {c.lower(): c for c in columns}]: the
    last column whose lowercase is [key]. *)
Definition lowered_get (columns : list string) (key : string) : option string :=
  find (fun c => String.eqb (str_lower c) key) (rev columns).

(** The heuristic test on one column. *)
Definition looks_like_jersey (c : string) : bool :=
  let cl := str_lower c in
  contains "jersey" cl || contains "number" cl
  || existsb (String.eqb cl) ["#"; "no"; "num"].

Fixpoint first_candidate (columns : list string) (keys : list string)
  : option string :=
  match keys with
  | [] => None
  | key :: rest =>
      match lowered_get columns key with
      | Some c => Some c
      | None => first_candidate columns rest
      end
  end.

(** [guess_jersey_column] *)
Definition guess_jersey_column (columns : list string) : option string :=
  match first_candidate columns jersey_candidates with
  | Some c => Some c
  | None => find looks_like_jersey columns
  end.

(** [choose_fields_to_include_for_sport], the variant the page's form
    uses; [declared] is the sport's field list. *)
Definition choose_fields_to_include_for_sport (df : MaxPreps.Table)
           (field_map : list (string * string)) (declared : list string)
  : list string :=
  let included :=
    flat_map (fun item =>
                let '(sheet_col, mp_field) := item in
                if String.eqb mp_field "Jersey" then []
                else if MaxPreps.mem sheet_col (MaxPreps.columns df)
                        && (MaxPreps.has_any df sheet_col
                            && (match declared with [] => true | _ => false end
                                || MaxPreps.mem mp_field declared))
                     then [mp_field] else [])
             field_map in
  let order :=
    match declared with
    | [] => filter (fun f => negb (String.eqb f "Jersey")) MaxPreps.MAXPREPS_FIELDS
    | _ => declared
    end in
  let included_sorted := filter (fun f => MaxPreps.mem f included) order in
  let extras := filter (fun f => negb (MaxPreps.mem f included_sorted)) included in
  included_sorted ++ extras.

(** [_build], the builder the page's form calls. *)
Definition build_for_sport (df : MaxPreps.Table)
           (field_map : list (string * string)) (jersey : string)
           (declared : list string) : result string :=
  let reverse_map := MaxPreps.reverse_map_of df field_map in
  let included := choose_fields_to_include_for_sport df field_map declared in
  let head_lines := [MaxPreps.supplier_id; String.concat "|" ("Jersey" :: included)] in
  let jersey_col_res := MaxPreps.resolve_column_name_case_insensitive df jersey in
  if negb (MaxPreps.mem jersey_col_res (MaxPreps.columns df)) then
    Raise (ValueError "Missing required jersey column")
  else
    Ok (String.concat MaxPreps.newline
          (head_lines
           ++ flat_map (MaxPreps.row_lines jersey_col_res reverse_map included)
                       (MaxPreps.rows df))
        ++ MaxPreps.newline).

End Helpers.

(** All the characters of [s] pass [f]. *)
Fixpoint all_chars (f : ascii -> bool) (s : string) : bool :=
  match s with
  | String c rest => f c && all_chars f rest
  | EmptyString => true
  end.

(** The rows of an answer of [build_form]. *)
Definition new_rows (r : result (bool * list Event)) : list Event :=
  match r with
  | Ok (_, l) => l
  | Raise _ => []
  end.

(** The order of [sort_values], as a relation. *)
Definition name_le {S : Type} (a b : TotalsRow S) : Prop := name_leb a b = true.

(** The event carries the identity columns of roster row [p]. *)
Definition event_of_player (p : Roster.Player) (e : Event) : Prop :=
  player_key e = Roster.player_key p
  /\ first_name e = Roster.first_name p /\ last_name e = Roster.last_name p
  /\ number e = Roster.number p /\ positions e = Roster.positions p.

(** The rows that [log_stat] appends for an answer of [build_form]. *)
Definition appended (r : result (bool * list Event)) : list Event :=
  match r with
  | Ok (true, l) => l
  | _ => []
  end.

(** No string occurs twice in [l]. *)
Fixpoint nodupb (l : list string) : bool :=
  match l with
  | [] => true
  | x :: rest => negb (MaxPreps.mem x rest) && nodupb rest
  end.

(** ** Sample data for the examples *)

Definition sample_roster : Roster.t :=
  [ {| Roster.first_name := "Pat"; Roster.last_name := "Quinn";
       Roster.number := Some 12; Roster.positions := "QB" |};
    {| Roster.first_name := "Ray"; Roster.last_name := "Webb";
       Roster.number := Some 80; Roster.positions := "WR" |} ].

Definition sample_pass : Football.Form :=
  {| Football.fb_player_select := "#12 Pat Quinn";
     Football.fb_side_select := "Offense";
     Football.fb_stat_off := "Pass"; Football.fb_stat_def := "Sack";
     Football.fb_pass_outcome := "Complete"; Football.fb_fg_outcome := "Made";
     Football.fb_yards := 20; Football.fb_receiver := "#80 Ray Webb";
     Football.fb_pair_reception := true; Football.fb_td := true;
     Football.fb_notes := ""; Football.submitted := true;
     Football.now := "2025-09-05T19:30:00" |}.


Definition sample_goal_pass : Soccer.Form :=
  {| Soccer.sc_player_select := "#12 Pat Quinn"; Soccer.sc_stat_type := "Pass";
     Soccer.sc_shot_on_target := "Yes"; Soccer.sc_shot_goal := false;
     Soccer.sc_pass_outcome := "Complete"; Soccer.sc_receiver := "#80 Ray Webb";
     Soccer.sc_pass_goal := true; Soccer.sc_foul_card := "None";
     Soccer.sc_notes := ""; Soccer.submitted := true;
     Soccer.now := "2025-09-05T19:30:00" |}.

(** A roster of one player: the recipient box only offers "None". *)
Definition lone_roster : Roster.t :=
  [ {| Roster.first_name := "Pat"; Roster.last_name := "Quinn";
       Roster.number := Some 12; Roster.positions := "QB" |} ].

Definition sample_lone_pass : Soccer.Form :=
  {| Soccer.sc_player_select := "#12 Pat Quinn"; Soccer.sc_stat_type := "Pass";
     Soccer.sc_shot_on_target := "Yes"; Soccer.sc_shot_goal := false;
     Soccer.sc_pass_outcome := "Complete"; Soccer.sc_receiver := "None";
     Soccer.sc_pass_goal := true; Soccer.sc_foul_card := "None";
     Soccer.sc_notes := ""; Soccer.submitted := true;
     Soccer.now := "2025-09-05T19:30:00" |}.

Definition sample_goal (assist : string) : Lacrosse.Form :=
  {| Lacrosse.lc_player_select := "#12 Pat Quinn"; Lacrosse.lc_stat_type := "Goal";
     Lacrosse.lc_assist := assist; Lacrosse.lc_sog := "Yes";
     Lacrosse.lc_faceoff := "Win"; Lacrosse.lc_penmin := 1%float;
     Lacrosse.lc_minutes := 12%float; Lacrosse.lc_notes := "";
     Lacrosse.submitted := true; Lacrosse.now := "2025-09-05T19:30:00" |}.


Definition run_event (fn ln : string) (yd : Z) (tdv : Z) : Event :=
  {| timestamp := "2025-09-05T19:30:00"; sport := "Football";
     player_key := "#12 Pat Quinn"; first_name := fn; last_name := ln;
     number := Some 12; positions := "QB"; side := "Offense"; notes := "";
     stat_type := "Run"; outcome := PyNone; yards := Val (Num yd);
     touchdown := Val (Num tdv);
     on_target := Absent; goal := Absent; card := Absent;
     penalty_minutes := Absent; minutes := Absent |}.

(** The log after the sample pass of the Football form. *)
Definition sample_football_log : DataFrame :=
  log_stat new_game_logs
           (@Football.build_form ascii_builtins sample_roster sample_pass).


Definition soccer_form (stat : string) : Soccer.Form :=
  {| Soccer.sc_player_select := "#12 Pat Quinn"; Soccer.sc_stat_type := stat;
     Soccer.sc_shot_on_target := "Yes"; Soccer.sc_shot_goal := false;
     Soccer.sc_pass_outcome := "Incomplete"; Soccer.sc_receiver := "#80 Ray Webb";
     Soccer.sc_pass_goal := false; Soccer.sc_foul_card := "Yellow";
     Soccer.sc_notes := ""; Soccer.submitted := true;
     Soccer.now := "2025-09-05T19:30:00" |}.

(** A Soccer log after a Shot and a Foul. *)
Definition sample_soccer_log : DataFrame :=
  log_stat
    (log_stat new_game_logs
              (@Soccer.build_form ascii_builtins sample_roster (soccer_form "Shot")))
    (@Soccer.build_form ascii_builtins sample_roster (soccer_form "Foul")).

Definition lacrosse_form (stat : string) : Lacrosse.Form :=
  {| Lacrosse.lc_player_select := "#12 Pat Quinn"; Lacrosse.lc_stat_type := stat;
     Lacrosse.lc_assist := "None"; Lacrosse.lc_sog := "Yes";
     Lacrosse.lc_faceoff := "Win"; Lacrosse.lc_penmin := 1%float;
     Lacrosse.lc_minutes := 0%float; Lacrosse.lc_notes := "";
     Lacrosse.submitted := true; Lacrosse.now := "2025-09-05T19:30:00" |}.

(** A Lacrosse log after one Ground Ball. *)
Definition ground_ball_log : DataFrame :=
  log_stat new_game_logs
           (@Lacrosse.build_form ascii_builtins sample_roster
                                 (lacrosse_form "Ground Ball")).

(** A Lacrosse log after a Shot, a Penalty and a Goalie Minutes entry. *)
Definition sample_lacrosse_log : DataFrame :=
  log_stat
    (log_stat
       (log_stat new_game_logs
                 (@Lacrosse.build_form ascii_builtins sample_roster
                                       (lacrosse_form "Shot")))
       (@Lacrosse.build_form ascii_builtins sample_roster (lacrosse_form "Penalty")))
    (@Lacrosse.build_form ascii_builtins sample_roster
                          (lacrosse_form "Goalie Minutes")).

(** A log that holds one Soccer event, given to the other sports. *)
Definition one_shot_log : DataFrame :=
  log_stat new_game_logs
           (@Soccer.build_form ascii_builtins sample_roster (soccer_form "Shot")).


(** The columns of a log in which every attribute has been written. *)
Definition full_columns : list string :=
  columns new_game_logs ++ ["on_target"; "goal"; "card"; "penalty_minutes"; "minutes"].

Definition penalty_event (m : float) : Event :=
  {| timestamp := "2025-09-05T19:30:00"; sport := "Lacrosse";
     player_key := "#12 Pat Quinn"; first_name := "Pat"; last_name := "Quinn";
     number := Some 12; positions := "M"; side := "All"; notes := "";
     stat_type := "Penalty"; outcome := Absent; yards := Absent;
     touchdown := Absent; on_target := Absent; goal := Absent; card := Absent;
     penalty_minutes := Val (Num m); minutes := Absent |}.

(** The Penalty Minutes of the first row of a Lacrosse table. *)
Definition first_penalty_minutes (r : result (list (TotalsRow Lacrosse.Stats)))
  : float :=
  match r with
  | Ok (row :: _) => Lacrosse.Penalty_Minutes (stats row)
  | _ => 0%float
  end.


(** Does the character occur in the string? *)
Fixpoint has_char (c : ascii) (s : string) : bool :=
  match s with
  | EmptyString => false
  | String x rest => Ascii.eqb x c || has_char c rest
  end.

(** A totals sheet with three rows: a whole-number float, an empty
    jersey, and a jersey with nothing else. *)
Definition sample_table : MaxPreps.Table :=
  {| MaxPreps.columns := ["number"; "Rush Yds"];
     MaxPreps.rows :=
       [ (fun c => if String.eqb c "number" then MaxPreps.Int 12
                   else MaxPreps.Flt 42%float);
         (fun c => if String.eqb c "number" then MaxPreps.Str " "
                   else MaxPreps.Int 5);
         (fun c => if String.eqb c "number" then MaxPreps.Int 7
                   else MaxPreps.NA) ] |}.

Definition sample_field_map : list (string * string) :=
  [("number", "Jersey"); ("Rush Yds", "RushingYards")].


Definition football_form (side_ stat : string) : Football.Form :=
  {| Football.fb_player_select := "#12 Pat Quinn";
     Football.fb_side_select := side_;
     Football.fb_stat_off := if String.eqb side_ "Offense" then stat else "Run";
     Football.fb_stat_def := if String.eqb side_ "Offense" then "Sack" else stat;
     Football.fb_pass_outcome := "Incomplete"; Football.fb_fg_outcome := "Made";
     Football.fb_yards := 7; Football.fb_receiver := "#80 Ray Webb";
     Football.fb_pair_reception := true; Football.fb_td := true;
     Football.fb_notes := ""; Football.submitted := true;
     Football.now := "2025-09-05T19:30:00" |}.

(** * Properties *)

(** ** Roster lookups *)

Lemma player_key_hash (p : Roster.Player) :
  exists s, Roster.player_key p = String "#"%char s.
Proof. unfold Roster.player_key. simpl. eexists. reflexivity. Qed.

Lemma keys_nonempty (roster : Roster.t) (k : string) :
  In k (Roster.keys roster) -> k <> "" /\ k <> "None" /\ k <> "No eligible receivers".
Proof.
  unfold Roster.keys. rewrite in_map_iff. intros [p [<- _]].
  destruct (player_key_hash p) as [s ->]. repeat split; discriminate.
Qed.

Lemma loc_first_In (roster : Roster.t) (k : string) :
  In k (Roster.keys roster) ->
  exists p, Roster.loc_first roster k = Ok p /\ Roster.player_key p = k /\ In p roster.
Proof.
  unfold Roster.loc_first, Roster.keys. rewrite in_map_iff. intros [q [Hq Hin]].
  destruct (find _ roster) as [p|] eqn:E.
  - apply find_some in E. destruct E as [Hp E]. apply String.eqb_eq in E.
    exists p. auto.
  - exfalso. apply (find_none _ _ E) in Hin. rewrite Hq, String.eqb_refl in Hin.
    discriminate.
Qed.

Lemma loc_first_not_In (roster : Roster.t) (k : string) :
  ~ In k (Roster.keys roster) -> Roster.loc_first roster k = Raise IndexError.
Proof.
  unfold Roster.loc_first, Roster.keys. intros Hn.
  destruct (find _ roster) as [p|] eqn:E; [|reflexivity].
  apply find_some in E. destruct E as [Hp E]. apply String.eqb_eq in E.
  exfalso. apply Hn. rewrite in_map_iff. exists p. auto.
Qed.

Lemma others_In (roster : Roster.t) (player k : string) :
  In k (Roster.others roster player) <-> In k (Roster.keys roster) /\ k <> player.
Proof.
  unfold Roster.others. rewrite filter_In, negb_true_iff, String.eqb_neq. tauto.
Qed.

Lemma eqb_false_of_neq (a b : string) : a <> b -> String.eqb a b = false.
Proof. apply String.eqb_neq. Qed.

(** ** Derivation of events *)

Lemma football_pass_is_offense (roster : Roster.t) (f : Football.Form) :
  Football.well_formed roster f ->
  Football.stat_type_of f = "Pass" ->
  Football.fb_side_select f = "Offense" /\ Football.fb_stat_off f = "Pass".
Proof.
  intros (_ & Hside & _ & Hdef & _) Hst. unfold Football.stat_type_of in Hst.
  destruct Hside as [Hs | [Hs | []]]; rewrite <- Hs in *; simpl in Hst.
  - auto.
  - rewrite Hst in Hdef. simpl in Hdef.
    repeat (destruct Hdef as [Hdef | Hdef]; [discriminate Hdef|]). contradiction.
Qed.

(** C1. A submission of the Football form with stat type "Pass", outcome
    "Complete" and the pairing box checked, whose receiver is one of the
    roster's other players, yields exactly two events: the passer's Pass
    and the receiver's Reception, with the same yards and the same
    touchdown flag. *)
Theorem football_complete_pass_pairs_reception `{Builtins}
        (roster : Roster.t) (f : Football.Form) :
  Football.well_formed roster f ->
  Football.submitted f = true ->
  Football.stat_type_of f = "Pass" ->
  Football.fb_pass_outcome f = "Complete" ->
  Football.fb_pair_reception f = true ->
  In (Football.fb_receiver f) (Roster.others roster (Football.fb_player_select f)) ->
  exists pass reception,
    Football.build_form roster f = Ok (true, [pass; reception])
    /\ player_key pass = Football.fb_player_select f
    /\ stat_type pass = "Pass"
    /\ player_key reception = Football.fb_receiver f
    /\ stat_type reception = "Reception"
    /\ player_key reception <> player_key pass
    /\ yards pass = Val (Num (Football.fb_yards f))
    /\ yards reception = yards pass
    /\ touchdown pass = Val (Num (if Football.fb_td f then 1 else 0))
    /\ touchdown reception = touchdown pass.
Proof.
  intros Hwf Hsub Hst Hout Hpair Hrcv.
  destruct (football_pass_is_offense Hwf Hst) as [Hside Hoff].
  destruct Hwf as (Hplayer & _).
  apply others_In in Hrcv. destruct Hrcv as [Hrcv Hneq].
  destruct (loc_first_In _ _ Hplayer) as (pr & Epr & Kpr & _).
  destruct (loc_first_In _ _ Hrcv) as (rc & Erc & Krc & _).
  unfold Football.build_form, Football.paired_reception.
  rewrite Hsub, Epr. simpl. rewrite Hst, Erc.
  unfold Football.outcome_of, Football.make_row, Football.yards_of,
    Football.touchdown_of.
  rewrite Hside, Hoff, Hout, Hpair. simpl.
  do 2 eexists. split; [reflexivity|]. simpl.
  rewrite Kpr, Krc. repeat split; auto.
Qed.

Lemma football_complete_pass_witness :
  exists pass reception,
    @Football.build_form ascii_builtins sample_roster sample_pass
    = Ok (true, [pass; reception])
    /\ yards pass = Val (Num 20) /\ yards reception = Val (Num 20)
    /\ touchdown pass = Val (Num 1) /\ touchdown reception = Val (Num 1).
Proof.
  destruct (@football_complete_pass_pairs_reception ascii_builtins
              sample_roster sample_pass)
    as (p & r & E & _ & _ & _ & _ & _ & Yp & Yr & Tp & Tr).
  - unfold Football.well_formed; simpl; intuition.
  - reflexivity.
  - reflexivity.
  - reflexivity.
  - reflexivity.
  - simpl; intuition discriminate.
  - exists p, r. rewrite Yr, Tr, Yp, Tp. simpl. auto.
Defined.

(** C2. A submission of the Soccer form with stat type "Pass", outcome
    "Complete", the resulted-in-goal box checked and a recipient among the
    roster's other players yields exactly three events: the passer's Pass,
    the passer's Assist, and the recipient's Shot with [on_target = 1] and
    [goal = 1]. *)
Theorem soccer_goal_pass_three_events `{Builtins}
        (roster : Roster.t) (f : Soccer.Form) :
  Soccer.well_formed roster f ->
  Soccer.submitted f = true ->
  Soccer.sc_stat_type f = "Pass" ->
  Soccer.sc_pass_outcome f = "Complete" ->
  Soccer.sc_pass_goal f = true ->
  In (Soccer.sc_receiver f) (Roster.others roster (Soccer.sc_player_select f)) ->
  exists pass assist shot,
    Soccer.build_form roster f = Ok (true, [pass; assist; shot])
    /\ player_key pass = Soccer.sc_player_select f /\ stat_type pass = "Pass"
    /\ player_key assist = Soccer.sc_player_select f /\ stat_type assist = "Assist"
    /\ player_key shot = Soccer.sc_receiver f /\ stat_type shot = "Shot"
    /\ on_target shot = Val (Num 1) /\ goal shot = Val (Num 1).
Proof.
  intros (Hplayer & _) Hsub Hst Hout Hgoal Hrcv.
  apply others_In in Hrcv. destruct Hrcv as [Hrcv Hneq].
  destruct (keys_nonempty _ _ Hrcv) as (Hne & _).
  destruct (loc_first_In _ _ Hplayer) as (pr & Epr & Kpr & _).
  destruct (loc_first_In _ _ Hrcv) as (rc & Erc & Krc & _).
  unfold Soccer.build_form, Soccer.paired_shot, Soccer.other_receiver,
    Soccer.resulted_goal_of, Soccer.receiver_key_of.
  rewrite Hsub, Epr. simpl. rewrite Hst. simpl. rewrite Hout. simpl.
  rewrite (eqb_false_of_neq Hne), (eqb_false_of_neq Hneq), Hgoal, Erc. simpl.
  do 3 eexists. split; [reflexivity|]. simpl. rewrite Kpr, Krc.
  repeat split; reflexivity.
Qed.

Lemma soccer_goal_pass_witness :
  exists pass assist shot,
    @Soccer.build_form ascii_builtins sample_roster sample_goal_pass
    = Ok (true, [pass; assist; shot])
    /\ stat_type pass = "Pass" /\ stat_type assist = "Assist"
    /\ player_key shot = "#80 Ray Webb" /\ goal shot = Val (Num 1).
Proof.
  destruct (@soccer_goal_pass_three_events ascii_builtins
              sample_roster sample_goal_pass)
    as (p & a & s & E & _ & Sp & _ & Sa & Ks & _ & _ & Gs).
  - unfold Soccer.well_formed; simpl; intuition.
  - reflexivity.
  - reflexivity.
  - reflexivity.
  - reflexivity.
  - simpl; intuition discriminate.
  - exists p, a, s. auto.
Defined.

(** C10. In the same situation, when the recipient the form passes on is
    not a row of the roster, only the recipient's Shot is dropped: the
    result is exactly the passer's Pass and the passer's Assist. *)
Theorem soccer_unresolved_recipient_keeps_assist `{Builtins}
        (roster : Roster.t) (f : Soccer.Form) :
  Soccer.well_formed roster f ->
  Soccer.submitted f = true ->
  Soccer.sc_stat_type f = "Pass" ->
  Soccer.sc_pass_outcome f = "Complete" ->
  Soccer.sc_pass_goal f = true ->
  Soccer.sc_receiver f <> Soccer.sc_player_select f ->
  ~ In (Soccer.sc_receiver f) (Roster.keys roster) ->
  exists pass assist,
    Soccer.build_form roster f = Ok (true, [pass; assist])
    /\ player_key pass = Soccer.sc_player_select f /\ stat_type pass = "Pass"
    /\ player_key assist = Soccer.sc_player_select f /\ stat_type assist = "Assist".
Proof.
  intros (Hplayer & _ & _ & _ & Hopt & _) Hsub Hst Hout Hgoal Hneq Hunres.
  assert (Hne : Soccer.sc_receiver f <> "").
  { unfold Soccer.receiver_options in Hopt.
    destruct (Roster.others roster (Soccer.sc_player_select f)) as [|o os] eqn:E.
    - destruct Hopt as [<- | []]. discriminate.
    - exfalso. apply Hunres. rewrite <- E in Hopt. apply others_In in Hopt. tauto. }
  destruct (loc_first_In _ _ Hplayer) as (pr & Epr & Kpr & _).
  unfold Soccer.build_form, Soccer.paired_shot, Soccer.other_receiver,
    Soccer.resulted_goal_of, Soccer.receiver_key_of.
  rewrite Hsub, Epr. simpl. rewrite Hst. simpl. rewrite Hout. simpl.
  rewrite (eqb_false_of_neq Hne), (eqb_false_of_neq Hneq), Hgoal,
    (loc_first_not_In _ _ Hunres). simpl.
  do 2 eexists. split; [reflexivity|]. simpl. rewrite Kpr.
  repeat split; reflexivity.
Qed.

Lemma soccer_unresolved_recipient_witness :
  exists pass assist,
    @Soccer.build_form ascii_builtins lone_roster sample_lone_pass
    = Ok (true, [pass; assist])
    /\ stat_type pass = "Pass" /\ stat_type assist = "Assist".
Proof.
  destruct (@soccer_unresolved_recipient_keeps_assist ascii_builtins
              lone_roster sample_lone_pass)
    as (p & a & E & _ & Sp & _ & Sa).
  - unfold Soccer.well_formed; simpl; intuition.
  - reflexivity.
  - reflexivity.
  - reflexivity.
  - reflexivity.
  - discriminate.
  - simpl; intuition discriminate.
  - exists p, a. auto.
Defined.

(** C3. A Goal submission of the Lacrosse form that names one of the
    roster's other players as assister yields exactly three events: the
    scorer's Goal, the scorer's Shot with [on_target = 1], and the
    assister's Assist.  With "None" in the assist box it yields exactly
    two, the Goal and the Shot, and no Assist. *)
Theorem lacrosse_goal_expansion `{Builtins}
        (roster : Roster.t) (f : Lacrosse.Form) :
  Lacrosse.well_formed roster f ->
  Lacrosse.submitted f = true ->
  Lacrosse.lc_stat_type f = "Goal" ->
  (In (Lacrosse.lc_assist f) (Roster.others roster (Lacrosse.lc_player_select f)) ->
   exists g s a,
     Lacrosse.build_form roster f = Ok (true, [g; s; a])
     /\ player_key g = Lacrosse.lc_player_select f /\ stat_type g = "Goal"
     /\ player_key s = Lacrosse.lc_player_select f /\ stat_type s = "Shot"
     /\ on_target s = Val (Num 1)
     /\ player_key a = Lacrosse.lc_assist f /\ stat_type a = "Assist"
     /\ player_key a <> player_key g)
  /\ (Lacrosse.lc_assist f = "None" ->
      exists g s,
        Lacrosse.build_form roster f = Ok (true, [g; s])
        /\ player_key g = Lacrosse.lc_player_select f /\ stat_type g = "Goal"
        /\ player_key s = Lacrosse.lc_player_select f /\ stat_type s = "Shot"
        /\ on_target s = Val (Num 1)).
Proof.
  intros (Hplayer & _) Hsub Hst.
  destruct (loc_first_In _ _ Hplayer) as (pr & Epr & Kpr & _).
  unfold Lacrosse.build_form, Lacrosse.paired_assist.
  rewrite Hsub, Epr. simpl. rewrite Hst. simpl. split.
  - intros Ha. apply others_In in Ha. destruct Ha as [Ha Hneq].
    destruct (keys_nonempty _ _ Ha) as (Hne & Hnone & _).
    destruct (loc_first_In _ _ Ha) as (ap & Eap & Kap & _).
    rewrite (eqb_false_of_neq Hne), (eqb_false_of_neq Hnone), Eap. simpl.
    do 3 eexists. split; [reflexivity|]. simpl. rewrite Kpr, Kap.
    repeat split; auto.
  - intros ->. simpl. do 2 eexists. split; [reflexivity|]. simpl.
    rewrite Kpr. repeat split; reflexivity.
Qed.

Lemma lacrosse_goal_expansion_witness :
  (exists g s a,
      @Lacrosse.build_form ascii_builtins sample_roster (sample_goal "#80 Ray Webb")
      = Ok (true, [g; s; a]) /\ player_key a = "#80 Ray Webb")
  /\ (exists g s,
         @Lacrosse.build_form ascii_builtins sample_roster (sample_goal "None")
         = Ok (true, [g; s])).
Proof.
  split.
  - destruct (@lacrosse_goal_expansion ascii_builtins sample_roster
                (sample_goal "#80 Ray Webb")) as [Hthree _].
    + unfold Lacrosse.well_formed; simpl; intuition.
    + reflexivity.
    + reflexivity.
    + destruct Hthree as (g & s & a & E & _ & _ & _ & _ & _ & Ka & _).
      * simpl; intuition discriminate.
      * exists g, s, a. auto.
  - destruct (@lacrosse_goal_expansion ascii_builtins sample_roster
                (sample_goal "None")) as [_ Htwo].
    + unfold Lacrosse.well_formed; simpl; intuition.
    + reflexivity.
    + reflexivity.
    + destruct Htwo as (g & s & E & _); [reflexivity|].
      exists g, s. auto.
Defined.

(** ** Lists, sums and sorted keys *)

Lemma filter_perm {A : Type} (p : A -> bool) (l l' : list A) :
  Permutation l l' -> Permutation (filter p l) (filter p l').
Proof.
  induction 1 as [|x l l' _ IH|x y l|l l' l'' _ IH1 _ IH2]; simpl.
  - constructor.
  - destruct (p x); auto.
  - destruct (p x), (p y); auto. apply perm_swap.
  - eapply perm_trans; eassumption.
Qed.

Lemma count_perm {A : Type} (p : A -> bool) (l l' : list A) :
  Permutation l l' -> count p l = count p l'.
Proof.
  intros HP. unfold count. f_equal. apply Permutation_length, filter_perm, HP.
Qed.

Lemma length_perm_Z {A : Type} (l l' : list A) :
  Permutation l l' -> Z.of_nat (List.length l) = Z.of_nat (List.length l').
Proof. intros HP. f_equal. apply Permutation_length, HP. Qed.

Lemma filter_filter {A : Type} (p q : A -> bool) (l : list A) :
  filter p (filter q l) = filter (fun x => q x && p x) l.
Proof.
  induction l as [|x l IH]; simpl; [reflexivity|].
  destruct (q x); simpl; [destruct (p x)|]; rewrite IH; reflexivity.
Qed.

Lemma filter_map_comm {A B : Type} (g : A -> B) (p : B -> bool) (l : list A) :
  filter p (map g l) = map g (filter (fun x => p (g x)) l).
Proof.
  induction l as [|x l IH]; simpl; [reflexivity|].
  destruct (p (g x)); simpl; rewrite IH; reflexivity.
Qed.

Lemma wrap64_add_l (a x : Z) : wrap64 (wrap64 a + x) = wrap64 (a + x).
Proof.
  unfold wrap64. f_equal.
  replace ((a + 2 ^ 63) mod 2 ^ 64 - 2 ^ 63 + x + 2 ^ 63)
    with ((a + 2 ^ 63) mod 2 ^ 64 + x) by ring.
  rewrite Zplus_mod_idemp_l. f_equal. ring.
Qed.

Lemma wrap64_small (z : Z) : - 2 ^ 63 <= z < 2 ^ 63 -> wrap64 z = z.
Proof. intros Hz. unfold wrap64. rewrite Z.mod_small; lia. Qed.

Lemma int64_sum_fold (l : list Z) (acc : Z) :
  fold_left (fun a x => wrap64 (a + x)) l (wrap64 acc) = wrap64 (acc + list_sum l).
Proof.
  revert acc. induction l as [|x l IH]; intros acc; simpl.
  - f_equal. ring.
  - rewrite wrap64_add_l, IH. f_equal. ring.
Qed.

(** An [int64] sum is the exact sum, wrapped once. *)
Lemma int64_sum_wrap (l : list Z) : int64_sum l = wrap64 (list_sum l).
Proof.
  unfold int64_sum. change 0 with (wrap64 0) at 1. apply int64_sum_fold.
Qed.

Lemma list_sum_perm (l l' : list Z) :
  Permutation l l' -> list_sum l = list_sum l'.
Proof.
  induction 1; simpl; try lia.
Qed.

Lemma int64_sum_perm (l l' : list Z) :
  Permutation l l' -> int64_sum l = int64_sum l'.
Proof.
  intros HP. rewrite !int64_sum_wrap. f_equal. apply list_sum_perm, HP.
Qed.

Lemma str_lt_irrefl (a : string) : ~ str_lt a a.
Proof.
  unfold str_lt. intros HL.
  pose proof (String.compare_antisym a a) as E. rewrite HL in E. discriminate E.
Qed.

Lemma str_lt_trans (a b c : string) : str_lt a b -> str_lt b c -> str_lt a c.
Proof. apply String_as_OT.lt_strorder. Qed.

Lemma str_gt_lt (a b : string) : String.compare a b = Gt -> str_lt b a.
Proof.
  unfold str_lt. intros HG. rewrite String.compare_antisym, HG. reflexivity.
Qed.

Lemma insert_key_In (k x : string) (l : list string) :
  In x (insert_key k l) <-> x = k \/ In x l.
Proof.
  induction l as [|y l IH]; simpl.
  - intuition.
  - destruct (String.compare k y) eqn:E; simpl.
    + apply String.compare_eq_iff in E. subst. intuition.
    + intuition.
    + rewrite IH. intuition.
Qed.

Lemma sorted_keys_In (x : string) (l : list string) :
  In x (sorted_keys l) <-> In x l.
Proof.
  induction l as [|y l IH]; simpl; [tauto|].
  rewrite insert_key_In, IH. intuition.
Qed.

Lemma insert_key_sorted (k : string) (l : list string) :
  StronglySorted str_lt l -> StronglySorted str_lt (insert_key k l).
Proof.
  induction 1 as [|y l Hs IH Hall]; simpl.
  - repeat constructor.
  - destruct (String.compare k y) eqn:E.
    + constructor; assumption.
    + constructor; [constructor; assumption|].
      constructor; [exact E|].
      rewrite Forall_forall in *. intros z Hz.
      eapply str_lt_trans; [exact E|]. apply Hall, Hz.
    + constructor; [exact IH|].
      rewrite Forall_forall in *. intros z Hz.
      apply insert_key_In in Hz. destruct Hz as [-> | Hz].
      * apply str_gt_lt, E.
      * apply Hall, Hz.
Qed.

Lemma sorted_keys_sorted (l : list string) : StronglySorted str_lt (sorted_keys l).
Proof.
  induction l as [|y l IH]; simpl; [constructor|]. apply insert_key_sorted, IH.
Qed.

Lemma strictly_sorted_unique (l1 l2 : list string) :
  StronglySorted str_lt l1 -> StronglySorted str_lt l2 ->
  (forall x, In x l1 <-> In x l2) -> l1 = l2.
Proof.
  intros H1. revert l2. induction H1 as [|x l1 Hs1 IH Hall1]; intros l2 H2 Hin.
  - destruct l2 as [|y l2]; [reflexivity|].
    exfalso. apply (Hin y). left. reflexivity.
  - destruct H2 as [|y l2 Hs2 Hall2].
    + exfalso. apply (Hin x). left. reflexivity.
    + rewrite Forall_forall in Hall1, Hall2.
      assert (Exy : x = y).
      { destruct (proj1 (Hin x) (or_introl eq_refl)) as [E | Hx]; [auto|].
        destruct (proj2 (Hin y) (or_introl eq_refl)) as [E | Hy]; [auto|].
        exfalso. apply (@str_lt_irrefl x).
        eapply str_lt_trans; [apply Hall1, Hy | apply Hall2, Hx]. }
      subst y. f_equal. apply IH; [assumption|].
      intros z. split; intros Hz.
      * destruct (proj1 (Hin z) (or_intror Hz)) as [E | Hz']; [|assumption].
        subst z. exfalso. apply (@str_lt_irrefl x), Hall1, Hz.
      * destruct (proj2 (Hin z) (or_intror Hz)) as [E | Hz']; [|assumption].
        subst z. exfalso. apply (@str_lt_irrefl x), Hall2, Hz.
Qed.

(** The keys of [groupby] do not depend on the order of the rows. *)
Lemma sorted_keys_perm (l l' : list string) :
  Permutation l l' -> sorted_keys l = sorted_keys l'.
Proof.
  intros HP. apply strictly_sorted_unique; try apply sorted_keys_sorted.
  intros x. rewrite !sorted_keys_In. split; apply Permutation_in; auto.
  apply Permutation_sym, HP.
Qed.

Lemma insert_row_In {S : Type} (r x : TotalsRow S) (l : list (TotalsRow S)) :
  In x (insert_row r l) <-> x = r \/ In x l.
Proof.
  induction l as [|y l IH]; simpl.
  - intuition.
  - destruct (name_leb r y); simpl; [intuition|]. rewrite IH. intuition.
Qed.

Lemma sort_values_In {S : Type} (x : TotalsRow S) (l : list (TotalsRow S)) :
  In x (sort_values l) <-> In x l.
Proof.
  induction l as [|y l IH]; simpl; [tauto|].
  rewrite insert_row_In, IH. intuition.
Qed.

Lemma sort_values_map {S T : Type} (g : S -> T) (l : list (TotalsRow S)) :
  sort_values (map (map_stats g) l) = map (map_stats g) (sort_values l).
Proof.
  induction l as [|y l IH]; simpl; [reflexivity|]. rewrite IH.
  generalize (sort_values l). intros m.
  induction m as [|z m IHm]; simpl; [reflexivity|].
  change (name_leb (map_stats g y) (map_stats g z)) with (name_leb y z).
  destruct (name_leb y z); simpl; [reflexivity|]. rewrite IHm. reflexivity.
Qed.

(** ** The totals table *)

Lemma groupby_In (evs : list Event) (g : string * list Event) :
  In g (groupby_player_key evs) <->
  In (fst g) (map player_key evs)
  /\ snd g = filter (fun e => String.eqb (player_key e) (fst g)) evs.
Proof.
  unfold groupby_player_key. rewrite in_map_iff. split.
  - intros (k & <- & Hk). simpl. rewrite sorted_keys_In in Hk.
    split; [exact Hk | reflexivity].
  - intros (Hk & Hg). exists (fst g). split.
    + destruct g as [k grp]. simpl in *. congruence.
    + apply sorted_keys_In, Hk.
Qed.

(** Every row of the table is the row of one player of the log, built
    from that player's events in the log's order. *)
Lemma totals_of_In {S : Type} (per_group : list Event -> S) (evs : list Event)
      (row : TotalsRow S) :
  In row (totals_of per_group evs) <->
  exists k,
    In k (map player_key evs)
    /\ row = identity_row k (filter (fun e => String.eqb (player_key e) k) evs)
               (per_group (filter (fun e => String.eqb (player_key e) k) evs)).
Proof.
  unfold totals_of. rewrite sort_values_In, in_map_iff. split.
  - intros (g & <- & Hg). apply groupby_In in Hg. destruct Hg as [Hk Hg].
    exists (fst g). rewrite Hg. auto.
  - intros (k & Hk & ->).
    exists (k, filter (fun e => String.eqb (player_key e) k) evs). split; [reflexivity|].
    apply groupby_In. simpl. auto.
Qed.

Lemma identity_row_key {S : Type} (k : string) (grp : list Event) (s : S) :
  t_player_key (identity_row k grp s) = k /\ stats (identity_row k grp s) = s.
Proof. destruct grp; simpl; auto. Qed.

Lemma identity_row_perm {S : Type} (k : string) (g g' : list Event) (s : S) :
  Permutation g g' ->
  (forall a b, In a g -> In b g -> same_identity a b) ->
  identity_row k g s = identity_row k g' s.
Proof.
  intros HP Hsame. destruct g as [|a g], g' as [|b g']; simpl.
  - reflexivity.
  - apply Permutation_nil in HP. discriminate.
  - apply Permutation_sym, Permutation_nil in HP. discriminate.
  - assert (Hb : In b (a :: g)).
    { eapply Permutation_in; [apply Permutation_sym, HP | left; reflexivity]. }
    destruct (Hsame a b (or_introl eq_refl) Hb) as (E1 & E2 & E3 & E4).
    rewrite E1, E2, E3, E4. reflexivity.
Qed.

(** The table does not depend on the order of the rows, as long as the
    per-group columns do not and a player's events agree on the identity
    columns. *)
Lemma totals_of_perm {S : Type} (per_group : list Event -> S)
      (evs evs' : list Event) :
  Permutation evs evs' ->
  (forall g g', Permutation g g' -> per_group g = per_group g') ->
  (forall a b, In a evs -> In b evs -> player_key a = player_key b ->
               same_identity a b) ->
  totals_of per_group evs = totals_of per_group evs'.
Proof.
  intros HP Hpg Hid. unfold totals_of, groupby_player_key. f_equal.
  rewrite <- (sorted_keys_perm (Permutation_map player_key HP)).
  rewrite !map_map. apply map_ext. intros k. simpl.
  set (g := filter _ evs). set (g' := filter _ evs').
  assert (HPg : Permutation g g') by (apply filter_perm, HP).
  rewrite (Hpg g g' HPg). apply identity_row_perm; [exact HPg|].
  intros a b Ha Hb. apply filter_In in Ha, Hb.
  destruct Ha as [Ha Ka], Hb as [Hb Kb]. apply String.eqb_eq in Ka, Kb.
  apply Hid; congruence.
Qed.

Lemma totals_of_map_stats {S T : Type} (g : S -> T) (per_group : list Event -> S)
      (evs : list Event) :
  map (map_stats g) (totals_of per_group evs)
  = totals_of (fun grp => g (per_group grp)) evs.
Proof.
  unfold totals_of. rewrite <- sort_values_map, map_map. f_equal.
  apply map_ext. intros [k grp]. simpl. destruct grp; reflexivity.
Qed.

(** ** What [aggregate_totals] returns *)

Lemma has_column_getitem (df : DataFrame) (label : string) :
  has_column label df = true -> getitem df label = Ok tt.
Proof. unfold getitem. intros ->. reflexivity. Qed.

Lemma has_column_get (df : DataFrame) (label : string) :
  has_column label df = true -> get_then_fillna df label = Ok tt.
Proof. unfold get_then_fillna. intros ->. reflexivity. Qed.

Lemma require_raise (df : DataFrame) (labels : list string) (e : exn) :
  fold_left (fun r l => r ;;; getitem df l) labels (Raise e) = Raise e.
Proof. induction labels as [|l labels IH]; simpl; auto. Qed.

Lemma require_ok (df : DataFrame) (labels : list string) :
  has_columns labels df = true -> require df labels = Ok tt.
Proof.
  unfold require, has_columns. induction labels as [|l labels IH]; simpl.
  - reflexivity.
  - rewrite andb_true_iff. intros [Hl Hrest]. rewrite (has_column_getitem _ _ Hl).
    apply IH, Hrest.
Qed.

Lemma empty_after_filter (logs : DataFrame) (r : list Event) :
  has_column "sport" logs = true ->
  empty {| columns := columns logs; rows := r |}
  = match r with [] => true | _ => false end.
Proof.
  unfold has_column, empty. simpl. destruct (columns logs); simpl; [discriminate|].
  destruct r; reflexivity.
Qed.

Lemma has_columns_In (labels : list string) (df : DataFrame) :
  has_columns labels df = true ->
  forall l, In l labels -> existsb (String.eqb l) (columns df) = true.
Proof. unfold has_columns. rewrite forallb_forall. auto. Qed.

Ltac split_bind H :=
  match type of H with
  | bind ?r _ = Ok _ => destruct r eqn:?; simpl in H; [|discriminate H]
  end.

Lemma football_aggregate_Ok (logs : DataFrame) (totals : list (TotalsRow Football.Stats)) :
  Football.aggregate_totals logs = Ok totals ->
  totals = totals_of Football.group_stats
             (map Football.coerce (sport_events Football.name logs)).
Proof.
  unfold Football.aggregate_totals, filter_sport, getitem at 1.
  destruct (has_column "sport" logs) eqn:Hs; simpl; [|discriminate].
  rewrite empty_after_filter by exact Hs. fold (sport_events Football.name logs).
  destruct (sport_events Football.name logs) as [|e evs].
  - intros [= <-]. reflexivity.
  - intros He. repeat split_bind He. injection He as <-. reflexivity.
Qed.

Lemma football_aggregate_total (logs : DataFrame) :
  has_columns football_columns logs = true ->
  Football.aggregate_totals logs
  = Ok (totals_of Football.group_stats
          (map Football.coerce (sport_events Football.name logs))).
Proof.
  intros Hc. pose proof (has_columns_In _ _ Hc) as Hcol.
  unfold Football.aggregate_totals, filter_sport, getitem at 1.
  assert (Hs : has_column "sport" logs = true) by (apply Hcol; simpl; tauto).
  rewrite Hs. simpl. rewrite empty_after_filter by exact Hs.
  fold (sport_events Football.name logs).
  destruct (sport_events Football.name logs) as [|e evs]; [reflexivity|].
  unfold require, getitem, get_then_fillna, has_column.
  cbn [fold_left columns rows bind].
  repeat (rewrite Hcol by (simpl; tauto); cbn [bind]). reflexivity.
Qed.

Section Aggregates.
Context `{Builtins}.

Lemma soccer_aggregate_Ok (logs : DataFrame) (totals : list (TotalsRow Soccer.Stats)) :
  Soccer.aggregate_totals logs = Ok totals ->
  totals = totals_of Soccer.group_stats
             (map Soccer.coerce (sport_events Soccer.name logs)).
Proof.
  unfold Soccer.aggregate_totals, filter_sport, getitem at 1.
  destruct (has_column "sport" logs) eqn:Hs; simpl; [|discriminate].
  rewrite empty_after_filter by exact Hs. fold (sport_events Soccer.name logs).
  destruct (sport_events Soccer.name logs) as [|e evs].
  - intros [= <-]. reflexivity.
  - intros He. repeat split_bind He. injection He as <-. reflexivity.
Qed.

Lemma soccer_aggregate_total (logs : DataFrame) :
  has_columns soccer_columns logs = true ->
  Soccer.aggregate_totals logs
  = Ok (totals_of Soccer.group_stats
          (map Soccer.coerce (sport_events Soccer.name logs))).
Proof.
  intros Hc. pose proof (has_columns_In _ _ Hc) as Hcol.
  unfold Soccer.aggregate_totals, filter_sport, getitem at 1.
  assert (Hs : has_column "sport" logs = true) by (apply Hcol; simpl; tauto).
  rewrite Hs. simpl. rewrite empty_after_filter by exact Hs.
  fold (sport_events Soccer.name logs).
  destruct (sport_events Soccer.name logs) as [|e evs]; [reflexivity|].
  unfold require, getitem, get_then_fillna, has_column.
  cbn [fold_left columns rows bind].
  repeat (rewrite Hcol by (simpl; tauto); cbn [bind]). reflexivity.
Qed.

Lemma lacrosse_aggregate_Ok (logs : DataFrame) (totals : list (TotalsRow Lacrosse.Stats)) :
  Lacrosse.aggregate_totals logs = Ok totals ->
  totals = totals_of Lacrosse.group_stats
             (map Lacrosse.coerce (sport_events Lacrosse.name logs)).
Proof.
  unfold Lacrosse.aggregate_totals, filter_sport, getitem at 1.
  destruct (has_column "sport" logs) eqn:Hs; simpl; [|discriminate].
  rewrite empty_after_filter by exact Hs. fold (sport_events Lacrosse.name logs).
  destruct (sport_events Lacrosse.name logs) as [|e evs].
  - intros [= <-]. reflexivity.
  - intros He. repeat split_bind He. injection He as <-. reflexivity.
Qed.

Lemma lacrosse_aggregate_total (logs : DataFrame) :
  has_columns lacrosse_columns logs = true ->
  Lacrosse.aggregate_totals logs
  = Ok (totals_of Lacrosse.group_stats
          (map Lacrosse.coerce (sport_events Lacrosse.name logs))).
Proof.
  intros Hc. pose proof (has_columns_In _ _ Hc) as Hcol.
  unfold Lacrosse.aggregate_totals, filter_sport, getitem at 1.
  assert (Hs : has_column "sport" logs = true) by (apply Hcol; simpl; tauto).
  rewrite Hs. simpl. rewrite empty_after_filter by exact Hs.
  fold (sport_events Lacrosse.name logs).
  destruct (sport_events Lacrosse.name logs) as [|e evs]; [reflexivity|].
  unfold require, getitem, get_then_fillna, has_column.
  cbn [fold_left columns rows bind].
  repeat (rewrite Hcol by (simpl; tauto); cbn [bind]). reflexivity.
Qed.

End Aggregates.

(** ** Football totals *)

Lemma football_group_of_player (k : string) (logs : DataFrame) :
  filter (fun e => String.eqb (player_key e) k)
         (map Football.coerce (sport_events Football.name logs))
  = map Football.coerce (player_events Football.name k logs).
Proof.
  unfold sport_events, player_events.
  rewrite filter_map_comm, filter_filter. reflexivity.
Qed.

Lemma count_map {A B : Type} (g : A -> B) (p : B -> bool) (l : list A) :
  count p (map g l) = count (fun x => p (g x)) l.
Proof. unfold count. rewrite filter_map_comm, length_map. reflexivity. Qed.

(** Fewer than 1024 numbers of absolute value at most [2^53] add up
    inside [int64]. *)
Lemma exact_total_fits (l : list Event) :
  (forall e, In e l -> exact_int (yards e)) ->
  (List.length l < 1024)%nat ->
  wrap64 (fold_right Z.add 0
            (map (fun e => match yards e with Val (Num n) => n | _ => 0 end) l))
  = fold_right Z.add 0
      (map (fun e => match yards e with Val (Num n) => n | _ => 0 end) l).
Proof.
  intros Hex Hlen. apply wrap64_small.
  assert (Hb : Z.abs (fold_right Z.add 0
                        (map (fun e => match yards e with
                                       | Val (Num n) => n
                                       | _ => 0
                                       end) l))
               <= Z.of_nat (List.length l) * 2 ^ 53).
  { clear Hlen. induction l as [|e l IH]; [simpl; lia|].
    cbn [map fold_right List.length]. rewrite Nat2Z.inj_succ.
    assert (He : Z.abs (match yards e with Val (Num n) => n | _ => 0 end)
                 <= 2 ^ 53).
    { pose proof (Hex e (or_introl eq_refl)) as H0. unfold exact_int in H0.
      destruct (yards e) as [| |[n|t]]; simpl; lia. }
    assert (Hl : forall x, In x l -> exact_int (yards x))
      by (intros x Hx; apply Hex; right; exact Hx).
    specialize (IH Hl). lia. }
  assert (Hn : Z.of_nat (List.length l) <= 1023) by lia.
  change (2 ^ 63) with 9223372036854775808.
  change (2 ^ 53) with 9007199254740992 in Hb. lia.
Qed.

(** C5. In every row of the Football totals, for a log whose Football
    events hold yards that pandas reads exactly: FG Attempt Yards
    (Total) is the sum of the yards numbers of all the player's Field
    Goal events whatever their outcome (a missing or non-numeric yards
    adds nothing), as an [int64] sum, which is the exact sum for fewer
    than 1024 such events; Defensive TDs is the number of the player's
    Interception and Return events whose touchdown is the number 1;
    Touchdowns (Total) is the sum of the four touchdown columns; Pass
    Yards and Passing TDs only look at Pass events whose outcome is
    "Complete".  Every player with a Football event in the log has a
    row. *)
Theorem football_totals_formulas (logs : DataFrame)
        (totals : list (TotalsRow Football.Stats)) :
  Football.aggregate_totals logs = Ok totals ->
  (forall e, In e (rows logs) -> sport e = "Football" -> exact_int (yards e)) ->
  (forall e, In e (rows logs) -> sport e = "Football" ->
             exists row, In row totals /\ t_player_key row = player_key e)
  /\ forall row, In row totals ->
       let evs :=
         filter (fun e => String.eqb (sport e) "Football"
                          && String.eqb (player_key e) (t_player_key row))
                (rows logs) in
       let s := stats row in
       let kind k e := String.eqb (stat_type e) k in
       let yards_read e := match yards e with Val (Num n) => n | _ => 0 end in
       let td e := match touchdown e with Val (Num n) => n =? 1 | _ => false end in
       let complete e :=
         match outcome e with Val o => String.eqb o "Complete" | _ => false end in
       let total l := fold_right Z.add 0 (map yards_read l) in
       let number p := Z.of_nat (List.length (filter p evs)) in
       let field_goals := filter (kind "Field Goal") evs in
       let complete_passes := filter (fun e => kind "Pass" e && complete e) evs in
       Football.FG_Attempt_Yards_Total s = wrap64 (total field_goals)
       /\ ((List.length field_goals < 1024)%nat ->
           Football.FG_Attempt_Yards_Total s = total field_goals)
       /\ Football.Defensive_TDs s
          = number (fun e => (kind "Interception" e || kind "Return" e) && td e)
       /\ Football.Touchdowns_Total s
          = Football.Receiving_TDs s + Football.Rushing_TDs s
            + Football.Passing_TDs s + Football.Defensive_TDs s
       /\ Football.Pass_Yards s = wrap64 (total complete_passes)
       /\ ((List.length complete_passes < 1024)%nat ->
           Football.Pass_Yards s = total complete_passes)
       /\ Football.Passing_TDs s
          = number (fun e => kind "Pass" e && (complete e && td e)).
Proof.
  intros Hagg Hdom. apply football_aggregate_Ok in Hagg. subst totals. split.
  - intros e He Hs.
    eexists. split.
    + apply totals_of_In. exists (player_key e). split; [|reflexivity].
      rewrite map_map. apply in_map_iff. exists e. split; [reflexivity|].
      apply filter_In. split; [exact He|]. apply String.eqb_eq, Hs.
    + apply identity_row_key.
  - intros row Hrow. apply totals_of_In in Hrow. destruct Hrow as (k & _ & ->).
    destruct (identity_row_key k
                (filter (fun e => String.eqb (player_key e) k)
                        (map Football.coerce (sport_events Football.name logs)))
                (Football.group_stats
                   (filter (fun e => String.eqb (player_key e) k)
                      (map Football.coerce (sport_events Football.name logs)))))
      as [-> ->].
    rewrite football_group_of_player.
    change (player_events Football.name k logs)
      with (filter (fun e => String.eqb (sport e) "Football"
                             && String.eqb (player_key e) k) (rows logs)).
    set (evs := filter (fun e => String.eqb (sport e) "Football"
                                 && String.eqb (player_key e) k) (rows logs)).
    cbv zeta. unfold Football.group_stats. cbn [Football.FG_Attempt_Yards_Total
      Football.Defensive_TDs Football.Touchdowns_Total Football.Receiving_TDs
      Football.Rushing_TDs Football.Passing_TDs Football.Pass_Yards].
    assert (Htd : forall e,
               Football.td (Football.coerce e)
               = match touchdown e with Val (Num n) => n =? 1 | _ => false end).
    { intros e. unfold Football.td, Football.coerce. cbn [touchdown to_int].
      destruct (touchdown e) as [| |[n|t]]; reflexivity. }
    assert (Hfg : int64_sum
                    (map Football.yd
                       (filter (Football.is_stat "Field Goal")
                          (map Football.coerce evs)))
                  = wrap64
                      (fold_right Z.add 0
                         (map (fun e => match yards e with
                                        | Val (Num n) => n
                                        | _ => 0
                                        end)
                              (filter (fun e => String.eqb (stat_type e) "Field Goal")
                                      evs)))).
    { rewrite int64_sum_wrap, filter_map_comm, map_map. reflexivity. }
    assert (Hpy : int64_sum
                    (map Football.yd
                       (filter (fun e => attr_is "Complete" (outcome e))
                          (filter (Football.is_stat "Pass")
                             (map Football.coerce evs))))
                  = wrap64
                      (fold_right Z.add 0
                         (map (fun e => match yards e with
                                        | Val (Num n) => n
                                        | _ => 0
                                        end)
                              (filter
                                 (fun e =>
                                    String.eqb (stat_type e) "Pass"
                                    && match outcome e with
                                       | Val o => String.eqb o "Complete"
                                       | _ => false
                                       end)
                                 evs)))).
    { rewrite int64_sum_wrap, !filter_map_comm, filter_filter, map_map.
      reflexivity. }
    assert (Hex : forall e, In e evs -> exact_int (yards e)).
    { intros e He. apply filter_In in He. destruct He as [He Hs].
      apply andb_true_iff in Hs. destruct Hs as [Hs _].
      apply String.eqb_eq in Hs. exact (Hdom e He Hs). }
    split; [exact Hfg|].
    split; [intros Hlen; rewrite Hfg; apply exact_total_fits;
            [intros e He; apply filter_In in He; apply Hex, He|exact Hlen]|].
    split; [|split; [reflexivity|]].
    + rewrite count_map. unfold count. f_equal. f_equal. apply filter_ext.
      intros e. rewrite Htd. unfold Football.mem. cbn [existsb].
      rewrite orb_false_r. reflexivity.
    + split; [exact Hpy|].
      split; [intros Hlen; rewrite Hpy; apply exact_total_fits;
              [intros e He; apply filter_In in He; apply Hex, He|exact Hlen]|].
      unfold count. rewrite !filter_map_comm, filter_filter, !length_map.
      f_equal. f_equal. apply filter_ext. intros e. rewrite Htd. reflexivity.
Qed.

Lemma football_totals_formulas_witness :
  exists totals row,
    Football.aggregate_totals sample_football_log = Ok totals
    /\ In row totals
    /\ t_player_key row = "#12 Pat Quinn"
    /\ Football.Pass_Yards (stats row) = 20
    /\ Football.Passing_TDs (stats row) = 1
    /\ Football.FG_Attempt_Yards_Total (stats row) = 0
    /\ Football.Touchdowns_Total (stats row)
       = Football.Receiving_TDs (stats row) + Football.Rushing_TDs (stats row)
         + Football.Passing_TDs (stats row) + Football.Defensive_TDs (stats row).
Proof.
  destruct (Football.aggregate_totals sample_football_log) as [totals|] eqn:E;
    [|vm_compute in E; discriminate E].
  assert (Hdom : forall e, In e (rows sample_football_log) ->
                   sport e = "Football" -> exact_int (yards e)).
  { intros e [<-|[<-|[]]] _; vm_compute; discriminate. }
  destruct (@football_totals_formulas sample_football_log totals E Hdom)
    as [_ Hrows].
  destruct totals as [|row totals]; [vm_compute in E; discriminate E|].
  exists (row :: totals), row.
  assert (Hk : t_player_key row = "#12 Pat Quinn").
  { vm_compute in E. injection E as <- _. reflexivity. }
  destruct (Hrows row (or_introl eq_refl)) as (_ & Hfg & _ & Htot & _ & Hpy & Hptd).
  rewrite Hk in Hfg, Hpy, Hptd.
  split; [reflexivity|]. split; [left; reflexivity|]. split; [exact Hk|].
  split; [|split; [|split]].
  - rewrite Hpy; vm_compute; [reflexivity|lia].
  - rewrite Hptd. vm_compute. reflexivity.
  - rewrite Hfg; vm_compute; [reflexivity|lia].
  - exact Htot.
Defined.

(** ** Empty logs and missing columns *)

Lemma no_event_of_sport (name : string) (logs : DataFrame) :
  (forall e, In e (rows logs) -> sport e <> name) -> sport_events name logs = [].
Proof.
  intros Hno. unfold sport_events.
  destruct (filter _ (rows logs)) as [|e evs] eqn:E; [reflexivity|].
  assert (He : In e (filter (fun e => String.eqb (sport e) name) (rows logs)))
    by (rewrite E; left; reflexivity).
  apply filter_In in He. destruct He as [He Hs]. apply String.eqb_eq in Hs.
  exfalso. exact (Hno e He Hs).
Qed.

(** C6, as the code has it.  The base class's [aggregate_totals], which
    Baseball and Basketball inherit, returns the empty table for every
    log.  Football, Soccer and Lacrosse return the empty table for a log
    that has a "sport" column and no event of their sport: an empty log,
    or one that only holds other sports' events. *)
Theorem aggregate_empty_result `{Builtins} (logs : DataFrame) :
  SportSpec.aggregate_totals logs = Ok []
  /\ (has_column "sport" logs = true ->
      ((forall e, In e (rows logs) -> sport e <> Football.name) ->
       Football.aggregate_totals logs = Ok [])
      /\ ((forall e, In e (rows logs) -> sport e <> Soccer.name) ->
          Soccer.aggregate_totals logs = Ok [])
      /\ ((forall e, In e (rows logs) -> sport e <> Lacrosse.name) ->
          Lacrosse.aggregate_totals logs = Ok [])).
Proof.
  split; [reflexivity|]. intros Hs.
  repeat split; intros Hno; apply no_event_of_sport in Hno;
    [unfold Football.aggregate_totals
    |unfold Soccer.aggregate_totals
    |unfold Lacrosse.aggregate_totals];
    unfold filter_sport, getitem; rewrite Hs; cbn [bind];
    rewrite (empty_after_filter _ _ Hs);
    unfold sport_events in Hno; rewrite Hno; reflexivity.
Qed.

Lemma aggregate_empty_result_witness :
  @Football.aggregate_totals new_game_logs = Ok []
  /\ @Lacrosse.aggregate_totals ascii_builtins one_shot_log = Ok [].
Proof.
  split.
  - destruct (@aggregate_empty_result ascii_builtins new_game_logs) as [_ Hthree].
    destruct Hthree as (Hfb & _ & _); [reflexivity|].
    apply Hfb. intros e [].
  - destruct (@aggregate_empty_result ascii_builtins one_shot_log) as [_ Hthree].
    destruct Hthree as (_ & _ & Hlc); [reflexivity|].
    apply Hlc. intros e [<- | []]. discriminate.
Defined.

(** C6 as stated fails on the log the session starts with,
    [pd.DataFrame()]: it is empty, has no "sport" column, and every
    implemented sport's [aggregate_totals] raises [KeyError] on it. *)
Lemma aggregate_empty_frame_raises :
  rows empty_frame = []
  /\ Football.aggregate_totals empty_frame = Raise (KeyError "sport")
  /\ @Soccer.aggregate_totals ascii_builtins empty_frame = Raise (KeyError "sport")
  /\ @Lacrosse.aggregate_totals ascii_builtins empty_frame = Raise (KeyError "sport").
Proof. repeat split. Qed.

(** C9 fails on a log the app builds.  After "Create Game" and one
    Ground Ball, the log has no "on_target" column; [df.get("on_target", 0)]
    is then the scalar [0], which has no [fillna], and the Lacrosse totals
    raise [AttributeError] instead of reading the attribute as 0. *)
Theorem lacrosse_totals_raise_on_missing_attribute :
  has_column "on_target" ground_ball_log = false
  /\ List.length (rows ground_ball_log) = 1%nat
  /\ @Lacrosse.aggregate_totals ascii_builtins ground_ball_log
     = Raise (AttributeError "object has no attribute 'fillna'").
Proof. repeat split. Qed.

(** The same slip in general: a sport's log without one of the columns
    read through [df.get(...)] makes the totals raise. *)
Lemma totals_raise_without_column `{Builtins} (logs : DataFrame) :
  has_column "sport" logs = true ->
  (sport_events Soccer.name logs <> [] ->
   has_column "on_target" logs = false -> raises (Soccer.aggregate_totals logs))
  /\ (sport_events Lacrosse.name logs <> [] ->
      has_column "on_target" logs = false -> raises (Lacrosse.aggregate_totals logs))
  /\ (sport_events Football.name logs <> [] ->
      has_column "yards" logs = false -> raises (Football.aggregate_totals logs)).
Proof.
  intros Hs. repeat split; intros Hne Hcol;
    [unfold Soccer.aggregate_totals
    |unfold Lacrosse.aggregate_totals
    |unfold Football.aggregate_totals];
    unfold filter_sport, getitem at 1; rewrite Hs; cbn [bind];
    rewrite (empty_after_filter _ _ Hs);
    unfold sport_events in Hne;
    destruct (filter _ (rows logs)) as [|e evs]; try congruence;
    unfold get_then_fillna, getitem, has_column in *; cbn [columns];
    rewrite Hcol; cbn [bind]; eexists; reflexivity.
Qed.

(** With the columns in place, missing values and non-numeric text are
    read as 0 and the totals are returned. *)
Lemma coercion_reads_zero :
  to_int Absent = 0 /\ to_int PyNone = 0
  /\ (forall s, to_int (Val (Text s)) = 0)
  /\ to_float Absent = 0%float /\ to_float PyNone = 0%float
  /\ (forall s, to_float (Val (Text s)) = 0%float)
  /\ to_float (Val (Num nan)) = 0%float.
Proof. repeat split. Qed.

(** ** Ratio columns *)

(** A float that equals zero is not above zero. *)
Lemma float_zero_not_positive (m : float) :
  PrimFloat.eqb m 0%float = true -> PrimFloat.ltb 0%float m = false.
Proof.
  rewrite FloatAxioms.eqb_spec, FloatAxioms.ltb_spec.
  change (Prim2SF 0%float) with (S754_zero false).
  destruct (Prim2SF m) as [s | s | | s mm e]; simpl; try discriminate.
  - destruct s; reflexivity.
  - destruct s; discriminate.
  - destruct s; discriminate.
Qed.

Section Ratios.
Context `{Builtins}.

Lemma pct_zero (a : Z) : Lacrosse.pct a 0 = 0%float.
Proof. reflexivity. Qed.

Lemma gaa_zero (allowed : Z) (m : float) :
  PrimFloat.eqb m 0%float = true -> Lacrosse.gaa allowed m = 0%float.
Proof.
  intros Hm. unfold Lacrosse.gaa. rewrite (float_zero_not_positive Hm). reflexivity.
Qed.

(** C4. In every row of the Soccer and Lacrosse totals, a ratio column is
    exactly [0.0] when its denominator is zero: Pass Completion %
    (Passes Attempted), Faceoff % (Faceoffs Attempted), Save % (Shots on
    Goal Faced), GAA (Minutes), Shooting % (Shots on Goal) and SOG Rate %
    (Shots).  The value is a number, not NaN. *)
Theorem ratio_zero_on_zero_denominator (logs : DataFrame) :
  (forall totals row,
      Soccer.aggregate_totals logs = Ok totals -> In row totals ->
      Soccer.Passes_Attempted (stats row) = 0 ->
      Soccer.Pass_Completion_pct (stats row) = 0%float)
  /\ (forall totals row,
         Lacrosse.aggregate_totals logs = Ok totals -> In row totals ->
         let s := stats row in
         (Lacrosse.Faceoffs_Attempted s = 0 -> Lacrosse.Faceoff_pct s = 0%float)
         /\ (Lacrosse.Shots_on_Goal_Faced s = 0 -> Lacrosse.Save_pct s = 0%float)
         /\ (PrimFloat.eqb (Lacrosse.Minutes s) 0%float = true ->
             Lacrosse.GAA s = 0%float)
         /\ (Lacrosse.Shots_on_Goal s = 0 -> Lacrosse.Shooting_pct s = 0%float)
         /\ (Lacrosse.Shots s = 0 -> Lacrosse.SOG_Rate_pct s = 0%float)).
Proof.
  split; intros totals row Hagg Hrow.
  - apply soccer_aggregate_Ok in Hagg. subst totals.
    apply totals_of_In in Hrow. destruct Hrow as (k & _ & ->).
    rewrite (proj2 (identity_row_key k _ _)).
    unfold Soccer.group_stats.
    cbn [Soccer.Passes_Attempted Soccer.Pass_Completion_pct].
    intros ->. reflexivity.
  - apply lacrosse_aggregate_Ok in Hagg. subst totals.
    apply totals_of_In in Hrow. destruct Hrow as (k & _ & ->).
    cbv zeta. rewrite (proj2 (identity_row_key k _ _)).
    unfold Lacrosse.group_stats.
    cbn [Lacrosse.Faceoffs_Attempted Lacrosse.Faceoff_pct
         Lacrosse.Shots_on_Goal_Faced Lacrosse.Save_pct Lacrosse.Minutes
         Lacrosse.GAA Lacrosse.Shots_on_Goal Lacrosse.Shooting_pct
         Lacrosse.Shots Lacrosse.SOG_Rate_pct].
    repeat split.
    + intros ->. apply pct_zero.
    + intros ->. apply pct_zero.
    + apply gaa_zero.
    + intros ->. apply pct_zero.
    + intros ->. apply pct_zero.
Qed.

(** The totals of a log with all the columns are returned, so the rows
    above exist. *)
Lemma ratio_rows_exist (logs : DataFrame) :
  (has_columns soccer_columns logs = true ->
   exists totals, Soccer.aggregate_totals logs = Ok totals)
  /\ (has_columns lacrosse_columns logs = true ->
      exists totals, Lacrosse.aggregate_totals logs = Ok totals).
Proof.
  split; intros Hc; eexists.
  - apply soccer_aggregate_total, Hc.
  - apply lacrosse_aggregate_total, Hc.
Qed.

End Ratios.

Lemma ratio_zero_witness :
  (exists row,
      @Soccer.aggregate_totals ascii_builtins sample_soccer_log = Ok [row]
      /\ Soccer.Passes_Attempted (stats row) = 0
      /\ Soccer.Pass_Completion_pct (stats row) = 0%float)
  /\ (exists row,
         @Lacrosse.aggregate_totals ascii_builtins sample_lacrosse_log = Ok [row]
         /\ Lacrosse.Faceoff_pct (stats row) = 0%float
         /\ Lacrosse.GAA (stats row) = 0%float).
Proof.
  destruct (@ratio_zero_on_zero_denominator ascii_builtins sample_soccer_log)
    as [Hsoccer _].
  destruct (@ratio_zero_on_zero_denominator ascii_builtins sample_lacrosse_log)
    as [_ Hlacrosse].
  split.
  - destruct (@Soccer.aggregate_totals ascii_builtins sample_soccer_log)
      as [[|row [|]]|] eqn:E; try (vm_compute in E; discriminate E).
    exists row. split; [reflexivity|].
    assert (Hz : Soccer.Passes_Attempted (stats row) = 0)
      by (vm_compute in E; injection E as <-; reflexivity).
    split; [exact Hz|].
    exact (Hsoccer [row] row eq_refl (or_introl eq_refl) Hz).
  - destruct (@Lacrosse.aggregate_totals ascii_builtins sample_lacrosse_log)
      as [[|row [|]]|] eqn:E; try (vm_compute in E; discriminate E).
    exists row. split; [reflexivity|].
    destruct (Hlacrosse [row] row eq_refl (or_introl eq_refl))
      as (Hfo & _ & Hgaa & _).
    split.
    + apply Hfo. vm_compute in E. injection E as <-. reflexivity.
    + apply Hgaa. vm_compute in E. injection E as <-. reflexivity.
Defined.

(** ** Order of the rows of the log *)

(** Replace the group [g] by its permutation in every count and sum. *)
Ltac perm_rewrite HP g :=
  repeat match goal with
  | |- context [count ?p (filter ?q g)] =>
      rewrite (count_perm p (filter_perm q HP))
  | |- context [count ?p g] => rewrite (count_perm p HP)
  | |- context [int64_sum (map ?h (filter ?q (filter ?r g)))] =>
      rewrite (int64_sum_perm (Permutation_map h (filter_perm q (filter_perm r HP))))
  | |- context [int64_sum (map ?h (filter ?q g))] =>
      rewrite (int64_sum_perm (Permutation_map h (filter_perm q HP)))
  | |- context [Z.of_nat (List.length (filter ?q g))] =>
      rewrite (length_perm_Z (filter_perm q HP))
  end.

Lemma football_group_stats_perm (g g' : list Event) :
  Permutation g g' -> Football.group_stats g = Football.group_stats g'.
Proof.
  intros HP. unfold Football.group_stats. cbv zeta.
  perm_rewrite HP g. reflexivity.
Qed.

Section Orders.
Context `{Builtins}.

Lemma soccer_group_stats_perm (g g' : list Event) :
  Permutation g g' -> Soccer.group_stats g = Soccer.group_stats g'.
Proof.
  intros HP. unfold Soccer.group_stats. cbv zeta.
  perm_rewrite HP g. reflexivity.
Qed.

Lemma lacrosse_group_stats_perm (g g' : list Event) :
  Permutation g g' ->
  without_float_sums (Lacrosse.group_stats g)
  = without_float_sums (Lacrosse.group_stats g').
Proof.
  intros HP. unfold without_float_sums, Lacrosse.group_stats. cbv zeta.
  cbn [Lacrosse.Goals Lacrosse.Shots Lacrosse.Shots_on_Goal Lacrosse.Assists
       Lacrosse.Points Lacrosse.Ground_Balls Lacrosse.Faceoffs_Attempted
       Lacrosse.Faceoffs_Won Lacrosse.Faceoff_pct Lacrosse.Takeaways
       Lacrosse.Interceptions Lacrosse.Caused_Turnovers Lacrosse.Turnovers
       Lacrosse.Penalties Lacrosse.Saves Lacrosse.Goals_Allowed
       Lacrosse.Shots_on_Goal_Faced Lacrosse.Save_pct Lacrosse.Shooting_pct
       Lacrosse.SOG_Rate_pct].
  perm_rewrite HP g. reflexivity.
Qed.

End Orders.

Lemma consistent_sport_events (name : string) (g : Event -> Event)
      (evs : list Event) :
  (forall e, player_key (g e) = player_key e /\ same_identity e (g e)) ->
  identity_consistent evs ->
  forall a b,
    In a (map g (filter (fun e => String.eqb (sport e) name) evs)) ->
    In b (map g (filter (fun e => String.eqb (sport e) name) evs)) ->
    player_key a = player_key b -> same_identity a b.
Proof.
  intros Hg Hid a b Ha Hb Hk.
  apply in_map_iff in Ha, Hb.
  destruct Ha as (a0 & <- & Ha), Hb as (b0 & <- & Hb).
  apply filter_In in Ha, Hb. destruct Ha as [Ha Sa], Hb as [Hb Sb].
  apply String.eqb_eq in Sa, Sb.
  destruct (Hg a0) as (Ka & A1 & A2 & A3 & A4).
  destruct (Hg b0) as (Kb & B1 & B2 & B3 & B4).
  destruct (Hid a0 b0 Ha Hb) as (E1 & E2 & E3 & E4); try congruence.
  unfold same_identity. rewrite <- A1, <- A2, <- A3, <- A4, <- B1, <- B2, <- B3, <- B4.
  auto.
Qed.

Lemma perm_nil_iff {A : Type} (l l' : list A) :
  Permutation l l' -> (l = [] <-> l' = []).
Proof.
  intros HP. split; intros ->.
  - apply Permutation_nil, HP.
  - apply Permutation_nil, Permutation_sym, HP.
Qed.

Lemma filter_sport_eq (name : string) (logs : DataFrame) :
  filter_sport name logs
  = if has_column "sport" logs
    then Ok {| columns := columns logs; rows := sport_events name logs |}
    else Raise (KeyError "sport").
Proof. unfold filter_sport, getitem. destruct (has_column "sport" logs); reflexivity. Qed.

Lemma has_column_same (logs logs' : DataFrame) (label : string) :
  columns logs = columns logs' -> has_column label logs' = has_column label logs.
Proof. unfold has_column. intros ->. reflexivity. Qed.

(** Two logs with the same columns, whose sport rows give the same
    table, get the same answer from [aggregate_totals]: the same table or
    the same exception. *)
Ltac aggregate_congr Hcols Hnil Htot :=
  rewrite !filter_sport_eq; rewrite (@has_column_same _ _ "sport" Hcols);
  match goal with
  | |- context [has_column "sport" ?l] =>
      destruct (has_column "sport" l) eqn:?
  end;
  cbn [bind result_map]; [|reflexivity];
  rewrite <- Hcols;
  rewrite !empty_after_filter by assumption;
  revert Hnil Htot;
  match goal with
  | |- context [sport_events ?n ?l] =>
      match goal with
      | |- context [sport_events n ?l'] =>
          tryif constr_eq l l' then fail else
            (destruct (sport_events n l) as [|? ?];
             destruct (sport_events n l') as [|? ?])
      end
  end;
  intros Hnil Htot;
  [ reflexivity
  | exfalso; destruct Hnil as [Hn _]; discriminate (Hn eq_refl)
  | exfalso; destruct Hnil as [_ Hn]; discriminate (Hn eq_refl)
  | unfold require, getitem, get_then_fillna, has_column;
    cbn [columns fold_left];
    repeat (match goal with
            | |- context [existsb ?q (columns ?l)] =>
                destruct (existsb q (columns l)); cbn [bind result_map];
                try reflexivity
            end);
    cbn [rows]; try rewrite Htot; try reflexivity ].

Section Congruence.
Context `{Builtins}.

Lemma football_aggregate_congr (logs logs' : DataFrame) :
  columns logs = columns logs' ->
  (sport_events Football.name logs = [] <-> sport_events Football.name logs' = []) ->
  totals_of Football.group_stats
            (map Football.coerce (sport_events Football.name logs))
  = totals_of Football.group_stats
              (map Football.coerce (sport_events Football.name logs')) ->
  Football.aggregate_totals logs = Football.aggregate_totals logs'.
Proof.
  intros Hcols Hnil Htot. unfold Football.aggregate_totals.
  aggregate_congr Hcols Hnil Htot.
Qed.

Lemma soccer_aggregate_congr (logs logs' : DataFrame) :
  columns logs = columns logs' ->
  (sport_events Soccer.name logs = [] <-> sport_events Soccer.name logs' = []) ->
  totals_of Soccer.group_stats
            (map Soccer.coerce (sport_events Soccer.name logs))
  = totals_of Soccer.group_stats
              (map Soccer.coerce (sport_events Soccer.name logs')) ->
  Soccer.aggregate_totals logs = Soccer.aggregate_totals logs'.
Proof.
  intros Hcols Hnil Htot. unfold Soccer.aggregate_totals.
  aggregate_congr Hcols Hnil Htot.
Qed.

Lemma lacrosse_aggregate_congr (logs logs' : DataFrame) :
  columns logs = columns logs' ->
  (sport_events Lacrosse.name logs = [] <-> sport_events Lacrosse.name logs' = []) ->
  map (map_stats without_float_sums)
      (totals_of Lacrosse.group_stats
                 (map Lacrosse.coerce (sport_events Lacrosse.name logs)))
  = map (map_stats without_float_sums)
        (totals_of Lacrosse.group_stats
                   (map Lacrosse.coerce (sport_events Lacrosse.name logs'))) ->
  result_map (map (map_stats without_float_sums)) (Lacrosse.aggregate_totals logs)
  = result_map (map (map_stats without_float_sums)) (Lacrosse.aggregate_totals logs').
Proof.
  intros Hcols Hnil Htot. unfold Lacrosse.aggregate_totals.
  aggregate_congr Hcols Hnil Htot.
Qed.

End Congruence.

Lemma coerce_keeps_identity :
  (forall e, player_key (Football.coerce e) = player_key e
             /\ same_identity e (Football.coerce e))
  /\ (forall e, player_key (Soccer.coerce e) = player_key e
                /\ same_identity e (Soccer.coerce e))
  /\ (forall e, player_key (Lacrosse.coerce e) = player_key e
                /\ same_identity e (Lacrosse.coerce e)).
Proof. unfold same_identity. repeat split. Qed.

(** C7, as the code has it.  When the events of each player agree on the
    identity columns, permuting the rows of a log changes nothing in what
    Football and Soccer return (the same table, rows in the same order, or
    the same exception), and nothing in what Lacrosse returns apart from
    its float sums Penalty Minutes, Minutes and GAA. *)
Theorem totals_order_independent `{Builtins}
        (cols : list string) (evs evs' : list Event) :
  Permutation evs evs' ->
  identity_consistent evs ->
  let logs := {| columns := cols; rows := evs |} in
  let logs' := {| columns := cols; rows := evs' |} in
  Football.aggregate_totals logs = Football.aggregate_totals logs'
  /\ Soccer.aggregate_totals logs = Soccer.aggregate_totals logs'
  /\ result_map (map (map_stats without_float_sums)) (Lacrosse.aggregate_totals logs)
     = result_map (map (map_stats without_float_sums))
                  (Lacrosse.aggregate_totals logs').
Proof.
  intros HP Hid logs logs'.
  destruct coerce_keeps_identity as (Kf & Ks & Kl).
  assert (HPs : forall name,
             Permutation (sport_events name logs) (sport_events name logs'))
    by (intros name; apply filter_perm, HP).
  repeat split.
  - apply football_aggregate_congr; [reflexivity | apply perm_nil_iff, HPs |].
    apply totals_of_perm.
    + apply Permutation_map, HPs.
    + apply football_group_stats_perm.
    + apply (consistent_sport_events Football.name Football.coerce Kf Hid).
  - apply soccer_aggregate_congr; [reflexivity | apply perm_nil_iff, HPs |].
    apply totals_of_perm.
    + apply Permutation_map, HPs.
    + apply soccer_group_stats_perm.
    + apply (consistent_sport_events Soccer.name Soccer.coerce Ks Hid).
  - apply lacrosse_aggregate_congr; [reflexivity | apply perm_nil_iff, HPs |].
    rewrite !totals_of_map_stats. apply totals_of_perm.
    + apply Permutation_map, HPs.
    + apply lacrosse_group_stats_perm.
    + apply (consistent_sport_events Lacrosse.name Lacrosse.coerce Kl Hid).
Qed.

Lemma totals_order_independent_witness :
  Football.aggregate_totals
    {| columns := full_columns;
       rows := [run_event "Pat" "Quinn" 5 0; run_event "Pat" "Quinn" 7 1] |}
  = Football.aggregate_totals
      {| columns := full_columns;
         rows := [run_event "Pat" "Quinn" 7 1; run_event "Pat" "Quinn" 5 0] |}.
Proof.
  apply (@totals_order_independent ascii_builtins full_columns
           [run_event "Pat" "Quinn" 5 0; run_event "Pat" "Quinn" 7 1]
           [run_event "Pat" "Quinn" 7 1; run_event "Pat" "Quinn" 5 0]).
  - apply perm_swap.
  - intros a b [<- | [<- | []]] [<- | [<- | []]] _ _;
      unfold same_identity; simpl; auto.
Defined.

(** C7 as stated fails.  Two Run events of one player that spell the
    first name differently give a different Football row once swapped,
    because a row takes its identity columns from the group's first event;
    and three Lacrosse penalties of 0.1, 0.2 and 0.3 minutes sum to a
    different float once reversed. *)
Lemma totals_depend_on_row_order :
  (let a := run_event "Pat" "Quinn" 5 0 in
   let b := run_event "Patrick" "Quinn" 7 0 in
   Permutation [a; b] [b; a]
   /\ Football.aggregate_totals {| columns := full_columns; rows := [a; b] |}
      <> Football.aggregate_totals {| columns := full_columns; rows := [b; a] |})
  /\ (let p1 := penalty_event 0.1 in
      let p2 := penalty_event 0.2 in
      let p3 := penalty_event 0.3 in
      Permutation [p1; p2; p3] [p3; p2; p1]
      /\ first_penalty_minutes
           (@Lacrosse.aggregate_totals ascii_builtins
              {| columns := full_columns; rows := [p1; p2; p3] |})
         <> first_penalty_minutes
              (@Lacrosse.aggregate_totals ascii_builtins
                 {| columns := full_columns; rows := [p3; p2; p1] |})).
Proof.
  split; cbv zeta; split.
  - apply perm_swap.
  - intros Hc. vm_compute in Hc. discriminate Hc.
  - apply Permutation_rev.
  - intros Hc.
    apply (f_equal (fun x => PrimFloat.eqb x 0.6%float)) in Hc.
    vm_compute in Hc. discriminate Hc.
Qed.

(** ** The export file *)

Lemma str_app_assoc (a b c : string) : (a ++ b) ++ c = a ++ (b ++ c).
Proof. induction a as [|x a IH]; simpl; [reflexivity|]. rewrite IH. reflexivity. Qed.

Lemma uint_no_dot (d : Decimal.uint) :
  has_char "."%char (NilEmpty.string_of_uint d) = false.
Proof. induction d; simpl; auto. Qed.

(** The decimal text of an integer has no decimal point. *)
Lemma str_of_int_no_dot (z : Z) : has_char "."%char (str_of_int z) = false.
Proof.
  unfold str_of_int, NilZero.string_of_int, NilZero.string_of_uint.
  destruct (Z.to_int z) as [d | d]; destruct d; simpl; auto using uint_no_dot.
Qed.

(** A float with an integer value is not NaN. *)
Lemma whole_not_nan (f : float) (z : Z) :
  MaxPreps.int_of_whole f = Some z -> PrimFloat.is_nan f = false.
Proof.
  unfold MaxPreps.int_of_whole, PrimFloat.is_nan.
  rewrite FloatAxioms.eqb_spec. unfold SFeqb.
  destruct (Prim2SF f) as [s | s | | s m e]; try discriminate; intros _; simpl.
  - reflexivity.
  - rewrite Z.compare_refl, Pos.compare_cont_refl. destruct s; reflexivity.
Qed.

Lemma flat_map_filter {A B : Type} (keep : A -> bool) (g : A -> B) (l : list A) :
  flat_map (fun x => if keep x then [g x] else []) l = map g (filter keep l).
Proof.
  induction l as [|x l IH]; simpl; [reflexivity|].
  destruct (keep x); simpl; rewrite IH; reflexivity.
Qed.

Lemma Ok_inj {A : Type} (a b : A) : Ok a = Ok b -> a = b.
Proof. intros E. injection E as E. exact E. Qed.

Lemma concat_two (sep x y : string) (l : list string) :
  String.concat sep (x :: y :: l) = x ++ sep ++ String.concat sep (y :: l).
Proof. reflexivity. Qed.

Lemma round53_small (n : Z) : 0 <= n <= 2 ^ 53 -> round53 n = n.
Proof.
  intros Hn. destruct (Z.eq_dec n (2 ^ 53)) as [->|Hne]; [reflexivity|].
  unfold round53. cbv zeta.
  assert (Hl : Z.log2 n - 52 <= 0).
  { destruct (Z.eq_dec n 0) as [->|Hz]; [simpl; lia|].
    assert (Z.log2 n < 53) by (apply Z.log2_lt_pow2; lia). lia. }
  apply Z.leb_le in Hl. rewrite Hl. reflexivity.
Qed.

(** An int of absolute value at most [2^53] goes through [float]
    unchanged. *)
Lemma int_of_float_of_int_small (z : Z) :
  Z.abs z <= 2 ^ 53 -> int_of_float_of_int z = Some z.
Proof.
  intros Hz. unfold int_of_float_of_int. cbv zeta.
  rewrite round53_small by lia.
  assert (Hlt : Z.abs z < 2 ^ 1024).
  { apply Z.le_lt_trans with (2 ^ 53); [exact Hz|].
    apply Z.pow_lt_mono_r; lia. }
  apply Z.ltb_lt in Hlt. rewrite Hlt. destruct z; reflexivity.
Qed.

Section ExportFacts.
Context `{Builtins}.

(** After its two head lines, [lines] holds one line for each row that
    passes both tests of the loop, in the rows' order. *)
Lemma export_lines_filter (df : MaxPreps.Table)
      (field_map : list (string * string)) (jcol : string) :
  MaxPreps.export_lines df field_map jcol
  = MaxPreps.supplier_id
    :: String.concat "|" ("Jersey" :: MaxPreps.choose_fields_to_include df field_map)
    :: map (fun row =>
              String.concat "|"
                (MaxPreps.coerce_str_no_nan (row jcol)
                 :: MaxPreps.field_values (MaxPreps.reverse_map_of df field_map)
                      (MaxPreps.choose_fields_to_include df field_map) row))
           (filter
              (fun row =>
                 negb (String.eqb (MaxPreps.coerce_str_no_nan (row jcol)) "")
                 && existsb (fun v => negb (String.eqb v ""))
                      (MaxPreps.field_values (MaxPreps.reverse_map_of df field_map)
                         (MaxPreps.choose_fields_to_include df field_map) row))
              (MaxPreps.rows df)).
Proof.
  unfold MaxPreps.export_lines. cbn [app].
  rewrite <- flat_map_filter.
  apply (f_equal (fun l =>
                    MaxPreps.supplier_id
                    :: String.concat "|"
                         ("Jersey" :: MaxPreps.choose_fields_to_include df field_map)
                    :: l)).
  apply flat_map_ext. intros row.
  unfold MaxPreps.row_lines. cbv zeta.
  destruct (String.eqb _ ""); cbn [negb andb]; [reflexivity|].
  destruct (existsb _ _); reflexivity.
Qed.

(** C8. When the jersey column resolves, the text that
    [build_maxpreps_txt] returns starts with the line
    669ae75f-4563-494a-8c17-370aaa8539d4, which holds no newline, and
    ends with the newline character 10.  The text is that line, the
    header and one line for each kept row, in the rows' order, each
    followed by a newline; a row is kept exactly when its jersey value
    is not empty and at least one of its included field values is not
    empty, so a row with an empty jersey, or with nothing but a jersey,
    is left out.  A float with an integer value is written as that
    integer and an int as the integer that [float] makes of it: itself
    up to [2^53]; neither has a decimal point, and 42.0 gives "42". *)
Theorem maxpreps_export_format (df : MaxPreps.Table)
        (field_map : list (string * string)) (jersey_column_name txt : string) :
  MaxPreps.build_maxpreps_txt df field_map jersey_column_name = Ok txt ->
  let nl := String (ascii_of_nat 10) "" in
  let first_line := "669ae75f-4563-494a-8c17-370aaa8539d4" in
  let jcol := MaxPreps.resolve_column_name_case_insensitive df jersey_column_name in
  let fields := MaxPreps.choose_fields_to_include df field_map in
  let jersey_of row := MaxPreps.coerce_str_no_nan (row jcol) in
  let values_of row :=
    MaxPreps.field_values (MaxPreps.reverse_map_of df field_map) fields row in
  let keep row :=
    negb (String.eqb (jersey_of row) "")
    && existsb (fun v => negb (String.eqb v "")) (values_of row) in
  let kept := filter keep (MaxPreps.rows df) in
  (exists rest, txt = first_line ++ nl ++ rest)
  /\ has_char (ascii_of_nat 10) first_line = false
  /\ (exists body, txt = body ++ nl)
  /\ txt = String.concat nl
             (first_line
              :: String.concat "|" ("Jersey" :: fields)
              :: map (fun row => String.concat "|" (jersey_of row :: values_of row))
                     kept)
           ++ nl
  /\ (forall row,
        In row kept <->
        In row (MaxPreps.rows df)
        /\ jersey_of row <> ""
        /\ exists v, In v (values_of row) /\ v <> "")
  /\ (forall f z, MaxPreps.int_of_whole f = Some z ->
                  MaxPreps.coerce_str_no_nan (MaxPreps.Flt f) = str_of_int z
                  /\ has_char "."%char (str_of_int z) = false)
  /\ (forall z, has_char "."%char (MaxPreps.coerce_str_no_nan (MaxPreps.Int z))
                = false)
  /\ (forall z, Z.abs z <= 2 ^ 53 ->
                MaxPreps.coerce_str_no_nan (MaxPreps.Int z) = str_of_int z)
  /\ MaxPreps.coerce_str_no_nan (MaxPreps.Flt 42%float) = "42".
Proof.
  intros Hb. cbv zeta. unfold MaxPreps.build_maxpreps_txt in Hb.
  destruct (negb _) in Hb; [discriminate Hb|]. apply Ok_inj in Hb. subst txt.
  rewrite export_lines_filter.
  change MaxPreps.supplier_id with "669ae75f-4563-494a-8c17-370aaa8539d4".
  change MaxPreps.newline with (String (ascii_of_nat 10) "").
  split; [|split; [|split; [|split; [|split; [|split; [|split; [|split]]]]]]].
  - rewrite concat_two, !str_app_assoc. eexists. reflexivity.
  - reflexivity.
  - eexists. reflexivity.
  - reflexivity.
  - intros row. rewrite filter_In. split.
    + intros [Hin Hk]. apply andb_true_iff in Hk. destruct Hk as [Hj Hv].
      apply negb_true_iff, String.eqb_neq in Hj.
      apply existsb_exists in Hv. destruct Hv as (v & Hv & Hne).
      apply negb_true_iff, String.eqb_neq in Hne.
      split; [exact Hin|]. split; [exact Hj|]. exists v. auto.
    + intros (Hin & Hj & v & Hv & Hne). split; [exact Hin|].
      apply String.eqb_neq in Hj. rewrite Hj. cbn [negb andb].
      apply existsb_exists. exists v. split; [exact Hv|].
      apply negb_true_iff, String.eqb_neq. exact Hne.
  - intros f z Hz. split; [|apply str_of_int_no_dot].
    unfold MaxPreps.coerce_str_no_nan, MaxPreps.isna.
    rewrite (whole_not_nan _ Hz), Hz. reflexivity.
  - intros z. unfold MaxPreps.coerce_str_no_nan, MaxPreps.isna, MaxPreps.py_str.
    destruct (int_of_float_of_int z); apply str_of_int_no_dot.
  - intros z Hz. unfold MaxPreps.coerce_str_no_nan, MaxPreps.isna.
    rewrite (int_of_float_of_int_small _ Hz). reflexivity.
  - reflexivity.
Qed.

End ExportFacts.

Lemma maxpreps_export_witness :
  exists txt,
    @MaxPreps.build_maxpreps_txt ascii_builtins sample_table sample_field_map "Number"
    = Ok txt
    /\ txt = "669ae75f-4563-494a-8c17-370aaa8539d4" ++ String (ascii_of_nat 10) ""
             ++ "Jersey|RushingYards" ++ String (ascii_of_nat 10) ""
             ++ "12|42" ++ String (ascii_of_nat 10) "".
Proof.
  destruct (@MaxPreps.build_maxpreps_txt ascii_builtins sample_table
              sample_field_map "Number") as [txt|] eqn:E;
    [|vm_compute in E; discriminate E].
  exists txt. split; [reflexivity|].
  destruct (@maxpreps_export_format ascii_builtins sample_table sample_field_map
              "Number" txt E) as (_ & _ & _ & Htxt & _).
  rewrite Htxt. vm_compute. reflexivity.
Defined.

(** * More of the code *)

(** ** What the forms return *)

Lemma loc_first_key (roster : Roster.t) (k : string) (p : Roster.Player) :
  Roster.loc_first roster k = Ok p ->
  Roster.player_key p = k /\ Roster.loc_first roster (Roster.player_key p) = Ok p.
Proof.
  unfold Roster.loc_first. intros Hf.
  destruct (find _ roster) as [q|] eqn:E; [|discriminate Hf].
  apply Ok_inj in Hf. subst q.
  pose proof (find_some _ _ E) as [_ Hk]. apply String.eqb_eq in Hk.
  split; [exact Hk|]. rewrite Hk, E. reflexivity.
Qed.

Ltac branch_ifs :=
  repeat match goal with
         | |- context [if ?b then _ else _] => destruct b
         | H : context [if ?b then _ else _] |- _ => destruct b
         end.

Section Forms.
Context `{Builtins}.

(** X1. [build_form] raises exactly when the form was submitted for a
    player key that the roster does not have; the paired lookups never
    raise. *)
Theorem build_form_raises_iff (roster : Roster.t) :
  (forall f, raises (Football.build_form roster f) <->
             Football.submitted f = true
             /\ ~ In (Football.fb_player_select f) (Roster.keys roster))
  /\ (forall f, raises (Soccer.build_form roster f) <->
                Soccer.submitted f = true
                /\ ~ In (Soccer.sc_player_select f) (Roster.keys roster))
  /\ (forall f, raises (Lacrosse.build_form roster f) <->
                Lacrosse.submitted f = true
                /\ ~ In (Lacrosse.lc_player_select f) (Roster.keys roster)).
Proof.
  repeat split.
  - destruct H0 as [e He]. unfold Football.build_form in He.
    destruct (Football.submitted f); [reflexivity | discriminate He].
  - intros Hin. destruct (loc_first_In _ _ Hin) as (p & Ep & _).
    destruct H0 as [e He]. unfold Football.build_form in He.
    rewrite Ep in He. destruct (Football.submitted f); discriminate He.
  - intros [Hs Hn]. unfold Football.build_form.
    rewrite Hs, (loc_first_not_In _ _ Hn). eexists. reflexivity.
  - destruct H0 as [e He]. unfold Soccer.build_form in He.
    destruct (Soccer.submitted f); [reflexivity | discriminate He].
  - intros Hin. destruct (loc_first_In _ _ Hin) as (p & Ep & _).
    destruct H0 as [e He]. unfold Soccer.build_form in He.
    rewrite Ep in He. cbn [bind] in He. branch_ifs; discriminate He.
  - intros [Hs Hn]. unfold Soccer.build_form.
    rewrite Hs, (loc_first_not_In _ _ Hn). eexists. reflexivity.
  - destruct H0 as [e He]. unfold Lacrosse.build_form in He.
    destruct (Lacrosse.submitted f); [reflexivity | discriminate He].
  - intros Hin. destruct (loc_first_In _ _ Hin) as (p & Ep & _).
    destruct H0 as [e He]. unfold Lacrosse.build_form in He.
    rewrite Ep in He. cbn [bind] in He. branch_ifs; discriminate He.
  - intros [Hs Hn]. unfold Lacrosse.build_form.
    rewrite Hs, (loc_first_not_In _ _ Hn). eexists. reflexivity.
Qed.

End Forms.

Lemma build_form_raises_witness :
  raises (@Football.build_form ascii_builtins []
            (football_form "Offense" "Run")).
Proof.
  apply (proj1 (@build_form_raises_iff ascii_builtins [])).
  split; [reflexivity | intros []].
Defined.

Section FormRows.
Context `{Builtins}.

(** X2. A submitted, well-formed Football form gives the selected
    player's event first, and a second event exactly when the stat is a
    Pass, its outcome is "Complete", the pairing box is ticked and the
    receiver is a roster row; there is never a third. *)
Theorem football_rows_characterised (roster : Roster.t) (f : Football.Form) :
  Football.well_formed roster f ->
  Football.submitted f = true ->
  exists row paired,
    Football.build_form roster f = Ok (true, row :: paired)
    /\ player_key row = Football.fb_player_select f
    /\ stat_type row = Football.stat_type_of f
    /\ (List.length paired <= 1)%nat
    /\ (paired <> [] <->
        Football.stat_type_of f = "Pass"
        /\ Football.fb_pass_outcome f = "Complete"
        /\ Football.fb_pair_reception f = true
        /\ In (Football.fb_receiver f) (Roster.keys roster)).
Proof.
  intros Hwf Hsub. pose proof Hwf as (Hplayer & _).
  destruct (loc_first_In _ _ Hplayer) as (pr & Epr & Kpr & _).
  unfold Football.build_form. rewrite Hsub, Epr. cbn [bind].
  do 2 eexists. split; [reflexivity|].
  split; [exact Kpr|]. split; [reflexivity|].
  destruct (String.eqb (Football.stat_type_of f) "Pass") eqn:Hst.
  - apply String.eqb_eq in Hst.
    destruct (football_pass_is_offense Hwf Hst) as [Hside Hoff].
    unfold Football.outcome_of. rewrite Hside, Hoff.
    cbn [String.eqb Ascii.eqb Bool.eqb andb].
    destruct (String.eqb (Football.fb_pass_outcome f) "Complete") eqn:Hout;
      cbn [andb].
    + apply String.eqb_eq in Hout.
      destruct (Football.fb_pair_reception f) eqn:Hpair.
      * unfold Football.paired_reception.
        destruct (in_dec string_dec (Football.fb_receiver f) (Roster.keys roster))
          as [Hin | Hnin].
        -- destruct (loc_first_In _ _ Hin) as (rc & Erc & _). rewrite Erc.
           split; [simpl; lia|]. split; [auto | discriminate].
        -- rewrite (loc_first_not_In _ _ Hnin).
           split; [simpl; lia|]. split; [contradiction | tauto].
      * split; [simpl; lia|]. split; [contradiction | intros (_ & _ & E & _); discriminate E].
    + split; [simpl; lia|]. split; [contradiction|].
      intros (_ & E & _). rewrite E in Hout. discriminate Hout.
  - rewrite andb_false_r. cbn [andb].
    split; [simpl; lia|]. split; [contradiction|].
    intros (E & _). rewrite E in Hst. discriminate Hst.
Qed.

(** X3. Fumble, Forced Fumble, Sack and Tackle give a single event that
    carries no outcome, no yards and a touchdown flag of 0, whatever the
    other widgets hold. *)
Theorem football_plain_stats (roster : Roster.t) (f : Football.Form) :
  In (Football.fb_player_select f) (Roster.keys roster) ->
  Football.submitted f = true ->
  In (Football.stat_type_of f) ["Fumble"; "Forced Fumble"; "Sack"; "Tackle"] ->
  exists row,
    Football.build_form roster f = Ok (true, [row])
    /\ stat_type row = Football.stat_type_of f
    /\ outcome row = PyNone /\ yards row = PyNone
    /\ touchdown row = Val (Num 0).
Proof.
  intros Hplayer Hsub Hst.
  destruct (loc_first_In _ _ Hplayer) as (pr & Epr & _).
  unfold Football.build_form, Football.make_row, Football.outcome_of,
    Football.yards_of, Football.touchdown_of.
  rewrite Hsub, Epr. cbn [bind].
  unfold Football.stat_type_of in *.
  destruct (String.eqb (Football.fb_side_select f) "Offense");
    destruct Hst as [E | [E | [E | [E | []]]]]; rewrite <- E;
    eexists; (split; [reflexivity|]); repeat split.
Qed.

(** X4. A submitted Soccer form gives exactly one event, for the selected
    player and the selected stat, unless it is a complete Pass with the
    resulted-in-goal box ticked. *)
Theorem soccer_single_event (roster : Roster.t) (f : Soccer.Form) :
  Soccer.well_formed roster f ->
  Soccer.submitted f = true ->
  ~ (Soccer.sc_stat_type f = "Pass" /\ Soccer.sc_pass_outcome f = "Complete"
     /\ Soccer.sc_pass_goal f = true) ->
  exists row,
    Soccer.build_form roster f = Ok (true, [row])
    /\ player_key row = Soccer.sc_player_select f
    /\ stat_type row = Soccer.sc_stat_type f
    /\ sport row = Soccer.name.
Proof.
  intros (Hplayer & Hstat & _) Hsub Hnot.
  destruct (loc_first_In _ _ Hplayer) as (pr & Epr & Kpr & _).
  unfold Soccer.build_form. rewrite Hsub, Epr. cbn [bind].
  unfold Soccer.stat_options in Hstat.
  destruct Hstat as [E | [E | [E | [E | [E | [E | []]]]]]]; rewrite <- E in *;
    cbn [String.eqb Ascii.eqb Bool.eqb Football.mem existsb orb];
    try (eexists; split; [reflexivity|]; repeat split; exact Kpr).
  unfold Soccer.resulted_goal_of.
  destruct (String.eqb (Soccer.sc_pass_outcome f) "Complete") eqn:Hout; cbn [andb].
  - destruct (Soccer.sc_pass_goal f) eqn:Hg.
    + exfalso. apply Hnot. apply String.eqb_eq in Hout. auto.
    + destruct (Soccer.other_receiver f);
        eexists; (split; [reflexivity|]); repeat split; exact Kpr.
  - eexists. split; [reflexivity|]. repeat split; exact Kpr.
Qed.

(** X5. A submitted Lacrosse form gives exactly one event, for the
    selected player and the selected stat, for every stat but Goal. *)
Theorem lacrosse_single_event (roster : Roster.t) (f : Lacrosse.Form) :
  Lacrosse.well_formed roster f ->
  Lacrosse.submitted f = true ->
  Lacrosse.lc_stat_type f <> "Goal" ->
  exists row,
    Lacrosse.build_form roster f = Ok (true, [row])
    /\ player_key row = Lacrosse.lc_player_select f
    /\ stat_type row = Lacrosse.lc_stat_type f
    /\ sport row = Lacrosse.name.
Proof.
  intros (Hplayer & Hstat & _) Hsub Hng.
  destruct (loc_first_In _ _ Hplayer) as (pr & Epr & Kpr & _).
  unfold Lacrosse.build_form. rewrite Hsub, Epr. cbn [bind].
  unfold Lacrosse.stat_options in Hstat.
  repeat (destruct Hstat as [E | Hstat];
          [first [ exfalso; apply Hng; symmetry; exact E
                 | rewrite <- E;
                   cbn [String.eqb Ascii.eqb Bool.eqb Football.mem existsb orb];
                   eexists; split; [reflexivity|]; repeat split; exact Kpr ]|]).
  destruct Hstat.
Qed.

End FormRows.

Lemma football_rows_witness :
  exists row,
    @Football.build_form ascii_builtins sample_roster
      (football_form "Offense" "Pass") = Ok (true, [row]).
Proof.
  destruct (@football_rows_characterised ascii_builtins sample_roster
              (football_form "Offense" "Pass"))
    as (row & paired & E & _ & _ & _ & Hiff).
  - unfold Football.well_formed; simpl; intuition.
  - reflexivity.
  - exists row. destruct paired as [|x paired]; [exact E|].
    exfalso. assert (Hne : x :: paired <> []) by discriminate.
    apply Hiff in Hne. destruct Hne as (_ & Hout & _). discriminate Hout.
Defined.

Lemma football_plain_stats_witness :
  exists row,
    @Football.build_form ascii_builtins sample_roster
      (football_form "Defense" "Sack") = Ok (true, [row])
    /\ yards row = PyNone.
Proof.
  destruct (@football_plain_stats ascii_builtins sample_roster
              (football_form "Defense" "Sack")) as (row & E & _ & _ & Hy & _).
  - simpl; auto.
  - reflexivity.
  - simpl; auto.
  - exists row. auto.
Defined.

Lemma soccer_single_event_witness :
  exists row,
    @Soccer.build_form ascii_builtins sample_roster (soccer_form "Pass")
    = Ok (true, [row]).
Proof.
  destruct (@soccer_single_event ascii_builtins sample_roster (soccer_form "Pass"))
    as (row & E & _).
  - unfold Soccer.well_formed; simpl; intuition.
  - reflexivity.
  - intros (_ & Hout & _). discriminate Hout.
  - exists row. exact E.
Defined.

Lemma lacrosse_single_event_witness :
  exists row,
    @Lacrosse.build_form ascii_builtins sample_roster (lacrosse_form "Penalty")
    = Ok (true, [row]).
Proof.
  destruct (@lacrosse_single_event ascii_builtins sample_roster
              (lacrosse_form "Penalty")) as (row & E & _).
  - unfold Lacrosse.well_formed; simpl; intuition.
  - reflexivity.
  - discriminate.
  - exists row. exact E.
Defined.

Section Resolve.
Context `{Builtins}.

Ltac resolved_row pr Epr :=
  split; [reflexivity|]; exists pr; split;
  [exact (proj2 (loc_first_key _ _ Epr)) | repeat split].

(** X6. Every event a form returns is an event of its own sport whose
    player key resolves in the roster, and it carries the names, number
    and positions of the first roster row with that key. *)
Theorem derived_events_resolve (roster : Roster.t) :
  (forall f e, In e (new_rows (Football.build_form roster f)) ->
               sport e = Football.name
               /\ exists p, Roster.loc_first roster (player_key e) = Ok p
                            /\ event_of_player p e)
  /\ (forall f e, In e (new_rows (Soccer.build_form roster f)) ->
                  sport e = Soccer.name
                  /\ exists p, Roster.loc_first roster (player_key e) = Ok p
                               /\ event_of_player p e)
  /\ (forall f e, In e (new_rows (Lacrosse.build_form roster f)) ->
                  sport e = Lacrosse.name
                  /\ exists p, Roster.loc_first roster (player_key e) = Ok p
                               /\ event_of_player p e).
Proof.
  split; [|split]; intros f e Hin.
  - unfold Football.build_form in Hin.
    destruct (Football.submitted f); [|destruct Hin].
    destruct (Roster.loc_first roster (Football.fb_player_select f))
      as [pr|] eqn:Epr; [|destruct Hin].
    cbn [bind new_rows] in Hin. destruct Hin as [<- | Hin].
    + resolved_row pr Epr.
    + unfold Football.paired_reception in Hin.
      destruct (Roster.loc_first roster (Football.fb_receiver f)) as [rc|] eqn:Erc;
        branch_ifs; try destruct Hin as [<- | []]; try destruct Hin.
      resolved_row rc Erc.
  - unfold Soccer.build_form in Hin.
    destruct (Soccer.submitted f); [|destruct Hin].
    destruct (Roster.loc_first roster (Soccer.sc_player_select f))
      as [pr|] eqn:Epr; [|destruct Hin].
    cbn [bind] in Hin. unfold Soccer.paired_shot in Hin.
    destruct (Roster.loc_first roster (Soccer.sc_receiver f)) as [rc|] eqn:Erc;
      branch_ifs; cbn [new_rows] in Hin;
      repeat (destruct Hin as [<- | Hin]; [try resolved_row pr Epr|]);
      try destruct Hin.
    resolved_row rc Erc.
  - unfold Lacrosse.build_form in Hin.
    destruct (Lacrosse.submitted f); [|destruct Hin].
    destruct (Roster.loc_first roster (Lacrosse.lc_player_select f))
      as [pr|] eqn:Epr; [|destruct Hin].
    cbn [bind] in Hin. unfold Lacrosse.paired_assist in Hin.
    destruct (Roster.loc_first roster (Lacrosse.lc_assist f)) as [rc|] eqn:Erc;
      branch_ifs; cbn [new_rows] in Hin;
      repeat (destruct Hin as [<- | Hin]; [try resolved_row pr Epr|]);
      try destruct Hin.
    resolved_row rc Erc.
Qed.

End Resolve.

(** ** The session's log *)

Lemma add_labels_In (extra cols : list string) (c : string) :
  In c (add_labels cols extra) <-> In c cols \/ In c extra.
Proof.
  revert cols. induction extra as [|x extra IH]; intros cols; simpl.
  - tauto.
  - destruct (existsb (String.eqb x) cols) eqn:E.
    + rewrite IH. apply existsb_exists in E. destruct E as (y & Hy & Exy).
      apply String.eqb_eq in Exy. subst y. intuition (subst; auto).
    + rewrite IH, in_app_iff. simpl. intuition.
Qed.

Lemma add_labels_prefix (extra cols : list string) :
  exists more, add_labels cols extra = (cols ++ more)%list.
Proof.
  revert cols. induction extra as [|x extra IH]; intros cols; simpl.
  - exists []. rewrite app_nil_r. reflexivity.
  - destruct (existsb (String.eqb x) cols).
    + apply IH.
    + destruct (IH (cols ++ [x])%list) as [more E]. exists (x :: more).
      rewrite E, <- app_assoc. reflexivity.
Qed.

Lemma frame_of_rows_columns (l : list Event) (acc : list string) (c : string) :
  In c (fold_left (fun cols e => add_labels cols (keys_of e)) l acc)
  <-> In c acc \/ exists e, In e l /\ In c (keys_of e).
Proof.
  revert acc. induction l as [|x l IH]; intros acc; cbn [fold_left].
  - split; [auto | intros [Hc | (e & [] & _)]; exact Hc].
  - rewrite IH, add_labels_In. split.
    + intros [[Hc | Hc] | (e & He & Hc)].
      * left. exact Hc.
      * right. exists x. split; [left; reflexivity | exact Hc].
      * right. exists e. split; [right; exact He | exact Hc].
    + intros [Hc | (e & [<- | He] & Hc)].
      * left. left. exact Hc.
      * left. right. exact Hc.
      * right. exists e. split; assumption.
Qed.

(** X7. Logging a stat only appends: the rows of the log stay in place,
    the rows the form returned for a submission follow them, the columns
    stay in place, and the new columns are exactly the keys of the new
    rows. *)
Theorem log_stat_appends (logs : DataFrame) (r : result (bool * list Event)) :
  rows (log_stat logs r) = (rows logs ++ appended r)%list
  /\ (exists more, columns (log_stat logs r) = (columns logs ++ more)%list)
  /\ (forall c, In c (columns (log_stat logs r)) <->
                In c (columns logs)
                \/ exists e, In e (appended r) /\ In c (keys_of e)).
Proof.
  unfold log_stat, appended.
  destruct r as [[[|] [|e l]]|]; cbn [rows columns concat];
    try (rewrite app_nil_r; split; [reflexivity|]; split;
         [exists []; rewrite app_nil_r; reflexivity|];
         intros c; split; [auto | intros [Hc | (x & [] & _)]; exact Hc]).
  split; [reflexivity|]. split; [apply add_labels_prefix|].
  intros c. rewrite add_labels_In. unfold frame_of_rows. cbn [columns].
  rewrite frame_of_rows_columns. simpl. tauto.
Qed.

Lemma has_column_In (label : string) (df : DataFrame) :
  has_column label df = true <-> In label (columns df).
Proof.
  unfold has_column. rewrite existsb_exists. split.
  - intros (x & Hx & E). apply String.eqb_eq in E. subst. exact Hx.
  - intros Hl. exists label. split; [exact Hl | apply String.eqb_refl].
Qed.

Lemma log_stat_keeps_columns (labels : list string) (logs : DataFrame)
      (r : result (bool * list Event)) :
  has_columns labels logs = true -> has_columns labels (log_stat logs r) = true.
Proof.
  unfold has_columns. rewrite !forallb_forall. intros Hall l Hl.
  apply has_column_In, (proj2 (log_stat_appends logs r)). left.
  apply has_column_In, Hall, Hl.
Qed.

(** X8. Whatever is logged after "Create Game", in any sport and in any
    number of submissions, the Football totals of the session's log
    are returned: every column they read is one of the columns the game
    starts with. *)
Theorem football_totals_of_session (rs : list (result (bool * list Event))) :
  exists totals,
    Football.aggregate_totals (fold_left log_stat rs new_game_logs) = Ok totals.
Proof.
  eexists. apply football_aggregate_total.
  assert (Hgen : forall logs, has_columns football_columns logs = true ->
                   has_columns football_columns (fold_left log_stat rs logs) = true).
  { induction rs as [|r rs IH]; intros logs Hl; simpl; [exact Hl|].
    apply IH, log_stat_keeps_columns, Hl. }
  apply Hgen. reflexivity.
Qed.

(** ** When the totals are returned *)

Ltac columns_from_checks He :=
  unfold require, getitem, get_then_fillna, has_column in He;
  cbn [columns fold_left] in He;
  repeat match type of He with
         | context [existsb ?q ?l] =>
             destruct (existsb q l) eqn:?; cbn [bind] in He;
             [|discriminate He]
         end;
  unfold has_columns, has_column;
  cbn [forallb app football_columns soccer_columns lacrosse_columns
       identity_columns];
  repeat match goal with
         | Hx : existsb _ _ = true |- _ => rewrite Hx; clear Hx
         end;
  reflexivity.

Section Returns.
Context `{Builtins}.

(** X9. [aggregate_totals] returns a table exactly when the log has a
    "sport" column and either holds no event of the sport or has every
    column the sport reads; in every other case it raises. *)
Theorem aggregate_returns_iff (logs : DataFrame) :
  ((exists totals, Football.aggregate_totals logs = Ok totals) <->
   has_column "sport" logs = true
   /\ (sport_events Football.name logs = []
       \/ has_columns football_columns logs = true))
  /\ ((exists totals, Soccer.aggregate_totals logs = Ok totals) <->
      has_column "sport" logs = true
      /\ (sport_events Soccer.name logs = []
          \/ has_columns soccer_columns logs = true))
  /\ ((exists totals, Lacrosse.aggregate_totals logs = Ok totals) <->
      has_column "sport" logs = true
      /\ (sport_events Lacrosse.name logs = []
          \/ has_columns lacrosse_columns logs = true)).
Proof.
  split; [|split]; split.
  - intros [totals He]. unfold Football.aggregate_totals in He.
    rewrite filter_sport_eq in He.
    destruct (has_column "sport" logs) eqn:Hs; [|discriminate He].
    split; [reflexivity|]. cbn [bind] in He.
    rewrite (empty_after_filter _ _ Hs) in He.
    destruct (sport_events Football.name logs) as [|e evs]; [left; reflexivity|].
    right. unfold has_column in Hs. columns_from_checks He.
  - intros [Hs [Hnil | Hc]].
    + exists []. unfold Football.aggregate_totals. rewrite filter_sport_eq, Hs.
      cbn [bind]. rewrite (empty_after_filter _ _ Hs), Hnil. reflexivity.
    + eexists. apply football_aggregate_total, Hc.
  - intros [totals He]. unfold Soccer.aggregate_totals in He.
    rewrite filter_sport_eq in He.
    destruct (has_column "sport" logs) eqn:Hs; [|discriminate He].
    split; [reflexivity|]. cbn [bind] in He.
    rewrite (empty_after_filter _ _ Hs) in He.
    destruct (sport_events Soccer.name logs) as [|e evs]; [left; reflexivity|].
    right. unfold has_column in Hs. columns_from_checks He.
  - intros [Hs [Hnil | Hc]].
    + exists []. unfold Soccer.aggregate_totals. rewrite filter_sport_eq, Hs.
      cbn [bind]. rewrite (empty_after_filter _ _ Hs), Hnil. reflexivity.
    + eexists. apply soccer_aggregate_total, Hc.
  - intros [totals He]. unfold Lacrosse.aggregate_totals in He.
    rewrite filter_sport_eq in He.
    destruct (has_column "sport" logs) eqn:Hs; [|discriminate He].
    split; [reflexivity|]. cbn [bind] in He.
    rewrite (empty_after_filter _ _ Hs) in He.
    destruct (sport_events Lacrosse.name logs) as [|e evs]; [left; reflexivity|].
    right. unfold has_column in Hs. columns_from_checks He.
  - intros [Hs [Hnil | Hc]].
    + exists []. unfold Lacrosse.aggregate_totals. rewrite filter_sport_eq, Hs.
      cbn [bind]. rewrite (empty_after_filter _ _ Hs), Hnil. reflexivity.
    + eexists. apply lacrosse_aggregate_total, Hc.
Qed.

(** X10. The events of other sports do not count: two logs with the same
    columns and the same events of a sport get the same answer from that
    sport's [aggregate_totals]. *)
Theorem totals_ignore_other_sports (logs logs' : DataFrame) :
  columns logs = columns logs' ->
  (sport_events Football.name logs = sport_events Football.name logs' ->
   Football.aggregate_totals logs = Football.aggregate_totals logs')
  /\ (sport_events Soccer.name logs = sport_events Soccer.name logs' ->
      Soccer.aggregate_totals logs = Soccer.aggregate_totals logs')
  /\ (sport_events Lacrosse.name logs = sport_events Lacrosse.name logs' ->
      Lacrosse.aggregate_totals logs = Lacrosse.aggregate_totals logs').
Proof.
  intros Hcols. split; [|split]; intros Hev;
    [unfold Football.aggregate_totals
    |unfold Soccer.aggregate_totals
    |unfold Lacrosse.aggregate_totals];
    rewrite !filter_sport_eq, (@has_column_same _ _ "sport" Hcols),
      <- Hev, <- Hcols; reflexivity.
Qed.

End Returns.

Lemma totals_ignore_other_sports_witness :
  Football.aggregate_totals
    {| columns := full_columns;
       rows := [run_event "Pat" "Quinn" 5 0; penalty_event 1%float] |}
  = Football.aggregate_totals
      {| columns := full_columns; rows := [run_event "Pat" "Quinn" 5 0] |}.
Proof.
  apply (@totals_ignore_other_sports ascii_builtins
           {| columns := full_columns;
              rows := [run_event "Pat" "Quinn" 5 0; penalty_event 1%float] |}
           {| columns := full_columns; rows := [run_event "Pat" "Quinn" 5 0] |});
    reflexivity.
Defined.

(** ** Shape of the totals table *)

Lemma insert_row_perm {S : Type} (r : TotalsRow S) (l : list (TotalsRow S)) :
  Permutation (insert_row r l) (r :: l).
Proof.
  induction l as [|x l IH]; simpl; [apply Permutation_refl|].
  destruct (name_leb r x); [apply Permutation_refl|].
  eapply perm_trans; [apply perm_skip, IH | apply perm_swap].
Qed.

Lemma sort_values_perm {S : Type} (l : list (TotalsRow S)) :
  Permutation (sort_values l) l.
Proof.
  induction l as [|x l IH]; simpl; [constructor|].
  eapply perm_trans; [apply insert_row_perm | apply perm_skip, IH].
Qed.

Lemma strictly_sorted_NoDup (l : list string) :
  StronglySorted str_lt l -> NoDup l.
Proof.
  induction 1 as [|x l Hs IH Hall]; constructor; [|exact IH].
  intros Hx. rewrite Forall_forall in Hall. exact (@str_lt_irrefl x (Hall x Hx)).
Qed.

Lemma totals_of_keys {S : Type} (per_group : list Event -> S) (evs : list Event) :
  Permutation (map (@t_player_key S) (totals_of per_group evs))
              (sorted_keys (map player_key evs)).
Proof.
  unfold totals_of, groupby_player_key.
  eapply perm_trans; [apply Permutation_map, sort_values_perm|].
  rewrite !map_map.
  erewrite map_ext; [rewrite map_id; apply Permutation_refl|].
  intros k. cbn [fst snd]. apply identity_row_key.
Qed.

Lemma name_leb_total {S : Type} (a b : TotalsRow S) :
  name_leb a b = false -> name_leb b a = true.
Proof.
  unfold name_leb, str_ltb.
  rewrite (String.compare_antisym (t_last_name a) (t_last_name b)).
  rewrite (String.compare_antisym (t_first_name a) (t_first_name b)).
  destruct (String.compare (t_last_name b) (t_last_name a));
    destruct (String.compare (t_first_name b) (t_first_name a));
    simpl; congruence.
Qed.

Lemma insert_row_sorted {S : Type} (r : TotalsRow S) (l : list (TotalsRow S)) :
  Sorted (@name_le S) l -> Sorted (@name_le S) (insert_row r l).
Proof.
  induction 1 as [|x l Hs IH Hhd]; simpl.
  - repeat constructor.
  - destruct (name_leb r x) eqn:E.
    + constructor; [constructor; assumption|]. constructor. exact E.
    + constructor; [exact IH|].
      destruct l as [|y l]; simpl.
      * constructor. apply name_leb_total, E.
      * destruct (name_leb r y); constructor.
        -- apply name_leb_total, E.
        -- inversion Hhd; assumption.
Qed.

Lemma sort_values_sorted {S : Type} (l : list (TotalsRow S)) :
  Sorted (@name_le S) (sort_values l).
Proof.
  induction l as [|x l IH]; simpl; [constructor|]. apply insert_row_sorted, IH.
Qed.

Lemma sport_keys (name : string) (g : Event -> Event) (logs : DataFrame)
      (k : string) :
  (forall e, player_key (g e) = player_key e) ->
  In k (sorted_keys (map player_key (map g (sport_events name logs)))) <->
  exists e, In e (rows logs) /\ sport e = name /\ player_key e = k.
Proof.
  intros Hg. rewrite sorted_keys_In, map_map, in_map_iff. unfold sport_events.
  split.
  - intros (e & Hk & He). apply filter_In in He. destruct He as [He Hs].
    apply String.eqb_eq in Hs. exists e. rewrite <- Hk, Hg. auto.
  - intros (e & He & Hs & Hk). exists e. rewrite Hg. split; [exact Hk|].
    apply filter_In. split; [exact He | apply String.eqb_eq, Hs].
Qed.

Section Shape.
Context `{Builtins}.

(** X11. A totals table has exactly one row for each player key that has
    an event of the sport in the log, and no other row. *)
Theorem totals_one_row_per_player (logs : DataFrame) :
  (forall totals, Football.aggregate_totals logs = Ok totals ->
     NoDup (map (@t_player_key _) totals)
     /\ forall k, In k (map (@t_player_key _) totals) <->
                  exists e, In e (rows logs) /\ sport e = Football.name
                            /\ player_key e = k)
  /\ (forall totals, Soccer.aggregate_totals logs = Ok totals ->
        NoDup (map (@t_player_key _) totals)
        /\ forall k, In k (map (@t_player_key _) totals) <->
                     exists e, In e (rows logs) /\ sport e = Soccer.name
                               /\ player_key e = k)
  /\ (forall totals, Lacrosse.aggregate_totals logs = Ok totals ->
        NoDup (map (@t_player_key _) totals)
        /\ forall k, In k (map (@t_player_key _) totals) <->
                     exists e, In e (rows logs) /\ sport e = Lacrosse.name
                               /\ player_key e = k).
Proof.
  split; [|split]; intros totals He;
    [apply football_aggregate_Ok in He
    |apply soccer_aggregate_Ok in He
    |apply lacrosse_aggregate_Ok in He];
    subst totals;
    match goal with
    | |- context [totals_of ?pg (map ?g ?evs)] =>
        pose proof (totals_of_keys pg (map g evs)) as HP;
        (split;
         [ eapply Permutation_NoDup;
           [apply Permutation_sym, HP
           | apply strictly_sorted_NoDup, sorted_keys_sorted]
         | intros k;
           rewrite <- (@sport_keys _ g logs k (fun e => eq_refl));
           split; apply Permutation_in; [exact HP | apply Permutation_sym, HP] ])
    end.
Qed.

(** X12. The rows of a totals table come in ascending order of last name,
    and of first name among equal last names. *)
Theorem totals_sorted_by_name (logs : DataFrame) :
  (forall totals, Football.aggregate_totals logs = Ok totals ->
                  Sorted (@name_le _) totals)
  /\ (forall totals, Soccer.aggregate_totals logs = Ok totals ->
                     Sorted (@name_le _) totals)
  /\ (forall totals, Lacrosse.aggregate_totals logs = Ok totals ->
                     Sorted (@name_le _) totals).
Proof.
  split; [|split]; intros totals He;
    [apply football_aggregate_Ok in He
    |apply soccer_aggregate_Ok in He
    |apply lacrosse_aggregate_Ok in He];
    subst totals; apply sort_values_sorted.
Qed.

End Shape.

(** What the order of two rows means. *)
Lemma name_le_spec {S : Type} (a b : TotalsRow S) :
  name_le a b <->
  str_lt (t_last_name a) (t_last_name b)
  \/ (t_last_name a = t_last_name b
      /\ ~ str_lt (t_first_name b) (t_first_name a)).
Proof.
  unfold name_le, name_leb, str_ltb, str_lt.
  destruct (String.compare (t_last_name a) (t_last_name b)) eqn:El.
  - pose proof (String.compare_eq_iff _ _ El) as Hlab.
    destruct (String.compare (t_first_name b) (t_first_name a)); simpl; split.
    + intros _. right. split; [exact Hlab | discriminate].
    + intros _. reflexivity.
    + discriminate.
    + intros [Hl | [_ Hf]]; [discriminate Hl | exfalso; apply Hf; reflexivity].
    + intros _. right. split; [exact Hlab | discriminate].
    + intros _. reflexivity.
  - split; [intros _; left; reflexivity | reflexivity].
  - split; [discriminate|]. intros [Hl | [Hl _]]; [discriminate Hl|].
    rewrite Hl in El. exfalso.
    pose proof (String.compare_antisym (t_last_name b) (t_last_name b)) as Ha.
    rewrite El in Ha. discriminate Ha.
Qed.

(** ** Invariants of the columns *)

Lemma count_bounds {A : Type} (p : A -> bool) (l : list A) :
  0 <= count p l <= Z.of_nat (List.length l).
Proof.
  unfold count. pose proof (filter_length_le p l). lia.
Qed.

Lemma count_and_le {A : Type} (p q : A -> bool) (l : list A) :
  count (fun x => p x && q x) l <= count p l.
Proof.
  unfold count. rewrite <- (filter_filter q p l).
  pose proof (filter_length_le q (filter p l)). lia.
Qed.

Lemma count_of_filter {A : Type} (p q : A -> bool) (l : list A) :
  count q (filter p l) = count (fun x => p x && q x) l.
Proof. unfold count. rewrite filter_filter. reflexivity. Qed.

Lemma count_disjoint {A : Type} (p q : A -> bool) (l : list A) :
  (forall x, p x && q x = false) ->
  count p l + count q l <= Z.of_nat (List.length l).
Proof.
  intros Hd. unfold count. induction l as [|x l IH]; [simpl; lia|].
  cbn [filter]. pose proof (Hd x) as Hx.
  destruct (p x), (q x); cbn [andb] in Hx; try discriminate Hx;
    cbn [List.length]; rewrite ?Nat2Z.inj_succ; lia.
Qed.

Lemma cards_disjoint (c : attr string) :
  attr_is "Yellow" c && attr_is "Red" c = false.
Proof.
  destruct c as [| |v]; simpl; try reflexivity.
  destruct (String.eqb v "Yellow") eqn:E; [|reflexivity].
  apply String.eqb_eq in E. subst v. reflexivity.
Qed.

Lemma football_row_stats (logs : DataFrame)
      (totals : list (TotalsRow Football.Stats)) (row : TotalsRow Football.Stats) :
  Football.aggregate_totals logs = Ok totals -> In row totals ->
  exists grp, stats row = Football.group_stats grp.
Proof.
  intros He Hrow. apply football_aggregate_Ok in He. subst totals.
  apply totals_of_In in Hrow. destruct Hrow as (k & _ & ->).
  eexists. apply identity_row_key.
Qed.

(** X13. In every Football row the counts are consistent: completions do
    not exceed pass attempts, passing touchdowns do not exceed
    completions, field goals made do not exceed attempts, receiving and
    rushing touchdowns do not exceed receptions and rush attempts, and no
    count is negative. *)
Theorem football_counts_consistent (logs : DataFrame)
        (totals : list (TotalsRow Football.Stats)) (row : TotalsRow Football.Stats) :
  Football.aggregate_totals logs = Ok totals -> In row totals ->
  let s := stats row in
  0 <= Football.Passing_TDs s <= Football.Pass_Completions s
  /\ Football.Pass_Completions s <= Football.Pass_Attempts s
  /\ 0 <= Football.FG_Made s <= Football.FG_Attempts s
  /\ 0 <= Football.Receiving_TDs s <= Football.Receptions s
  /\ 0 <= Football.Rushing_TDs s <= Football.Rush_Attempts s
  /\ 0 <= Football.Defensive_TDs s
  /\ 0 <= Football.Touchdowns_Total s.
Proof.
  intros He Hrow. destruct (@football_row_stats logs totals row He Hrow) as [grp ->].
  cbv zeta. unfold Football.group_stats.
  cbn [Football.Passing_TDs Football.Pass_Completions Football.Pass_Attempts
       Football.FG_Made Football.FG_Attempts Football.Receiving_TDs
       Football.Receptions Football.Rushing_TDs Football.Rush_Attempts
       Football.Defensive_TDs Football.Touchdowns_Total].
  set (pass_df := filter (Football.is_stat "Pass") grp).
  set (fg_df := filter (Football.is_stat "Field Goal") grp).
  pose proof (count_bounds (fun e => attr_is "Complete" (outcome e) && Football.td e)
                pass_df) as B1.
  pose proof (count_and_le (fun e => attr_is "Complete" (outcome e)) Football.td
                pass_df) as B2.
  pose proof (count_bounds (fun e => attr_is "Complete" (outcome e)) pass_df) as B3.
  pose proof (count_bounds (fun e => attr_is "Made" (outcome e)) fg_df) as B4.
  pose proof (count_bounds (fun e => Football.is_stat "Reception" e && Football.td e)
                grp) as B5.
  pose proof (count_and_le (Football.is_stat "Reception") Football.td grp) as B6.
  pose proof (count_bounds (fun e => Football.is_stat "Run" e && Football.td e)
                grp) as B7.
  pose proof (count_and_le (Football.is_stat "Run") Football.td grp) as B8.
  pose proof (count_bounds
                (fun e => Football.mem (stat_type e) ["Interception"; "Return"]
                          && Football.td e) grp) as B9.
  cbv beta in B2. lia.
Qed.

Lemma football_counts_witness :
  exists totals,
    Football.aggregate_totals sample_football_log = Ok totals
    /\ forall row, In row totals ->
         Football.Pass_Completions (stats row) <= Football.Pass_Attempts (stats row).
Proof.
  destruct (Football.aggregate_totals sample_football_log) as [totals|] eqn:E;
    [|vm_compute in E; discriminate E].
  exists totals. split; [reflexivity|]. intros row Hrow.
  apply (@football_counts_consistent sample_football_log totals row E Hrow).
Defined.

Section Invariants.
Context `{Builtins}.

Lemma soccer_row_stats (logs : DataFrame)
      (totals : list (TotalsRow Soccer.Stats)) (row : TotalsRow Soccer.Stats) :
  Soccer.aggregate_totals logs = Ok totals -> In row totals ->
  exists grp, stats row = Soccer.group_stats grp.
Proof.
  intros He Hrow. apply soccer_aggregate_Ok in He. subst totals.
  apply totals_of_In in Hrow. destruct Hrow as (k & _ & ->).
  eexists. apply identity_row_key.
Qed.

Lemma lacrosse_row_stats (logs : DataFrame)
      (totals : list (TotalsRow Lacrosse.Stats)) (row : TotalsRow Lacrosse.Stats) :
  Lacrosse.aggregate_totals logs = Ok totals -> In row totals ->
  exists grp, stats row = Lacrosse.group_stats grp.
Proof.
  intros He Hrow. apply lacrosse_aggregate_Ok in He. subst totals.
  apply totals_of_In in Hrow. destruct Hrow as (k & _ & ->).
  eexists. apply identity_row_key.
Qed.

(** X14. In every Soccer row, passes completed do not exceed passes
    attempted, yellow and red cards together do not exceed fouls, and no
    count is negative. *)
Theorem soccer_counts_consistent (logs : DataFrame)
        (totals : list (TotalsRow Soccer.Stats)) (row : TotalsRow Soccer.Stats) :
  Soccer.aggregate_totals logs = Ok totals -> In row totals ->
  let s := stats row in
  0 <= Soccer.Passes_Completed s <= Soccer.Passes_Attempted s
  /\ 0 <= Soccer.Yellow_Cards s /\ 0 <= Soccer.Red_Cards s
  /\ Soccer.Yellow_Cards s + Soccer.Red_Cards s <= Soccer.Fouls s
  /\ 0 <= Soccer.Shots s /\ 0 <= Soccer.Assists s.
Proof.
  intros He Hrow. destruct (@soccer_row_stats logs totals row He Hrow) as [grp ->].
  cbv zeta. unfold Soccer.group_stats.
  cbn [Soccer.Passes_Completed Soccer.Passes_Attempted Soccer.Yellow_Cards
       Soccer.Red_Cards Soccer.Fouls Soccer.Shots Soccer.Assists].
  set (pass_df := filter (Soccer.is_stat "Pass") grp).
  set (foul_df := filter (Soccer.is_stat "Foul") grp).
  pose proof (count_bounds (fun e => attr_is "Complete" (outcome e)) pass_df) as B1.
  pose proof (count_bounds (fun e => attr_is "Yellow" (card e)) foul_df) as B2.
  pose proof (count_bounds (fun e => attr_is "Red" (card e)) foul_df) as B3.
  pose proof (count_disjoint (fun e => attr_is "Yellow" (card e))
                (fun e => attr_is "Red" (card e)) foul_df
                (fun e => cards_disjoint (card e))) as B4.
  pose proof (count_bounds (Soccer.is_stat "Shot") grp) as B5.
  pose proof (count_bounds (Soccer.is_stat "Assist") grp) as B6.
  lia.
Qed.

(** X15. In every Lacrosse row, Points is Goals plus Assists, Caused
    Turnovers is Takeaways plus Interceptions, Shots on Goal Faced is
    Saves plus Goals Allowed, faceoffs won do not exceed faceoffs
    attempted, and no count is negative. *)
Theorem lacrosse_counts_consistent (logs : DataFrame)
        (totals : list (TotalsRow Lacrosse.Stats)) (row : TotalsRow Lacrosse.Stats) :
  Lacrosse.aggregate_totals logs = Ok totals -> In row totals ->
  let s := stats row in
  Lacrosse.Points s = Lacrosse.Goals s + Lacrosse.Assists s
  /\ Lacrosse.Caused_Turnovers s = Lacrosse.Takeaways s + Lacrosse.Interceptions s
  /\ Lacrosse.Shots_on_Goal_Faced s = Lacrosse.Saves s + Lacrosse.Goals_Allowed s
  /\ 0 <= Lacrosse.Faceoffs_Won s <= Lacrosse.Faceoffs_Attempted s
  /\ 0 <= Lacrosse.Goals s /\ 0 <= Lacrosse.Assists s /\ 0 <= Lacrosse.Shots s
  /\ 0 <= Lacrosse.Saves s /\ 0 <= Lacrosse.Goals_Allowed s
  /\ 0 <= Lacrosse.Penalties s.
Proof.
  intros He Hrow. destruct (@lacrosse_row_stats logs totals row He Hrow) as [grp ->].
  cbv zeta. unfold Lacrosse.group_stats.
  cbn [Lacrosse.Points Lacrosse.Goals Lacrosse.Assists Lacrosse.Caused_Turnovers
       Lacrosse.Takeaways Lacrosse.Interceptions Lacrosse.Shots_on_Goal_Faced
       Lacrosse.Saves Lacrosse.Goals_Allowed Lacrosse.Faceoffs_Won
       Lacrosse.Faceoffs_Attempted Lacrosse.Shots Lacrosse.Penalties].
  set (fo := filter (Lacrosse.is_stat "Faceoff") grp).
  pose proof (count_bounds (fun e => attr_is "Win" (outcome e)) fo) as B1.
  pose proof (count_bounds (Lacrosse.is_stat "Goal") grp) as B2.
  pose proof (count_bounds (Lacrosse.is_stat "Assist") grp) as B3.
  pose proof (count_bounds (Lacrosse.is_stat "Save") grp) as B4.
  pose proof (count_bounds (Lacrosse.is_stat "Goal Allowed") grp) as B5.
  repeat split; try lia.
Qed.

End Invariants.

Lemma soccer_counts_witness :
  exists totals,
    @Soccer.aggregate_totals ascii_builtins sample_soccer_log = Ok totals
    /\ forall row, In row totals ->
         Soccer.Yellow_Cards (stats row) + Soccer.Red_Cards (stats row)
         <= Soccer.Fouls (stats row).
Proof.
  destruct (@Soccer.aggregate_totals ascii_builtins sample_soccer_log)
    as [totals|] eqn:E; [|vm_compute in E; discriminate E].
  exists totals. split; [reflexivity|]. intros row Hrow.
  apply (@soccer_counts_consistent ascii_builtins sample_soccer_log totals row E Hrow).
Defined.

Lemma lacrosse_counts_witness :
  exists totals,
    @Lacrosse.aggregate_totals ascii_builtins sample_lacrosse_log = Ok totals
    /\ forall row, In row totals ->
         Lacrosse.Points (stats row)
         = Lacrosse.Goals (stats row) + Lacrosse.Assists (stats row).
Proof.
  destruct (@Lacrosse.aggregate_totals ascii_builtins sample_lacrosse_log)
    as [totals|] eqn:E; [|vm_compute in E; discriminate E].
  exists totals. split; [reflexivity|]. intros row Hrow.
  apply (@lacrosse_counts_consistent ascii_builtins sample_lacrosse_log totals row
           E Hrow).
Defined.

(** ** Nothing is lost between the log and the table *)

Lemma count_ext_in {A : Type} (p q : A -> bool) (l : list A) :
  (forall x, In x l -> p x = q x) -> count p l = count q l.
Proof. intros He. unfold count. rewrite (filter_ext_in p q l He). reflexivity. Qed.

Lemma count_or_disjoint {A : Type} (a b : A -> bool) (l : list A) :
  (forall x, a x && b x = false) ->
  count (fun x => a x || b x) l = count a l + count b l.
Proof.
  intros Hd. unfold count. induction l as [|x l IH]; [reflexivity|].
  cbn [filter]. pose proof (Hd x) as Hx.
  destruct (a x), (b x); cbn [andb orb] in *; try discriminate Hx;
    cbn [List.length]; rewrite ?Nat2Z.inj_succ; lia.
Qed.

Lemma count_false {A : Type} (l : list A) : count (fun _ => false) l = 0.
Proof. unfold count. induction l as [|x l IH]; [reflexivity | exact IH]. Qed.

(** The groups of distinct keys split the rows: counting in each group
    and adding up counts every row whose key is one of the keys once. *)
Lemma group_counts_partition (p : Event -> bool) (evs : list Event)
      (ks : list string) :
  NoDup ks ->
  list_sum
    (map (fun k => count p (filter (fun e => String.eqb (player_key e) k) evs)) ks)
  = count (fun e => existsb (String.eqb (player_key e)) ks && p e) evs.
Proof.
  induction 1 as [|k ks Hk Hnd IH].
  - symmetry. apply count_false.
  - cbn [map existsb]. unfold list_sum in *. cbn [fold_right].
    rewrite IH, count_of_filter.
    rewrite <- (count_or_disjoint
                  (fun e => String.eqb (player_key e) k && p e)
                  (fun e => existsb (String.eqb (player_key e)) ks && p e)).
    + apply count_ext_in. intros e _.
      destruct (String.eqb (player_key e) k),
               (existsb (String.eqb (player_key e)) ks), (p e); reflexivity.
    + intros e.
      destruct (String.eqb (player_key e) k) eqn:E1; [|reflexivity].
      destruct (existsb (String.eqb (player_key e)) ks) eqn:E2;
        [|destruct (p e); reflexivity].
      exfalso. apply Hk. apply String.eqb_eq in E1. subst k.
      apply existsb_exists in E2. destruct E2 as (y & Hy & Ey).
      apply String.eqb_eq in Ey. subst y. exact Hy.
Qed.

(** A count column adds up, over the rows of the table, to the count
    over the whole list of events. *)
Lemma totals_count_conservation {S : Type} (per_group : list Event -> S)
      (col : S -> Z) (p : Event -> bool) (evs : list Event) :
  (forall g, col (per_group g) = count p g) ->
  list_sum (map (fun r => col (stats r)) (totals_of per_group evs)) = count p evs.
Proof.
  intros Hcol. unfold totals_of, groupby_player_key.
  rewrite (list_sum_perm
             (Permutation_map (fun r => col (stats r)) (sort_values_perm _))).
  rewrite !map_map.
  erewrite map_ext;
    [|intros k; cbn [fst snd];
      rewrite (proj2 (identity_row_key _ _ _)); apply Hcol].
  rewrite group_counts_partition
    by (apply strictly_sorted_NoDup, sorted_keys_sorted).
  apply count_ext_in. intros e He.
  replace (existsb (String.eqb (player_key e)) (sorted_keys (map player_key evs)))
    with true; [reflexivity|].
  symmetry. apply existsb_exists. exists (player_key e).
  split; [|apply String.eqb_refl].
  apply sorted_keys_In, in_map, He.
Qed.

(** X16. The Football table loses and duplicates nothing: added up over
    its rows, Receptions, Rush Attempts, Pass Attempts and Tackles are
    the numbers of Football events of that stat type in the log. *)
Theorem football_counts_conserved (logs : DataFrame)
        (totals : list (TotalsRow Football.Stats)) :
  Football.aggregate_totals logs = Ok totals ->
  let in_log stat :=
    count (fun e => String.eqb (sport e) Football.name
                    && String.eqb (stat_type e) stat) (rows logs) in
  list_sum (map (fun r => Football.Receptions (stats r)) totals) = in_log "Reception"
  /\ list_sum (map (fun r => Football.Rush_Attempts (stats r)) totals) = in_log "Run"
  /\ list_sum (map (fun r => Football.Pass_Attempts (stats r)) totals) = in_log "Pass"
  /\ list_sum (map (fun r => Football.Tackles (stats r)) totals) = in_log "Tackle".
Proof.
  intros He. apply football_aggregate_Ok in He. subst totals. cbv zeta.
  repeat split.
  - rewrite (totals_count_conservation Football.group_stats Football.Receptions
               (Football.is_stat "Reception")) by reflexivity.
    rewrite count_map. unfold sport_events. rewrite count_of_filter. reflexivity.
  - rewrite (totals_count_conservation Football.group_stats Football.Rush_Attempts
               (Football.is_stat "Run")) by reflexivity.
    rewrite count_map. unfold sport_events. rewrite count_of_filter. reflexivity.
  - rewrite (totals_count_conservation Football.group_stats Football.Pass_Attempts
               (Football.is_stat "Pass")) by reflexivity.
    rewrite count_map. unfold sport_events. rewrite count_of_filter. reflexivity.
  - rewrite (totals_count_conservation Football.group_stats Football.Tackles
               (Football.is_stat "Tackle")) by reflexivity.
    rewrite count_map. unfold sport_events. rewrite count_of_filter. reflexivity.
Qed.

Lemma football_counts_conserved_witness :
  exists totals,
    Football.aggregate_totals sample_football_log = Ok totals
    /\ list_sum (map (fun r => Football.Receptions (stats r)) totals) = 1
    /\ list_sum (map (fun r => Football.Pass_Attempts (stats r)) totals) = 1.
Proof.
  destruct (Football.aggregate_totals sample_football_log) as [totals|] eqn:E;
    [|vm_compute in E; discriminate E].
  exists totals. split; [reflexivity|].
  destruct (@football_counts_conserved sample_football_log totals E)
    as (Hr & _ & Hp & _).
  split; [rewrite Hr | rewrite Hp]; reflexivity.
Defined.

(** ** From a submission to the totals *)

Section PassTotals.
Context `{Builtins}.

Lemma football_pair_rows (roster : Roster.t) (f : Football.Form) :
  Football.well_formed roster f ->
  Football.submitted f = true ->
  Football.stat_type_of f = "Pass" ->
  Football.fb_pass_outcome f = "Complete" ->
  Football.fb_pair_reception f = true ->
  In (Football.fb_receiver f) (Roster.others roster (Football.fb_player_select f)) ->
  exists pr rc,
    Roster.player_key pr = Football.fb_player_select f
    /\ Roster.player_key rc = Football.fb_receiver f
    /\ Football.yards_of f = Some (Football.fb_yards f)
    /\ Football.touchdown_of f = (if Football.fb_td f then 1 else 0)
    /\ Football.build_form roster f
       = Ok (true, [Football.make_row f pr "Offense" "Pass" (Some "Complete");
                    Football.make_row f rc "Offense" "Reception" None]).
Proof.
  intros Hwf Hsub Hst Hout Hpair Hrcv.
  destruct (football_pass_is_offense Hwf Hst) as [Hside Hoff].
  destruct Hwf as (Hplayer & _).
  apply others_In in Hrcv. destruct Hrcv as [Hrcv Hneq].
  destruct (loc_first_In _ _ Hplayer) as (pr & Epr & Kpr & _).
  destruct (loc_first_In _ _ Hrcv) as (rc & Erc & Krc & _).
  exists pr, rc. split; [exact Kpr|]. split; [exact Krc|].
  split; [|split].
  - unfold Football.yards_of. rewrite Hside, Hoff, Hout. reflexivity.
  - unfold Football.touchdown_of. rewrite Hside, Hoff, Hout. reflexivity.
  - unfold Football.build_form, Football.paired_reception.
    rewrite Hsub, Epr. cbn [bind]. rewrite Hst, Erc.
    unfold Football.outcome_of. rewrite Hside, Hoff, Hout, Hpair. reflexivity.
Qed.

(** X17. From the form to the table.  After "Create Game", one complete
    pass with the pairing box ticked gives Football totals in which the
    passer has one attempt, one completion and the pass yards, the
    receiver has one reception and the same yards as receiving yards,
    and a touchdown pass is counted once for each of them. *)
Theorem paired_pass_totals (roster : Roster.t) (f : Football.Form) :
  Football.well_formed roster f ->
  Football.submitted f = true ->
  Football.stat_type_of f = "Pass" ->
  Football.fb_pass_outcome f = "Complete" ->
  Football.fb_pair_reception f = true ->
  In (Football.fb_receiver f) (Roster.others roster (Football.fb_player_select f)) ->
  -99 <= Football.fb_yards f <= 300 ->
  let tdv := if Football.fb_td f then 1 else 0 in
  exists totals passer receiver,
    Football.aggregate_totals
      (log_stat new_game_logs (Football.build_form roster f)) = Ok totals
    /\ In passer totals /\ In receiver totals
    /\ t_player_key passer = Football.fb_player_select f
    /\ Football.Pass_Attempts (stats passer) = 1
    /\ Football.Pass_Completions (stats passer) = 1
    /\ Football.Pass_Yards (stats passer) = Football.fb_yards f
    /\ Football.Passing_TDs (stats passer) = tdv
    /\ Football.Receptions (stats passer) = 0
    /\ Football.Touchdowns_Total (stats passer) = tdv
    /\ t_player_key receiver = Football.fb_receiver f
    /\ Football.Receptions (stats receiver) = 1
    /\ Football.Receiving_Yards (stats receiver) = Football.fb_yards f
    /\ Football.Receiving_TDs (stats receiver) = tdv
    /\ Football.Pass_Attempts (stats receiver) = 0
    /\ Football.Touchdowns_Total (stats receiver) = tdv.
Proof.
  intros Hwf Hsub Hst Hout Hpair Hrcv Hy tdv.
  destruct (football_pair_rows Hwf Hsub Hst Hout Hpair Hrcv)
    as (pr & rc & Kpr & Krc & Hyo & Hto & Hbuild).
  apply others_In in Hrcv. destruct Hrcv as [_ Hneq].
  rewrite Hbuild.
  set (r1 := Football.make_row f pr "Offense" "Pass" (Some "Complete")).
  set (r2 := Football.make_row f rc "Offense" "Reception" None).
  assert (Hev : sport_events Football.name
                  (log_stat new_game_logs (Ok (true, [r1; r2]))) = [r1; r2])
    by reflexivity.
  assert (Hagg : Football.aggregate_totals
                   (log_stat new_game_logs (Ok (true, [r1; r2])))
                 = Ok (totals_of Football.group_stats
                         (map Football.coerce [r1; r2]))).
  { rewrite <- Hev. apply football_aggregate_total, log_stat_keeps_columns.
    reflexivity. }
  assert (Hw : wrap64 (Football.fb_yards f) = Football.fb_yards f)
    by (apply wrap64_small; lia).
  assert (E12 : String.eqb (Roster.player_key rc) (Roster.player_key pr) = false)
    by (apply String.eqb_neq; congruence).
  assert (E21 : String.eqb (Roster.player_key pr) (Roster.player_key rc) = false)
    by (apply String.eqb_neq; congruence).
  exists (totals_of Football.group_stats (map Football.coerce [r1; r2])).
  exists (identity_row (Roster.player_key pr) [Football.coerce r1]
            (Football.group_stats [Football.coerce r1])).
  exists (identity_row (Roster.player_key rc) [Football.coerce r2]
            (Football.group_stats [Football.coerce r2])).
  split; [exact Hagg|].
  split; [|split].
  - apply totals_of_In. exists (Roster.player_key pr).
    split; [left; reflexivity|].
    cbn [map filter player_key Football.coerce r1 r2 Football.make_row].
    rewrite String.eqb_refl, E12. reflexivity.
  - apply totals_of_In. exists (Roster.player_key rc).
    split; [right; left; reflexivity|].
    cbn [map filter player_key Football.coerce r1 r2 Football.make_row].
    rewrite String.eqb_refl, E21. reflexivity.
  - cbn [identity_row t_player_key stats].
    unfold Football.group_stats, count, int64_sum, Football.is_stat, Football.td,
      Football.yd, Football.mem.
    subst r1 r2. unfold Football.make_row. rewrite Hyo, Hto.
    cbn. rewrite ?Z.add_0_l, ?Hw. subst tdv.
    destruct (Football.fb_td f); cbn; repeat split; auto.
Qed.

End PassTotals.

Lemma paired_pass_totals_witness :
  exists totals passer receiver,
    Football.aggregate_totals sample_football_log = Ok totals
    /\ In passer totals /\ In receiver totals
    /\ Football.Pass_Yards (stats passer) = 20
    /\ Football.Receiving_Yards (stats receiver) = 20.
Proof.
  destruct (@paired_pass_totals ascii_builtins sample_roster sample_pass)
    as (totals & p & r & E & Hp & Hr & _ & _ & _ & Yp & _ & _ & _ & _ & _ & Yr & _).
  - unfold Football.well_formed; simpl; intuition.
  - reflexivity.
  - reflexivity.
  - reflexivity.
  - reflexivity.
  - simpl; intuition discriminate.
  - simpl; lia.
  - exists totals, p, r. auto.
Defined.

(** ** The export page: the jersey column *)

Lemma mem_In (s : string) (l : list string) : MaxPreps.mem s l = true <-> In s l.
Proof.
  unfold MaxPreps.mem. rewrite existsb_exists. split.
  - intros (x & Hx & E). apply String.eqb_eq in E. subst x. exact Hx.
  - intros Hin. exists s. split; [exact Hin|apply String.eqb_refl].
Qed.

Lemma raises_if {A : Type} (b : bool) (e : exn) (a : A) :
  raises (if b then Raise e else Ok a) <-> b = true.
Proof.
  destruct b; split.
  - reflexivity.
  - intros _. exists e. reflexivity.
  - intros [e' E]. discriminate E.
  - discriminate.
Qed.

Lemma find_none_intro {A : Type} (f : A -> bool) (l : list A) :
  (forall x, In x l -> f x = false) -> find f l = None.
Proof.
  induction l as [|x l IH]; intros Hall; [reflexivity|].
  cbn [find]. rewrite (Hall x (or_introl eq_refl)).
  apply IH. intros y Hy. apply Hall. right. exact Hy.
Qed.

Lemma find_app_l {A : Type} (f : A -> bool) (l1 l2 : list A) :
  find f l1 = None -> find f (l1 ++ l2)%list = find f l2.
Proof.
  induction l1 as [|x l1 IH]; cbn [find app]; [reflexivity|].
  destruct (f x); [discriminate|exact IH].
Qed.

Lemma Some_eq {A : Type} (a b : A) : Some a = Some b -> a = b.
Proof. intros E. injection E as E. exact E. Qed.

Section JerseyColumn.
Context `{Builtins}.

(** The resolved name is a column exactly when some column matches the
    name once both are stripped and lowercased. *)
Lemma resolve_in_columns (df : MaxPreps.Table) (name : string) :
  MaxPreps.mem (MaxPreps.resolve_column_name_case_insensitive df name)
               (MaxPreps.columns df) = true
  <-> exists c, In c (MaxPreps.columns df)
                /\ str_lower (str_strip c) = str_lower (str_strip name).
Proof.
  unfold MaxPreps.resolve_column_name_case_insensitive. cbv zeta.
  destruct (find _ (MaxPreps.columns df)) as [c|] eqn:E; rewrite mem_In.
  - apply find_some in E. destruct E as [Hin Heq]. apply String.eqb_eq in Heq.
    split; [intros _; exists c; auto | intros _; exact Hin].
  - split.
    + intros Hin. exists name. auto.
    + intros (c & Hin & Heq). pose proof (find_none _ _ E c Hin) as Hn.
      cbv beta in Hn. rewrite Heq, String.eqb_refl in Hn. discriminate Hn.
Qed.

Lemma unresolved_iff (df : MaxPreps.Table) (name : string) :
  negb (MaxPreps.mem (MaxPreps.resolve_column_name_case_insensitive df name)
                     (MaxPreps.columns df)) = true
  <-> forall c, In c (MaxPreps.columns df) ->
                str_lower (str_strip c) <> str_lower (str_strip name).
Proof.
  rewrite negb_true_iff. split.
  - intros E c Hin Heq.
    assert (Ht : MaxPreps.mem
                   (MaxPreps.resolve_column_name_case_insensitive df name)
                   (MaxPreps.columns df) = true)
      by (apply resolve_in_columns; exists c; auto).
    rewrite E in Ht. discriminate Ht.
  - intros Hno.
    destruct (MaxPreps.mem _ (MaxPreps.columns df)) eqn:E; [|reflexivity].
    apply resolve_in_columns in E. destruct E as (c & Hin & Heq).
    destruct (Hno c Hin Heq).
Qed.

(** X18. [build_maxpreps_txt], and the builder of the page's form, raise
    the ValueError exactly when no column of the sheet equals the jersey
    column name after stripping and lowercasing both; whatever the field
    map and the rows are. *)
Theorem export_raises_iff (df : MaxPreps.Table)
        (field_map : list (string * string)) (jersey : string)
        (declared : list string) :
  let unmatched :=
    forall c, In c (MaxPreps.columns df) ->
              str_lower (str_strip c) <> str_lower (str_strip jersey) in
  (raises (MaxPreps.build_maxpreps_txt df field_map jersey) <-> unmatched)
  /\ (raises (build_for_sport df field_map jersey declared) <-> unmatched).
Proof.
  cbv zeta. split.
  - unfold MaxPreps.build_maxpreps_txt. cbv zeta.
    rewrite raises_if. apply unresolved_iff.
  - unfold build_for_sport. cbv zeta.
    rewrite raises_if. apply unresolved_iff.
Qed.

Lemma lowered_get_some (cols : list string) (key c : string) :
  lowered_get cols key = Some c -> In c cols /\ str_lower c = key.
Proof.
  unfold lowered_get. intros E. apply find_some in E. destruct E as [Hin Heq].
  apply in_rev in Hin. apply String.eqb_eq in Heq. auto.
Qed.

Lemma lowered_get_none (cols : list string) (key : string) :
  lowered_get cols key = None -> forall c, In c cols -> str_lower c <> key.
Proof.
  unfold lowered_get. intros E c Hin Heq. apply in_rev in Hin.
  pose proof (find_none _ _ E c Hin) as Hn.
  cbv beta in Hn. rewrite Heq, String.eqb_refl in Hn. discriminate Hn.
Qed.

Lemma first_candidate_some (cols keys : list string) (c : string) :
  first_candidate cols keys = Some c -> In c cols /\ In (str_lower c) keys.
Proof.
  induction keys as [|key keys IH]; cbn [first_candidate]; [discriminate|].
  destruct (lowered_get cols key) as [d|] eqn:E.
  - intros Hc. apply Some_eq in Hc. subst d.
    apply lowered_get_some in E. destruct E as [Hin Heq].
    split; [exact Hin|left; symmetry; exact Heq].
  - intros Hc. destruct (IH Hc) as [Hin Hk]. split; [exact Hin|right; exact Hk].
Qed.

Lemma first_candidate_none (cols keys : list string) :
  first_candidate cols keys = None ->
  forall c, In c cols -> ~ In (str_lower c) keys.
Proof.
  induction keys as [|key keys IH]; cbn [first_candidate]; intros E c Hin Hk;
    [destruct Hk|].
  destruct (lowered_get cols key) as [d|] eqn:El; [discriminate E|].
  destruct Hk as [Hk|Hk].
  - exact (lowered_get_none _ El c Hin (eq_sym Hk)).
  - exact (IH E c Hin Hk).
Qed.

Lemma guess_in_columns (cols : list string) (c : string) :
  guess_jersey_column cols = Some c -> In c cols.
Proof.
  unfold guess_jersey_column.
  destruct (first_candidate cols jersey_candidates) as [d|] eqn:E.
  - intros Hc. apply Some_eq in Hc. subst d.
    apply first_candidate_some in E. tauto.
  - intros Hf. apply find_some in Hf. tauto.
Qed.

(** X19. What [guess_jersey_column] answers.  A guess is always one of
    the given columns, and either its lowercase is one of the eight
    candidate headers or it passes the heuristic test; there is no
    guess exactly when no column does either. *)
Theorem guess_jersey_characterised (cols : list string) :
  (forall c, guess_jersey_column cols = Some c ->
             In c cols
             /\ (In (str_lower c) jersey_candidates
                 \/ looks_like_jersey c = true))
  /\ (guess_jersey_column cols = None
      <-> forall c, In c cols ->
                    ~ In (str_lower c) jersey_candidates
                    /\ looks_like_jersey c = false).
Proof.
  unfold guess_jersey_column. split.
  - intros c. destruct (first_candidate cols jersey_candidates) as [d|] eqn:E.
    + intros Hc. apply Some_eq in Hc. subst d.
      apply first_candidate_some in E. tauto.
    + intros Hf. apply find_some in Hf. tauto.
  - destruct (first_candidate cols jersey_candidates) as [d|] eqn:E.
    + split; [discriminate|]. intros Hall.
      apply first_candidate_some in E. destruct E as [Hin Hk].
      destruct (Hall d Hin) as [Hno _]. destruct (Hno Hk).
    + split.
      * intros Hf c Hin. split.
        -- exact (first_candidate_none _ _ E c Hin).
        -- exact (find_none _ _ Hf c Hin).
      * intros Hall. apply find_none_intro. intros c Hin.
        destruct (Hall c Hin) as [_ Hl]. exact Hl.
Qed.

(** X20. A jersey column taken from the sheet's own columns, as the
    page's select box gives it, and in particular the guessed one, is
    always accepted: neither builder raises. *)
Theorem listed_jersey_column_builds (df : MaxPreps.Table)
        (field_map : list (string * string)) (jersey : string)
        (declared : list string) :
  In jersey (MaxPreps.columns df)
  \/ guess_jersey_column (MaxPreps.columns df) = Some jersey ->
  (exists txt, MaxPreps.build_maxpreps_txt df field_map jersey = Ok txt)
  /\ (exists txt, build_for_sport df field_map jersey declared = Ok txt).
Proof.
  intros Hj.
  assert (Hin : In jersey (MaxPreps.columns df))
    by (destruct Hj as [Hin|Hg]; [exact Hin|exact (guess_in_columns _ Hg)]).
  assert (Hm : MaxPreps.mem
                 (MaxPreps.resolve_column_name_case_insensitive df jersey)
                 (MaxPreps.columns df) = true)
    by (apply resolve_in_columns; exists jersey; auto).
  unfold MaxPreps.build_maxpreps_txt, build_for_sport. cbv zeta.
  rewrite Hm. cbn [negb]. split; eexists; reflexivity.
Qed.

(** X21. A column whose lowercase is "jersey" is the guess, and when
    there are several it is the last of them: the dict [lowered] keeps
    the latest column for each lowercase header. *)
Theorem last_jersey_header_is_guessed (before after : list string) (c : string) :
  str_lower c = "jersey" ->
  (forall d, In d after -> str_lower d <> "jersey") ->
  guess_jersey_column (before ++ c :: after)%list = Some c.
Proof.
  intros Hc Hafter.
  unfold guess_jersey_column, jersey_candidates. cbn [first_candidate].
  assert (E : lowered_get (before ++ c :: after)%list "jersey" = Some c).
  { unfold lowered_get. rewrite rev_app_distr. cbn [rev].
    rewrite <- app_assoc. rewrite find_app_l.
    - cbn [app find]. rewrite Hc. reflexivity.
    - apply find_none_intro. intros d Hd. apply in_rev in Hd.
      apply String.eqb_neq. exact (Hafter d Hd). }
  rewrite E. reflexivity.
Qed.

End JerseyColumn.

Lemma listed_jersey_column_witness :
  (exists txt, @MaxPreps.build_maxpreps_txt ascii_builtins sample_table
                 sample_field_map "number" = Ok txt)
  /\ (exists txt, @build_for_sport ascii_builtins sample_table
                    sample_field_map "number" ["RushingYards"] = Ok txt).
Proof.
  apply (@listed_jersey_column_builds ascii_builtins).
  right. reflexivity.
Defined.

Lemma last_jersey_header_witness :
  @guess_jersey_column ascii_builtins ["Number"; "JERSEY"; "Jersey"; "Rush Yds"]
  = Some "Jersey".
Proof.
  apply (@last_jersey_header_is_guessed ascii_builtins ["Number"; "JERSEY"]
           ["Rush Yds"] "Jersey").
  - reflexivity.
  - intros d [<-|[]]. vm_compute. discriminate.
Defined.

(** ** The export page: the header fields *)

Lemma mem_false (s : string) (l : list string) :
  MaxPreps.mem s l = false <-> ~ In s l.
Proof.
  rewrite <- mem_In. destruct (MaxPreps.mem s l); split.
  - discriminate.
  - intros Hn. exfalso. apply Hn. reflexivity.
  - intros _ E. discriminate E.
  - reflexivity.
Qed.

(** The list [included_sorted + extras] holds the members of
    [included], whatever [order] is. *)
Lemma sorted_then_extras_In (order included : list string) (f : string) :
  In f (filter (fun f => MaxPreps.mem f included) order
        ++ filter (fun f =>
                     negb (MaxPreps.mem f
                             (filter (fun f => MaxPreps.mem f included) order)))
                  included)%list
  <-> In f included.
Proof.
  rewrite in_app_iff. split.
  - intros [Hs|He].
    + apply filter_In in Hs. destruct Hs as [_ Hm]. apply mem_In. exact Hm.
    + apply filter_In in He. destruct He as [Hin _]. exact Hin.
  - intros Hin.
    destruct (MaxPreps.mem f (filter (fun f => MaxPreps.mem f included) order))
      eqn:E.
    + left. apply mem_In. exact E.
    + right. apply filter_In. split; [exact Hin|]. rewrite E. reflexivity.
Qed.

(** The loop that fills [included], for any test [ok] on an item. *)
Lemma included_In (ok : string -> string -> bool)
      (field_map : list (string * string)) (f : string) :
  In f (flat_map (fun item : string * string =>
                    let '(sheet_col, mp_field) := item in
                    if String.eqb mp_field "Jersey" then []
                    else if ok sheet_col mp_field then [mp_field] else [])
                 field_map)
  <-> f <> "Jersey"
      /\ exists sheet_col, In (sheet_col, f) field_map /\ ok sheet_col f = true.
Proof.
  rewrite in_flat_map. split.
  - intros ([s m] & Hin & Hx). cbv beta iota in Hx.
    destruct (String.eqb m "Jersey") eqn:EJ; [destruct Hx|].
    destruct (ok s m) eqn:Eok; [|destruct Hx].
    destruct Hx as [Hx|[]]. subst m.
    split; [apply String.eqb_neq; exact EJ|]. exists s. auto.
  - intros (Hne & s & Hin & Hok). exists (s, f). split; [exact Hin|].
    cbv beta iota. apply String.eqb_neq in Hne. rewrite Hne, Hok.
    left. reflexivity.
Qed.

Lemma nodupb_sound (l : list string) : nodupb l = true -> NoDup l.
Proof.
  induction l as [|x l IH]; cbn [nodupb]; intros E; [constructor|].
  apply andb_true_iff in E. destruct E as [Hx Hl].
  apply negb_true_iff, mem_false in Hx. constructor; auto.
Qed.

Lemma fields_NoDup : NoDup MaxPreps.MAXPREPS_FIELDS.
Proof. apply nodupb_sound. vm_compute. reflexivity. Qed.

Section HeaderFields.
Context `{Builtins}.

Lemma choose_fields_In (df : MaxPreps.Table)
      (field_map : list (string * string)) (f : string) :
  In f (MaxPreps.choose_fields_to_include df field_map)
  <-> f <> "Jersey"
      /\ exists sheet_col,
           In (sheet_col, f) field_map
           /\ In sheet_col (MaxPreps.columns df)
           /\ MaxPreps.has_any df sheet_col = true.
Proof.
  unfold MaxPreps.choose_fields_to_include. cbv zeta.
  rewrite sorted_then_extras_In.
  rewrite (included_In
             (fun sheet_col _ =>
                MaxPreps.mem sheet_col (MaxPreps.columns df)
                && MaxPreps.has_any df sheet_col) field_map f).
  split; intros (Hne & s & Hin & Hok); (split; [exact Hne|]); exists s.
  - apply andb_true_iff in Hok. destruct Hok as [Hc Ha].
    apply mem_In in Hc. auto.
  - destruct Hok as [Hc Ha]. apply mem_In in Hc. rewrite Hc, Ha. auto.
Qed.

Lemma choose_fields_for_sport_In (df : MaxPreps.Table)
      (field_map : list (string * string)) (declared : list string) (f : string) :
  In f (choose_fields_to_include_for_sport df field_map declared)
  <-> f <> "Jersey"
      /\ exists sheet_col,
           In (sheet_col, f) field_map
           /\ In sheet_col (MaxPreps.columns df)
           /\ MaxPreps.has_any df sheet_col = true
           /\ (declared = [] \/ In f declared).
Proof.
  unfold choose_fields_to_include_for_sport. cbv zeta.
  rewrite sorted_then_extras_In.
  rewrite (included_In
             (fun sheet_col mp_field =>
                MaxPreps.mem sheet_col (MaxPreps.columns df)
                && (MaxPreps.has_any df sheet_col
                    && (match declared with [] => true | _ => false end
                        || MaxPreps.mem mp_field declared))) field_map f).
  split; intros (Hne & s & Hin & Hok); (split; [exact Hne|]); exists s.
  - apply andb_true_iff in Hok. destruct Hok as [Hc Hok].
    apply andb_true_iff in Hok. destruct Hok as [Ha Hd].
    apply mem_In in Hc. repeat split; auto.
    apply orb_true_iff in Hd. destruct Hd as [Hd|Hd].
    + left. destruct declared; [reflexivity|discriminate Hd].
    + right. apply mem_In. exact Hd.
  - destruct Hok as (Hc & Ha & Hd). apply mem_In in Hc. rewrite Hc, Ha.
    split; [exact Hin|]. cbn [andb]. destruct Hd as [Hd|Hd].
    + subst declared. reflexivity.
    + apply mem_In in Hd. rewrite Hd. apply orb_true_r.
Qed.

(** X22. Which fields the header gets.  A MaxPreps field is included by
    [choose_fields_to_include] exactly when it is not "Jersey" and the
    field map sends to it a column of the sheet that has, in some row, a
    value that is neither missing nor blank. *)
Theorem choose_fields_membership (df : MaxPreps.Table)
        (field_map : list (string * string)) (f : string) :
  In f (MaxPreps.choose_fields_to_include df field_map)
  <-> f <> "Jersey"
      /\ exists sheet_col,
           In (sheet_col, f) field_map
           /\ In sheet_col (MaxPreps.columns df)
           /\ exists row,
                In row (MaxPreps.rows df)
                /\ MaxPreps.isna (row sheet_col) = false
                /\ str_strip (MaxPreps.py_str (row sheet_col)) <> "".
Proof.
  rewrite choose_fields_In. unfold MaxPreps.has_any.
  split; intros (Hne & s & Hin & Hc & Ha); (split; [exact Hne|]); exists s;
    (split; [exact Hin|]); (split; [exact Hc|]).
  - apply existsb_exists in Ha. destruct Ha as (row & Hrow & Hv).
    cbv zeta in Hv. apply andb_true_iff in Hv. destruct Hv as [Hna Hs].
    exists row. split; [exact Hrow|].
    split; [apply negb_true_iff; exact Hna|].
    apply String.eqb_neq, negb_true_iff. exact Hs.
  - destruct Ha as (row & Hrow & Hna & Hs). apply existsb_exists.
    exists row. split; [exact Hrow|]. cbv zeta. rewrite Hna.
    apply String.eqb_neq in Hs. rewrite Hs. reflexivity.
Qed.

(** X23. The declared field list of a sport only restricts the header:
    the page's variant includes a field exactly when
    [choose_fields_to_include] includes it and the declared list is
    empty or names it. *)
Theorem declared_fields_restrict (df : MaxPreps.Table)
        (field_map : list (string * string)) (declared : list string)
        (f : string) :
  In f (choose_fields_to_include_for_sport df field_map declared)
  <-> In f (MaxPreps.choose_fields_to_include df field_map)
      /\ (declared = [] \/ In f declared).
Proof.
  rewrite choose_fields_for_sport_In, choose_fields_In. split.
  - intros (Hne & s & Hin & Hc & Ha & Hd).
    split; [|exact Hd]. split; [exact Hne|]. exists s. auto.
  - intros ((Hne & s & Hin & Hc & Ha) & Hd).
    split; [exact Hne|]. exists s. auto.
Qed.

Lemma for_sport_nil (df : MaxPreps.Table) (field_map : list (string * string)) :
  choose_fields_to_include_for_sport df field_map []
  = MaxPreps.choose_fields_to_include df field_map.
Proof.
  unfold choose_fields_to_include_for_sport, MaxPreps.choose_fields_to_include.
  cbv beta iota zeta.
  rewrite (flat_map_ext
             (fun item : string * string =>
                let '(sheet_col, mp_field) := item in
                if String.eqb mp_field "Jersey" then []
                else if MaxPreps.mem sheet_col (MaxPreps.columns df)
                        && (MaxPreps.has_any df sheet_col
                            && (true || MaxPreps.mem mp_field []))
                     then [mp_field] else [])
             (fun item : string * string =>
                let '(sheet_col, mp_field) := item in
                if String.eqb mp_field "Jersey" then []
                else if MaxPreps.mem sheet_col (MaxPreps.columns df)
                        && MaxPreps.has_any df sheet_col
                     then [mp_field] else [])).
  - reflexivity.
  - intros [s m]. cbv beta iota. cbn [orb]. rewrite andb_true_r. reflexivity.
Qed.

(** X24. For a sport without a declared field list the page's variants
    are the module's functions: the same header fields and the same
    text, or the same error. *)
Theorem page_builder_without_declared (df : MaxPreps.Table)
        (field_map : list (string * string)) (jersey : string) :
  choose_fields_to_include_for_sport df field_map []
  = MaxPreps.choose_fields_to_include df field_map
  /\ build_for_sport df field_map jersey []
     = MaxPreps.build_maxpreps_txt df field_map jersey.
Proof.
  split; [apply for_sport_nil|].
  unfold build_for_sport, MaxPreps.build_maxpreps_txt, MaxPreps.export_lines.
  cbv zeta. rewrite for_sport_nil. reflexivity.
Qed.

(** X25. The order of the header.  The included fields that MaxPreps
    knows come first, in the order of MAXPREPS_FIELDS and each once; the
    fields that follow are not in MAXPREPS_FIELDS. *)
Theorem standard_fields_first (df : MaxPreps.Table)
        (field_map : list (string * string)) :
  let fields := MaxPreps.choose_fields_to_include df field_map in
  exists known extras,
    fields = (known ++ extras)%list
    /\ known = filter (fun f => MaxPreps.mem f fields) MaxPreps.MAXPREPS_FIELDS
    /\ NoDup known
    /\ (forall f, In f extras -> ~ In f MaxPreps.MAXPREPS_FIELDS).
Proof.
  cbv zeta.
  set (included :=
         flat_map (fun item : string * string =>
                     let '(sheet_col, mp_field) := item in
                     if String.eqb mp_field "Jersey" then []
                     else if MaxPreps.mem sheet_col (MaxPreps.columns df)
                             && MaxPreps.has_any df sheet_col
                          then [mp_field] else [])
                  field_map).
  set (order := filter (fun f => negb (String.eqb f "Jersey"))
                       MaxPreps.MAXPREPS_FIELDS).
  set (known := filter (fun f => MaxPreps.mem f included) order).
  set (extras := filter (fun f => negb (MaxPreps.mem f known)) included).
  assert (Hdef : MaxPreps.choose_fields_to_include df field_map
                 = (known ++ extras)%list) by reflexivity.
  assert (Hmem : forall f, In f (known ++ extras)%list <-> In f included)
    by (intros f; apply sorted_then_extras_In).
  assert (Hj : ~ In "Jersey" included).
  { intros Hin. apply included_In in Hin. destruct Hin as [Hne _].
    apply Hne. reflexivity. }
  exists known, extras. rewrite Hdef.
  split; [reflexivity|]. split; [|split].
  - unfold known at 1. unfold order. rewrite filter_filter. apply filter_ext_in.
    intros f _. apply Bool.eq_iff_eq_true.
    rewrite andb_true_iff, negb_true_iff, !mem_In, Hmem, String.eqb_neq.
    split; [tauto|]. intros Hin. split; [|exact Hin].
    intros E. subst f. exact (Hj Hin).
  - unfold known, order. apply NoDup_filter, NoDup_filter, fields_NoDup.
  - intros f He Hk. unfold extras in He. apply filter_In in He.
    destruct He as [Hin Hn]. apply negb_true_iff, mem_false in Hn.
    apply Hn. unfold known, order. apply filter_In. split.
    + apply filter_In. split; [exact Hk|].
      apply negb_true_iff, String.eqb_neq. intros E. subst f. exact (Hj Hin).
    + apply mem_In. exact Hin.
Qed.

(** Every entry of [reverse_map] names a column of the sheet that the
    field map sends to the field, directly or after resolving its name. *)
Lemma reverse_map_entries (df : MaxPreps.Table)
      (field_map : list (string * string)) (f col : string) :
  In (f, col) (MaxPreps.reverse_map_of df field_map) ->
  In col (MaxPreps.columns df)
  /\ exists sheet_col,
       In (sheet_col, f) field_map
       /\ (col = sheet_col
           \/ col = MaxPreps.resolve_column_name_case_insensitive df sheet_col).
Proof.
  unfold MaxPreps.reverse_map_of.
  assert (Hgen : forall fm acc,
             In (f, col)
                (fold_left
                   (fun acc (item : string * string) =>
                      let '(sheet_col, mp_field) := item in
                      if MaxPreps.mem sheet_col (MaxPreps.columns df)
                      then (mp_field, sheet_col) :: acc
                      else
                        let resolved :=
                          MaxPreps.resolve_column_name_case_insensitive df sheet_col in
                        if MaxPreps.mem resolved (MaxPreps.columns df)
                        then (mp_field, resolved) :: acc
                        else acc)
                   fm acc) ->
             In (f, col) acc
             \/ (In col (MaxPreps.columns df)
                 /\ exists sheet_col,
                      In (sheet_col, f) fm
                      /\ (col = sheet_col
                          \/ col = MaxPreps.resolve_column_name_case_insensitive
                                     df sheet_col))).
  { induction fm as [|[s m] fm IH]; intros acc Hin; [left; exact Hin|].
    cbn [fold_left] in Hin. apply IH in Hin.
    destruct Hin as [Hin|(Hc & s' & Hin' & Hs')].
    - destruct (MaxPreps.mem s (MaxPreps.columns df)) eqn:Es.
      + destruct Hin as [E|Hin]; [|left; exact Hin].
        injection E as E1 E2. subst m col. right.
        split; [apply mem_In; exact Es|]. exists s. split; [left; reflexivity|].
        left. reflexivity.
      + cbv zeta in Hin.
        destruct (MaxPreps.mem
                    (MaxPreps.resolve_column_name_case_insensitive df s)
                    (MaxPreps.columns df)) eqn:Er; [|left; exact Hin].
        destruct Hin as [E|Hin]; [|left; exact Hin].
        injection E as E1 E2. subst m col. right.
        split; [apply mem_In; exact Er|]. exists s. split; [left; reflexivity|].
        right. reflexivity.
    - right. split; [exact Hc|]. exists s'. split; [right; exact Hin'|exact Hs']. }
  intros Hin. apply Hgen in Hin. destruct Hin as [[]|Hin]. exact Hin.
Qed.

(** A field that the map sends a column of the sheet to has an entry. *)
Lemma reverse_map_has (df : MaxPreps.Table)
      (field_map : list (string * string)) (s f : string) :
  In (s, f) field_map -> In s (MaxPreps.columns df) ->
  exists col, In (f, col) (MaxPreps.reverse_map_of df field_map).
Proof.
  unfold MaxPreps.reverse_map_of.
  assert (Hkeep : forall fm acc,
             (exists col, In (f, col) acc) ->
             exists col,
               In (f, col)
                  (fold_left
                     (fun acc (item : string * string) =>
                        let '(sheet_col, mp_field) := item in
                        if MaxPreps.mem sheet_col (MaxPreps.columns df)
                        then (mp_field, sheet_col) :: acc
                        else
                          let resolved :=
                            MaxPreps.resolve_column_name_case_insensitive df sheet_col in
                          if MaxPreps.mem resolved (MaxPreps.columns df)
                          then (mp_field, resolved) :: acc
                          else acc)
                     fm acc)).
  { induction fm as [|[s' m'] fm IH]; intros acc Hacc; [exact Hacc|].
    cbn [fold_left]. apply IH. destruct Hacc as [col Hcol].
    destruct (MaxPreps.mem s' (MaxPreps.columns df));
      [exists col; right; exact Hcol|].
    cbv zeta.
    destruct (MaxPreps.mem _ (MaxPreps.columns df));
      exists col; [right; exact Hcol|exact Hcol]. }
  intros Hin Hs. generalize (@nil (string * string)).
  induction field_map as [|[s' m'] fm IH]; intros acc; [destruct Hin|].
  cbn [fold_left]. destruct Hin as [E|Hin].
  - injection E as E1 E2. subst s' m'. apply mem_In in Hs. rewrite Hs.
    apply Hkeep. exists s. left. reflexivity.
  - apply IH. exact Hin.
Qed.

(** X26. Every field of the header is backed by a column of the sheet:
    [reverse_map] has an entry for it, and every entry of [reverse_map]
    names a column that exists, so the lookups [row[sheet_col]] of the
    loop stay inside the sheet. *)
Theorem header_fields_have_columns (df : MaxPreps.Table)
        (field_map : list (string * string)) :
  (forall f col,
     MaxPreps.reverse_get (MaxPreps.reverse_map_of df field_map) f = Some col ->
     In col (MaxPreps.columns df))
  /\ (forall f,
        In f (MaxPreps.choose_fields_to_include df field_map) ->
        exists col,
          MaxPreps.reverse_get (MaxPreps.reverse_map_of df field_map) f = Some col
          /\ In col (MaxPreps.columns df)).
Proof.
  assert (Hget : forall f col,
             MaxPreps.reverse_get (MaxPreps.reverse_map_of df field_map) f
             = Some col ->
             In col (MaxPreps.columns df)).
  { intros f col. unfold MaxPreps.reverse_get.
    destruct (find _ (MaxPreps.reverse_map_of df field_map)) as [[k v]|] eqn:E;
      [|discriminate].
    intros Hc. apply Some_eq in Hc. cbn [snd] in Hc. subst v.
    apply find_some in E. destruct E as [Hin Hk]. cbn [fst] in Hk.
    apply String.eqb_eq in Hk. subst k.
    apply reverse_map_entries in Hin. tauto. }
  split; [exact Hget|].
  intros f Hf. apply choose_fields_In in Hf.
  destruct Hf as (_ & s & Hin & Hc & _).
  destruct (reverse_map_has df field_map s f Hin Hc) as [col Hcol].
  destruct (MaxPreps.reverse_get (MaxPreps.reverse_map_of df field_map) f)
    as [c|] eqn:E.
  - exists c. split; [reflexivity|]. exact (Hget f c E).
  - exfalso. unfold MaxPreps.reverse_get in E.
    destruct (find _ (MaxPreps.reverse_map_of df field_map)) as [kv|] eqn:Ef;
      [discriminate E|].
    pose proof (find_none _ _ Ef (f, col) Hcol) as Hn.
    cbn [fst] in Hn. rewrite String.eqb_refl in Hn. discriminate Hn.
Qed.

(** X27. The data lines are rectangular: every line after the two head
    lines joins with "|" a jersey value that is not empty and one value
    for each field of the header, at least one of which is not empty. *)
Theorem data_lines_match_header (df : MaxPreps.Table)
        (field_map : list (string * string)) (jcol line : string) :
  In line (skipn 2 (MaxPreps.export_lines df field_map jcol)) ->
  exists jersey_val values,
    line = String.concat "|" (jersey_val :: values)
    /\ jersey_val <> ""
    /\ List.length values
       = List.length (MaxPreps.choose_fields_to_include df field_map)
    /\ exists v, In v values /\ v <> "".
Proof.
  rewrite export_lines_filter. cbn [skipn]. intros Hin.
  apply in_map_iff in Hin. destruct Hin as (row & Hline & Hrow).
  apply filter_In in Hrow. destruct Hrow as [_ Hkeep].
  apply andb_true_iff in Hkeep. destruct Hkeep as [Hj Hv].
  apply negb_true_iff, String.eqb_neq in Hj.
  apply existsb_exists in Hv. destruct Hv as (v & Hv & Hne).
  apply negb_true_iff, String.eqb_neq in Hne.
  exists (MaxPreps.coerce_str_no_nan (row jcol)).
  exists (MaxPreps.field_values (MaxPreps.reverse_map_of df field_map)
            (MaxPreps.choose_fields_to_include df field_map) row).
  split; [symmetry; exact Hline|]. split; [exact Hj|]. split.
  - unfold MaxPreps.field_values. apply length_map.
  - exists v. auto.
Qed.

End HeaderFields.

Lemma data_lines_witness :
  exists jersey_val values,
    "12|42" = String.concat "|" (jersey_val :: values)
    /\ jersey_val <> ""
    /\ List.length values
       = List.length (@MaxPreps.choose_fields_to_include ascii_builtins
                        sample_table sample_field_map)
    /\ exists v, In v values /\ v <> "".
Proof.
  apply (@data_lines_match_header ascii_builtins sample_table sample_field_map
           "number" "12|42").
  vm_compute. left. reflexivity.
Defined.

(** ** Sheet ids and file names *)

Lemma strip_prefix_app (p s : string) : strip_prefix p (p ++ s) = Some s.
Proof.
  induction p as [|a p IH]; cbn [strip_prefix append]; [reflexivity|].
  rewrite Ascii.eqb_refl. exact IH.
Qed.

Lemma strip_prefix_some (p s r : string) : strip_prefix p s = Some r -> s = p ++ r.
Proof.
  revert s. induction p as [|a p IH]; intros s; cbn [strip_prefix append].
  - intros E. apply Some_eq in E. exact E.
  - destruct s as [|b s]; [discriminate|].
    destruct (Ascii.eqb a b) eqn:E; [|discriminate].
    apply Ascii.eqb_eq in E. subst b. intros Hr. rewrite (IH _ Hr). reflexivity.
Qed.

Lemma take_while_all (f : ascii -> bool) (s : string) :
  all_chars f (take_while f s) = true.
Proof.
  induction s as [|a s IH]; cbn [take_while]; [reflexivity|].
  destruct (f a) eqn:E; cbn [all_chars]; [rewrite E; exact IH|reflexivity].
Qed.

Lemma take_while_split (f : ascii -> bool) (s : string) :
  exists tl, s = take_while f s ++ tl.
Proof.
  induction s as [|a s IH].
  - exists "". reflexivity.
  - cbn [take_while]. destruct (f a).
    + destruct IH as [tl E]. exists tl. cbn [append]. rewrite <- E. reflexivity.
    + exists (String a s). reflexivity.
Qed.

Lemma take_while_app (f : ascii -> bool) (id rest : string) :
  all_chars f id = true -> take_while f rest = "" ->
  take_while f (id ++ rest) = id.
Proof.
  induction id as [|a id IH]; cbn [all_chars append take_while]; intros Ha Hr.
  - exact Hr.
  - apply andb_true_iff in Ha. destruct Ha as [Hc Ha].
    rewrite Hc, (IH Ha Hr). reflexivity.
Qed.

Lemma match_here_id (id rest : string) :
  id <> "" -> all_chars is_id_char id = true ->
  take_while is_id_char rest = "" ->
  match_sheet_id_here ("/spreadsheets/d/" ++ id ++ rest) = Some id.
Proof.
  intros Hne Ha Hr. unfold match_sheet_id_here.
  rewrite strip_prefix_app, take_while_app by assumption.
  destruct id; [destruct Hne; reflexivity|reflexivity].
Qed.

Lemma search_here (s id : string) :
  match_sheet_id_here s = Some id -> search_sheet_id s = Some id.
Proof. intros E. destruct s; cbn [search_sheet_id]; rewrite E; reflexivity. Qed.

(** No match starts inside a prefix that has no "/s" and does not end
    with "/". *)
Lemma search_skip (prefix tail : string) :
  contains "/s" (prefix ++ "s") = false ->
  search_sheet_id (prefix ++ tail) = search_sheet_id tail.
Proof.
  induction prefix as [|c p IH]; cbn [append]; intros Hc; [reflexivity|].
  cbn [contains] in Hc.
  destruct (strip_prefix "/s" (String c (p ++ "s"))) eqn:Es; [discriminate Hc|].
  assert (Hm : match_sheet_id_here (String c (p ++ tail)) = None).
  { unfold match_sheet_id_here. cbn [strip_prefix] in Es |- *.
    destruct (Ascii.eqb _ c); [|reflexivity].
    destruct p as [|d p']; cbn [append strip_prefix] in Es |- *.
    - vm_compute in Es. discriminate Es.
    - destruct (Ascii.eqb _ d); [discriminate Es|reflexivity]. }
  cbn [search_sheet_id]. rewrite Hm. exact (IH Hc).
Qed.

Lemma search_none (s : string) :
  contains "/spreadsheets/d/" s = false -> search_sheet_id s = None.
Proof.
  induction s as [|c s IH]; intros Hc; [reflexivity|].
  cbn [contains] in Hc. cbn [search_sheet_id]. unfold match_sheet_id_here.
  destruct (strip_prefix "/spreadsheets/d/" (String c s)); [discriminate Hc|].
  exact (IH Hc).
Qed.

Lemma contains_here (needle hay r : string) :
  strip_prefix needle hay = Some r -> contains needle hay = true.
Proof. intros E. destruct hay; cbn [contains]; rewrite E; reflexivity. Qed.

Lemma contains_tail (needle hay : string) (c : ascii) :
  contains needle hay = true -> contains needle (String c hay) = true.
Proof.
  intros E. cbn [contains].
  destruct (strip_prefix needle (String c hay)); [reflexivity|exact E].
Qed.

Lemma search_some (s id : string) :
  search_sheet_id s = Some id ->
  id <> "" /\ all_chars is_id_char id = true
  /\ contains ("/spreadsheets/d/" ++ id) s = true.
Proof.
  assert (Hhere : forall s, match_sheet_id_here s = Some id ->
                    id <> "" /\ all_chars is_id_char id = true
                    /\ contains ("/spreadsheets/d/" ++ id) s = true).
  { intros s0. unfold match_sheet_id_here.
    destruct (strip_prefix "/spreadsheets/d/" s0) as [r|] eqn:Ep; [|discriminate].
    destruct (take_while_split is_id_char r) as [tl Htl].
    pose proof (take_while_all is_id_char r) as Hall.
    destruct (take_while is_id_char r) as [|a t] eqn:Et; [discriminate|].
    intros E. apply Some_eq in E. subst id.
    split; [discriminate|]. split; [exact Hall|].
    apply strip_prefix_some in Ep. rewrite Ep, Htl.
    apply contains_here with (r := tl).
    rewrite <- str_app_assoc. apply strip_prefix_app. }
  induction s as [|c s IH].
  - cbn [search_sheet_id].
    destruct (match_sheet_id_here "") as [i|] eqn:E; [|discriminate].
    intros Hi. apply Some_eq in Hi. subst i. exact (Hhere _ E).
  - cbn [search_sheet_id].
    destruct (match_sheet_id_here (String c s)) as [i|] eqn:E.
    + intros Hi. apply Some_eq in Hi. subst i. exact (Hhere _ E).
    + intros Hs. destruct (IH Hs) as (H1 & H2 & H3).
      split; [exact H1|]. split; [exact H2|]. apply contains_tail. exact H3.
Qed.

Lemma all_chars_app (f : ascii -> bool) (a b : string) :
  all_chars f (a ++ b) = all_chars f a && all_chars f b.
Proof.
  induction a as [|c a IH]; cbn [append all_chars]; [reflexivity|].
  rewrite IH. apply andb_assoc.
Qed.

Lemma remove_chars_clean (f : ascii -> bool) (s : string) :
  all_chars (fun c => negb (f c)) (remove_chars f s) = true.
Proof.
  induction s as [|c s IH]; cbn [remove_chars]; [reflexivity|].
  destruct (f c) eqn:E; [exact IH|]. cbn [all_chars]. rewrite E, IH. reflexivity.
Qed.

Lemma remove_chars_fixed (f : ascii -> bool) (s : string) :
  all_chars (fun c => negb (f c)) s = true -> remove_chars f s = s.
Proof.
  induction s as [|c s IH]; cbn [remove_chars all_chars]; [reflexivity|].
  intros E. apply andb_true_iff in E. destruct E as [Hc Hs].
  apply negb_true_iff in Hc. rewrite Hc, (IH Hs). reflexivity.
Qed.

Lemma str_length_app (a b : string) :
  String.length (a ++ b) = (String.length a + String.length b)%nat.
Proof.
  induction a as [|c a IH]; cbn [append String.length]; [reflexivity|].
  rewrite IH. reflexivity.
Qed.

Lemma substring_whole (s : string) : substring 0 (String.length s) s = s.
Proof.
  induction s as [|c s IH]; [reflexivity|].
  cbn [String.length substring]. rewrite IH. reflexivity.
Qed.

Lemma substring_skip (a b : string) (m : nat) :
  substring (String.length a) m (a ++ b) = substring 0 m b.
Proof.
  induction a as [|c a IH]; [reflexivity|].
  cbn [String.length append substring]. exact IH.
Qed.

Lemma ends_with_app (suffix s : string) : ends_with suffix (s ++ suffix) = true.
Proof.
  unfold ends_with. cbv zeta. rewrite str_length_app.
  replace (String.length s + String.length suffix - String.length suffix)%nat
    with (String.length s) by lia.
  rewrite substring_skip, substring_whole, String.eqb_refl, andb_true_r.
  apply Nat.leb_le. lia.
Qed.

Lemma lower_app (a b : string) : lower (a ++ b) = lower a ++ lower b.
Proof.
  induction a as [|c a IH]; cbn [append lower]; [reflexivity|].
  rewrite IH. reflexivity.
Qed.

Lemma lower_keeps_txt (s : string) :
  ends_with ".txt" (@str_lower ascii_builtins (s ++ ".txt")) = true.
Proof.
  cbn [str_lower ascii_builtins]. rewrite lower_app.
  change (lower ".txt") with ".txt". apply ends_with_app.
Qed.

Section IdsAndNames.
Context `{Builtins}.

(** X28. The sheet id of a URL.  For a text made of a prefix without
    "/s" that does not end with "/", then "/spreadsheets/d/", then a
    non-empty run of letters, digits, "-" and "_", then a rest that does
    not start with such a character, [parse_sheet_id_from_url] returns
    exactly that run. *)
Theorem parse_sheet_id_of_url (prefix id rest : string) :
  contains "/s" (prefix ++ "s") = false ->
  id <> "" ->
  all_chars is_id_char id = true ->
  take_while is_id_char rest = "" ->
  parse_sheet_id_from_url (prefix ++ "/spreadsheets/d/" ++ id ++ rest) = id.
Proof.
  intros Hp Hne Ha Hr. unfold parse_sheet_id_from_url.
  rewrite (@search_skip prefix _ Hp).
  rewrite (@search_here _ id (@match_here_id id rest Hne Ha Hr)). reflexivity.
Qed.

(** X29. What [parse_sheet_id_from_url] can return.  A text without
    "/spreadsheets/d/" comes back stripped, so a bare id is kept; and in
    every case the answer is either the stripped text or a non-empty run
    of letters, digits, "-" and "_" that follows "/spreadsheets/d/" in
    the text. *)
Theorem parse_sheet_id_cases (url_or_id : string) :
  (contains "/spreadsheets/d/" url_or_id = false ->
   parse_sheet_id_from_url url_or_id = str_strip url_or_id)
  /\ (parse_sheet_id_from_url url_or_id = str_strip url_or_id
      \/ (parse_sheet_id_from_url url_or_id <> ""
          /\ all_chars is_id_char (parse_sheet_id_from_url url_or_id) = true
          /\ contains ("/spreadsheets/d/" ++ parse_sheet_id_from_url url_or_id)
                      url_or_id = true)).
Proof.
  unfold parse_sheet_id_from_url. split.
  - intros Hc. rewrite (@search_none url_or_id Hc). reflexivity.
  - destruct (search_sheet_id url_or_id) as [id|] eqn:E.
    + right. exact (@search_some url_or_id id E).
    + left. reflexivity.
Qed.

(** X30. [sanitize_filename] returns a name without quotes and
    parentheses.  When lowercasing keeps a final ".txt", as Python's
    [lower] does, the name ends with ".txt" up to case and sanitizing it
    again changes nothing. *)
Theorem sanitize_filename_clean (name : string) :
  all_chars (fun c => negb (is_quote_or_paren c)) (sanitize_filename name) = true
  /\ ((forall s, ends_with ".txt" (str_lower (s ++ ".txt")) = true) ->
      ends_with ".txt" (str_lower (sanitize_filename name)) = true
      /\ sanitize_filename (sanitize_filename name) = sanitize_filename name).
Proof.
  unfold sanitize_filename. cbv zeta.
  pose proof (remove_chars_clean is_quote_or_paren name) as Hclean.
  set (n := remove_chars is_quote_or_paren name) in *.
  destruct (ends_with ".txt" (str_lower n)) eqn:E; cbn [negb].
  - split; [exact Hclean|]. intros _. split; [exact E|].
    rewrite (@remove_chars_fixed is_quote_or_paren n Hclean), E. reflexivity.
  - assert (Hc : all_chars (fun c => negb (is_quote_or_paren c)) (n ++ ".txt")
                 = true)
      by (rewrite all_chars_app, Hclean; reflexivity).
    split; [exact Hc|]. intros Hlower. split; [apply Hlower|].
    rewrite (@remove_chars_fixed is_quote_or_paren _ Hc), Hlower. reflexivity.
Qed.

End IdsAndNames.

Lemma parse_sheet_id_witness :
  @parse_sheet_id_from_url ascii_builtins
    "https://docs.google.com/spreadsheets/d/1AbC-_9x/edit#gid=0"
  = "1AbC-_9x".
Proof.
  apply (@parse_sheet_id_of_url ascii_builtins "https://docs.google.com"
           "1AbC-_9x" "/edit#gid=0").
  - reflexivity.
  - discriminate.
  - reflexivity.
  - reflexivity.
Defined.

Lemma parse_bare_id_witness :
  @parse_sheet_id_from_url ascii_builtins " 1AbC-_9x " = "1AbC-_9x".
Proof.
  destruct (@parse_sheet_id_cases ascii_builtins " 1AbC-_9x ") as [Hbare _].
  rewrite Hbare; reflexivity.
Defined.

Lemma sanitize_filename_witness :
  @sanitize_filename ascii_builtins
    (@sanitize_filename ascii_builtins "Week 1 (JV) totals")
  = "Week 1 JV totals.txt".
Proof.
  destruct (@sanitize_filename_clean ascii_builtins "Week 1 (JV) totals")
    as [_ Hh].
  destruct (Hh lower_keeps_txt) as [_ Hi].
  rewrite Hi. reflexivity.
Defined.

(** ** Examples for the properties above *)

Lemma derived_events_witness :
  exists e p,
    In e (new_rows (@Football.build_form ascii_builtins sample_roster sample_pass))
    /\ sport e = Football.name
    /\ Roster.loc_first sample_roster (player_key e) = Ok p
    /\ event_of_player p e.
Proof.
  destruct (new_rows (@Football.build_form ascii_builtins sample_roster sample_pass))
    as [|e l] eqn:E; [vm_compute in E; discriminate E|].
  destruct (@derived_events_resolve ascii_builtins sample_roster) as [Hf _].
  assert (Hin : In e (new_rows (@Football.build_form ascii_builtins sample_roster
                                  sample_pass)))
    by (rewrite E; left; reflexivity).
  destruct (Hf sample_pass e Hin) as (Hs & p & Hp & He).
  exists e, p. rewrite <- E. auto.
Defined.

Lemma aggregate_returns_witness :
  exists totals, Football.aggregate_totals sample_football_log = Ok totals.
Proof.
  apply (proj2 (proj1 (@aggregate_returns_iff ascii_builtins sample_football_log))).
  split; [reflexivity|]. right. reflexivity.
Defined.

Lemma totals_one_row_witness :
  exists totals,
    Football.aggregate_totals sample_football_log = Ok totals
    /\ NoDup (map (@t_player_key _) totals).
Proof.
  destruct (Football.aggregate_totals sample_football_log) as [totals|] eqn:E;
    [|vm_compute in E; discriminate E].
  exists totals. split; [reflexivity|].
  destruct (@totals_one_row_per_player ascii_builtins sample_football_log) as [Hf _].
  exact (proj1 (Hf totals E)).
Defined.

Lemma totals_sorted_witness :
  exists totals,
    Football.aggregate_totals sample_football_log = Ok totals
    /\ Sorted (@name_le _) totals.
Proof.
  destruct (Football.aggregate_totals sample_football_log) as [totals|] eqn:E;
    [|vm_compute in E; discriminate E].
  exists totals. split; [reflexivity|].
  destruct (@totals_sorted_by_name ascii_builtins sample_football_log) as [Hf _].
  exact (Hf totals E).
Defined.

Lemma guess_jersey_witness :
  In "Number" ["Rush Yds"; "Number"]
  /\ (In (@str_lower ascii_builtins "Number") jersey_candidates
      \/ @looks_like_jersey ascii_builtins "Number" = true).
Proof.
  apply (proj1 (@guess_jersey_characterised ascii_builtins ["Rush Yds"; "Number"])).
  reflexivity.
Defined.

Lemma header_fields_witness :
  exists col,
    @MaxPreps.reverse_get
      (@MaxPreps.reverse_map_of ascii_builtins sample_table sample_field_map)
      "RushingYards" = Some col
    /\ In col (MaxPreps.columns sample_table).
Proof.
  apply (proj2 (@header_fields_have_columns ascii_builtins sample_table
                  sample_field_map)).
  vm_compute. left. reflexivity.
Defined.
